(** * RetailMind Lite: the analytics and decision-scoring core

    A shallow embedding of [models/forecasting.py], [models/risk_engine.py],
    [models/synergy_analyzer.py] and [models/simulator.py], with the
    properties of the specification stated and proved over it.

    Numbers.  The Python code computes with IEEE doubles (Python [float] and
    numpy [float64]).  Two models of them are used.

    The first reads the code over exact rationals extended with the special
    values the code can produce and test for: [NaN] (mean of an empty series,
    standard deviation of fewer than two points, 0/0) and the two infinities
    (numpy division of a non-zero number by zero).  Rounding, overflow and
    signed zeros are not modelled there; it carries the properties that do
    not hang on the last digits of a result: which branch raises, which guard
    returns, caps, signs and orders.

    The second is binary64 itself ([F64], [Simulator64], [Synergy64]).  It
    carries the properties on which rounding decides: an equation between two
    computed figures, or a threshold met exactly. *)

From Stdlib Require Import String Ascii DecimalString OrderedTypeEx.
From Stdlib Require Import ZArith QArith Qabs Qminmax Bool Lia Lqa.
From Stdlib Require Floats.
From Stdlib Require Import List Sorting.Sorted Permutation.
Import ListNotations.

Set Warnings "-inexact-float".

Open Scope Q_scope.

(** ** Exceptions *)

Inductive exn : Type :=
| ZeroDivisionError
| IndexError
| ValueError
| OverflowError
| LibraryError (msg : string).

Inductive result (A : Type) : Type :=
| Ok (a : A)
| Raise (e : exn).

Arguments Ok {A} a.
Arguments Raise {A} e.

Definition bind {A B} (r : result A) (k : A -> result B) : result B :=
  match r with
  | Ok a => k a
  | Raise e => Raise e
  end.

Notation "x <- r ;; k" := (bind r (fun x => k))
  (at level 61, r at next level, right associativity).

Definition raises {A} (r : result A) : Prop :=
  match r with Ok _ => False | Raise _ => True end.

Definition returns {A} (r : result A) : Prop :=
  match r with Ok _ => True | Raise _ => False end.

(** ** Floating-point values *)

Module Num.

Inductive fl : Type :=
| NaN
| PInf
| NInf
| Fin (q : Q).

(** Same value (meta-level; Python's [==] is [feqb] below). *)
Definition feq (x y : fl) : Prop :=
  match x, y with
  | NaN, NaN => True
  | PInf, PInf => True
  | NInf, NInf => True
  | Fin a, Fin b => a == b
  | _, _ => False
  end.

Definition is_fin (x : fl) : Prop :=
  match x with Fin _ => True | _ => False end.

Definition Qlt_bool (a b : Q) : bool := negb (Qle_bool b a).

(** [x < y]; every comparison with NaN is false. *)
Definition flt (x y : fl) : bool :=
  match x, y with
  | NaN, _ => false
  | _, NaN => false
  | PInf, _ => false
  | NInf, NInf => false
  | NInf, _ => true
  | Fin _, NInf => false
  | Fin a, Fin b => Qlt_bool a b
  | Fin _, PInf => true
  end.

Definition fgt (x y : fl) : bool := flt y x.

(** [x <= y] *)
Definition fle (x y : fl) : bool :=
  match x, y with
  | NaN, _ => false
  | _, NaN => false
  | NInf, _ => true
  | _, PInf => true
  | PInf, _ => false
  | Fin _, NInf => false
  | Fin a, Fin b => Qle_bool a b
  end.

Definition fge (x y : fl) : bool := fle y x.

(** Python's [x == y] *)
Definition feqb (x y : fl) : bool :=
  match x, y with
  | PInf, PInf => true
  | NInf, NInf => true
  | Fin a, Fin b => Qeq_bool a b
  | _, _ => false
  end.

Definition isnan (x : fl) : bool :=
  match x with NaN => true | _ => false end.

Definition fopp (x : fl) : fl :=
  match x with
  | NaN => NaN
  | PInf => NInf
  | NInf => PInf
  | Fin a => Fin (- a)
  end.

Definition fabs (x : fl) : fl :=
  match x with
  | NaN => NaN
  | PInf | NInf => PInf
  | Fin a => Fin (Qabs a)
  end.

Definition fadd (x y : fl) : fl :=
  match x, y with
  | NaN, _ => NaN
  | _, NaN => NaN
  | PInf, NInf => NaN
  | NInf, PInf => NaN
  | PInf, _ => PInf
  | _, PInf => PInf
  | NInf, _ => NInf
  | _, NInf => NInf
  | Fin a, Fin b => Fin (a + b)
  end.

Definition fsub (x y : fl) : fl := fadd x (fopp y).

(** An infinity of the sign of [q] times the sign [pos]; NaN for [q = 0]. *)
Definition inf_signed (pos : bool) (q : Q) : fl :=
  match 0 ?= q with
  | Eq => NaN
  | Lt => if pos then PInf else NInf
  | Gt => if pos then NInf else PInf
  end.

Definition fmul (x y : fl) : fl :=
  match x, y with
  | NaN, _ => NaN
  | _, NaN => NaN
  | PInf, PInf => PInf
  | NInf, NInf => PInf
  | PInf, NInf => NInf
  | NInf, PInf => NInf
  | PInf, Fin b => inf_signed true b
  | NInf, Fin b => inf_signed false b
  | Fin a, PInf => inf_signed true a
  | Fin a, NInf => inf_signed false a
  | Fin a, Fin b => Fin (a * b)
  end.

(** numpy's [float64] division: a division by zero yields an infinity or
    NaN (with a warning), it never raises. *)
Definition fdiv (x y : fl) : fl :=
  match x, y with
  | NaN, _ => NaN
  | _, NaN => NaN
  | Fin a, Fin b => if Qeq_bool b 0 then inf_signed true a else Fin (a / b)
  | Fin _, _ => Fin 0
  | PInf, Fin b => if Qlt_bool b 0 then NInf else PInf
  | NInf, Fin b => if Qlt_bool b 0 then PInf else NInf
  | _, _ => NaN
  end.

(** Python's builtin [max(a, b)]: [b] when [b > a], else [a]. *)
Definition pymax (a b : fl) : fl := if fgt b a then b else a.

(** Python's builtin [min(a, b)]: [b] when [b < a], else [a]. *)
Definition pymin (a b : fl) : fl := if flt b a then b else a.

(** Python's [int(x)]: truncation toward zero; NaN and the infinities raise. *)
Definition py_int (x : fl) : result Z :=
  match x with
  | NaN => Raise ValueError
  | PInf | NInf => Raise OverflowError
  | Fin q => Ok (Z.quot (Qnum q) (Zpos (Qden q)))
  end.

(** Division of Python [float]s and [int]s raises on a zero divisor. *)
Definition pydiv (a b : Q) : result Q :=
  if Qeq_bool b 0 then Raise ZeroDivisionError else Ok (a / b).

(** Square root.  Exact whenever the argument is the square of a rational,
    otherwise rounded down to a multiple of [1 / (den * 2^60)]. *)
Definition sqrt_prec : positive := (2 ^ 60)%positive.

Definition qsqrt (q : Q) : Q :=
  if (Qnum q <=? 0)%Z then 0
  else Qmake (Z.sqrt (Qnum q * Zpos (Qden q) * (Zpos sqrt_prec * Zpos sqrt_prec)))
             (Qden q * sqrt_prec).

End Num.
Export Num.

Declare Scope fl_scope.
Delimit Scope fl_scope with fl.
Infix "+" := fadd : fl_scope.
Infix "-" := fsub : fl_scope.
Infix "*" := fmul : fl_scope.
Infix "/" := fdiv : fl_scope.
Infix "<?" := flt : fl_scope.
Infix ">?" := fgt : fl_scope.
Infix "<=?" := fle : fl_scope.
Infix ">=?" := fge : fl_scope.
Infix "==?" := feqb (at level 70) : fl_scope.
Infix "=f" := feq (at level 70).

(** ** pandas series *)

Module Series.

Fixpoint qsum (l : list Q) : Q :=
  match l with
  | [] => 0
  | x :: t => x + qsum t
  end.

Definition qlen {A} (l : list A) : Q := inject_Z (Z.of_nat (length l)).

(** [Series.mean()]: NaN on an empty series. *)
Definition mean (l : list Q) : fl :=
  match l with
  | [] => NaN
  | _ => Fin (qsum l / qlen l)
  end.

(** Sum of squared deviations from the mean. *)
Definition ssqdm (l : list Q) : Q :=
  let m := qsum l / qlen l in
  qsum (map (fun x => (x - m) * (x - m)) l).

(** [Series.std()] (sample standard deviation, [ddof = 1]): NaN on fewer than
    two points. *)
Definition std (l : list Q) : fl :=
  if (length l <? 2)%nat then NaN
  else Fin (qsqrt (ssqdm l / (qlen l - 1))).

(** [s.tail(n)] *)
Definition tail {A} (n : nat) (l : list A) : list A :=
  skipn (length l - n) l.

(** [s.iloc[:n]] *)
Definition head {A} (n : nat) (l : list A) : list A := firstn n l.

(** [s.iloc[-2*n:-n]] on a series of at least [2*n] points. *)
Definition prev {A} (n : nat) (l : list A) : list A :=
  firstn n (skipn (length l - 2 * n) l).

(** Sum of the products of the deviations of two aligned series. *)
Definition codev (x y : list Q) : Q :=
  let mx := qsum x / qlen x in
  let my := qsum y / qlen y in
  qsum (map (fun p => (fst p - mx) * (snd p - my)) (combine x y)).

Definition clip1 (r : Q) : Q :=
  if Qlt_bool 1 r then 1 else if Qlt_bool r (-1) then -1 else r.

(** Pearson correlation of two aligned series in exact arithmetic: the
    co-deviation over the square root of the product of the squared
    deviations, NaN when there is no observation or when that divisor is zero
    (a constant series).  [DataFrame.corr] and [Series.corr] each compute it
    in doubles, by different routes whose results can differ from it and
    from each other in the last digits; [Synergy64] has them apart. *)
Definition pearson (x y : list Q) : fl :=
  match x with
  | [] => NaN
  | _ =>
      let divisor := qsqrt (ssqdm x * ssqdm y) in
      if Qeq_bool divisor 0 then NaN
      else Fin (clip1 (codev x y / divisor))
  end.

End Series.
Export Series.

(** ** The historical record *)

Module Data.

(** One row of the sales table; [date] is a day number. *)
Record Row : Type := mkRow {
  date : Z;
  product : string;
  sales : Q;
  inventory : Q;
  price : Q;
  weather_score : Q;
  event_flag : bool
}.

Definition DataFrame : Type := list Row.

(** [s.iloc[0]] *)
Definition iloc0 {A} (l : list A) : result A :=
  match l with
  | [] => Raise IndexError
  | x :: _ => Ok x
  end.

(** Python's [str] of an [int]. *)
Definition str_int (z : Z) : string := NilZero.string_of_int (Z.to_int z).

Fixpoint mapM {A B} (f : A -> result B) (l : list A) : result (list B) :=
  match l with
  | [] => Ok []
  | x :: t => y <- f x ;; ys <- mapM f t ;; Ok (y :: ys)
  end.

End Data.
Export Data.

(** ** models/forecasting.py *)

Module Forecasting.

(** A row of the frame Prophet predicts. *)
Record PredRow : Type := mkPred {
  ds : Z;
  yhat : Q;
  yhat_lower : Q;
  yhat_upper : Q
}.

(** A row of [forecast_df]; the date is [None] for pandas' [NaT]. *)
Record ForecastRow : Type := mkForecastRow {
  r_date : option Z;
  r_forecast : fl;
  r_forecast_lower : fl;
  r_forecast_upper : fl
}.

Record ForecastResult : Type := mkForecastResult {
  forecast_df : list ForecastRow;
  recent_avg : fl;
  forecast_avg : fl;
  growth_pct : fl;
  peak_day : option Z;
  model : bool;
  error : option exn
}.

(** The Prophet library, as the [try] block uses it: training (or the cached
    model), [make_future_dataframe], [predict] and the last [periods] rows of
    the prediction, or the exception any of these steps raised. *)
Definition Prophet : Type := string -> DataFrame -> nat -> result (list PredRow).

(** [product_data['date'].max()]: [NaT] on an empty column. *)
Definition date_max (l : list Z) : option Z :=
  match l with
  | [] => None
  | d :: t => Some (fold_left Z.max t d)
  end.

(** [last_date + timedelta(days=n)]; [NaT] stays [NaT]. *)
Definition add_days (d : option Z) (n : Z) : option Z :=
  option_map (fun x => (x + n)%Z) d.

(** [result['forecast'].idxmax()] followed by [result.loc[_, 'date']]:
    the date of the first row with the largest forecast. *)
Fixpoint idxmax_from (best : PredRow) (l : list PredRow) : PredRow :=
  match l with
  | [] => best
  | r :: t => idxmax_from (if Qlt_bool (yhat best) (yhat r) then r else best) t
  end.

Definition idxmax (l : list PredRow) : result PredRow :=
  match l with
  | [] => Raise ValueError
  | r :: t => Ok (idxmax_from r t)
  end.

(** [np.random.normal(loc, scale)] on the standard normal draw [z]. *)
Definition np_random_normal (loc scale : fl) (z : Q) : result fl :=
  if (scale <? Fin 0)%fl then Raise ValueError
  else Ok (loc + scale * Fin z)%fl.

(** The body of the [try] block. *)
Definition primary (prophet : Prophet) (product_name : string)
    (product_data : DataFrame) (periods : nat) : result ForecastResult :=
  pred <- prophet product_name product_data periods ;;
  let result :=
    map (fun r => mkForecastRow (Some (ds r)) (Fin (yhat r))
                    (Fin (yhat_lower r)) (Fin (yhat_upper r))) pred in
  let recent_avg := mean (tail 30 (map sales product_data)) in
  let forecast_avg := mean (map yhat pred) in
  let growth_pct :=
    if (recent_avg >? Fin 0)%fl
    then ((forecast_avg - recent_avg) / recent_avg * Fin 100)%fl
    else Fin 0 in
  peak <- idxmax pred ;;
  Ok (mkForecastResult result recent_avg forecast_avg growth_pct
        (Some (ds peak)) true None).

(** The body of the [except Exception] handler: the moving-average forecast.
    [gauss i] is the standard normal draw of day [i]. *)
Definition fallback (product_data : DataFrame) (periods : nat)
    (gauss : nat -> Q) (e : exn) : result ForecastResult :=
  let last_date := date_max (map date product_data) in
  let recent_avg := mean (tail 30 (map sales product_data)) in
  let std_dev := std (tail 30 (map sales product_data)) in
  let future_dates :=
    map (fun x => add_days last_date (Z.of_nat x + 1)) (seq 0 periods) in
  forecast_values <-
    mapM (fun i =>
            v <- np_random_normal recent_avg (std_dev * Fin 0.2)%fl (gauss i) ;;
            Ok (pymax (Fin 0) v))
         (seq 0 periods) ;;
  let result :=
    map (fun dv : option Z * fl =>
           let (d, v) := dv in
           mkForecastRow d v (pymax (Fin 0) (v - std_dev)%fl) (v + std_dev)%fl)
        (combine future_dates forecast_values) in
  first <- iloc0 result ;;
  Ok (mkForecastResult result recent_avg recent_avg (Fin 0)
        (r_date first) false (Some e)).

(** [DemandForecaster.forecast] *)
Definition forecast (prophet : Prophet) (gauss : nat -> Q)
    (product_name : string) (product_data : DataFrame) (periods : nat)
    : result ForecastResult :=
  match primary prophet product_name product_data periods with
  | Ok r => Ok r
  | Raise e => fallback product_data periods gauss e
  end.

End Forecasting.

(** ** models/risk_engine.py *)

Module RiskEngine.

Record Metrics : Type := mkMetrics {
  m_product : string;
  current_avg : fl;
  trend_7d : fl;
  trend_30d : fl;
  volatility : fl;
  days_of_stock : fl;
  stockout_risk : fl;
  price_stability : fl
}.

Inductive Category : Type :=
| HIGH_RISK
| HIGH_OPPORTUNITY
| MODERATE_RISK
| MODERATE_OPPORTUNITY
| NEUTRAL.

Definition category_name (c : Category) : string :=
  match c with
  | HIGH_RISK => "HIGH RISK"
  | HIGH_OPPORTUNITY => "HIGH OPPORTUNITY"
  | MODERATE_RISK => "MODERATE RISK"
  | MODERATE_OPPORTUNITY => "MODERATE OPPORTUNITY"
  | NEUTRAL => "NEUTRAL"
  end.

Inductive TrendArrow : Type := ArrowUp | ArrowDown | ArrowFlat.

Inductive StockoutStatus : Type := IMMINENT | SOON | SAFE.

Record Classification : Type := mkClassification {
  category : Category;
  priority : Z;
  risk_score : Z;
  opportunity_score : Z;
  trend_arrow : TrendArrow;
  c_days_of_stock : fl;
  stockout_status : StockoutStatus;
  stockout_days : Z;
  recommended_action : string;
  status : Category;
  reasons : list string
}.

(** [_calculate_trend(data, days)] *)
Definition _calculate_trend (data : DataFrame) (days : nat) : fl :=
  if (length data <? days)%nat then Fin 0
  else
    let recent := tail days (map sales data) in
    let older :=
      if (days * 2 <=? length data)%nat
      then prev days (map sales data)
      else head days (map sales data) in
    if (length older =? 0)%nat || (mean older ==? Fin 0)%fl then Fin 0
    else ((mean recent - mean older) / mean older * Fin 100)%fl.

(** [_calculate_stockout_risk(recent_data)] *)
Definition _calculate_stockout_risk (recent_data : DataFrame) : fl :=
  let sales_std := std (map sales recent_data) in
  let sales_mean := mean (map sales recent_data) in
  let inventory_mean := mean (map inventory recent_data) in
  if (sales_mean ==? Fin 0)%fl then Fin 0
  else
    let z_score := ((inventory_mean - sales_mean) / (sales_std + Fin (1 # 1000000)))%fl in
    pymax (Fin 0) (pymin (Fin 1) (Fin 0.5 - Fin 0.2 * z_score)%fl).

(** [calculate_metrics(product_data)] *)
Definition calculate_metrics (product_data : DataFrame) : result Metrics :=
  let recent := tail 30 product_data in
  name <- iloc0 (map product product_data) ;;
  let s := map sales recent in
  let inv := map inventory recent in
  let p := map price recent in
  Ok {| m_product := name;
        current_avg := mean s;
        trend_7d := _calculate_trend recent 7;
        trend_30d := _calculate_trend recent 30;
        volatility := if (mean s >? Fin 0)%fl then (std s / mean s)%fl else Fin 0;
        days_of_stock :=
          if (mean s >? Fin 0)%fl then (mean inv / mean s)%fl else Fin 0;
        stockout_risk := _calculate_stockout_risk recent;
        price_stability :=
          if (mean p >? Fin 0)%fl then (Fin 1 - std p / mean p)%fl else Fin 1 |}.

(** The additive scores of [classify_product_v2]. *)
Definition risk_score_of (m : Metrics) : Z :=
  ((if (trend_7d m <? Fin (-10))%fl then 30 else 0)
   + (if (days_of_stock m >? Fin 25)%fl then 25 else 0)
   + (if (stockout_risk m >? Fin 0.3)%fl then 20 else 0)
   + (if (volatility m >? Fin 0.4)%fl then 15 else 0))%Z.

Definition opportunity_score_of (m : Metrics) (forecast_growth : fl) : Z :=
  ((if (trend_7d m >? Fin 15)%fl then 30 else 0)
   + (if (days_of_stock m <? Fin 7)%fl then 25 else 0)
   + (if (forecast_growth >? Fin 10)%fl then 20 else 0)
   + (if (volatility m <? Fin 0.2)%fl && (trend_7d m >? Fin 5)%fl then 15 else 0))%Z.

(** The [if]/[elif] chain that determines the category and the priority. *)
Definition determine_category (risk opportunity : Z) : Category * Z :=
  if (risk >=? 60)%Z && (opportunity <? 30)%Z then (HIGH_RISK, 1%Z)
  else if (opportunity >=? 60)%Z && (risk <? 30)%Z then (HIGH_OPPORTUNITY, 1%Z)
  else if (risk >? opportunity)%Z then (MODERATE_RISK, 2%Z)
  else if (opportunity >? risk)%Z then (MODERATE_OPPORTUNITY, 2%Z)
  else (NEUTRAL, 3%Z).

(** [_get_recommended_action(category, metrics)]: the dictionary literal
    evaluates both interpolated figures whatever the category is. *)
Definition _get_recommended_action (c : Category) (m : Metrics) : result string :=
  excess <- py_int (pymax (Fin 0) (days_of_stock m - Fin 14)%fl) ;;
  increase <- py_int (pymin (Fin 50) (trend_7d m * Fin 2)%fl) ;;
  Ok (match c with
      | HIGH_RISK =>
          "Discount by 15-20% to clear " ++ str_int excess ++ " excess units"
      | HIGH_OPPORTUNITY =>
          "Increase inventory by " ++ str_int increase ++ "%"
      | MODERATE_RISK => "Monitor closely for 7 days"
      | MODERATE_OPPORTUNITY => "Increase promotion frequency"
      | NEUTRAL => "Maintain current levels"
      end)%string.

(** [classify_product_v2(metrics, forecast_growth)]; the presentation keys
    [color], [icon], [trend_text] and [stockout_color] are left out. *)
Definition classify_product_v2 (m : Metrics) (forecast_growth : fl)
    : result Classification :=
  let risk := risk_score_of m in
  let opportunity := opportunity_score_of m forecast_growth in
  let (cat, prio) := determine_category risk opportunity in
  let trend := trend_7d m in
  let arrow :=
    if (trend >? Fin 5)%fl then ArrowUp
    else if (trend <? Fin (-5))%fl then ArrowDown
    else ArrowFlat in
  let stockout :=
    if (days_of_stock m <=? Fin 3)%fl then IMMINENT
    else if (days_of_stock m <=? Fin 7)%fl then SOON
    else SAFE in
  days <- py_int (days_of_stock m) ;;
  action <- _get_recommended_action cat m ;;
  reason <- _get_recommended_action cat m ;;
  Ok (mkClassification cat prio risk opportunity arrow (days_of_stock m)
        stockout days action cat [reason]).

(** [classify_product(metrics)] *)
Definition classify_product (m : Metrics) : result Classification :=
  classify_product_v2 m (Fin 0).

End RiskEngine.

(** ** models/simulator.py *)

(** The simulator read over exact rationals: its control flow, its guards
    and unguarded divisions, and the algebra of its formulas.  [Simulator64]
    below is the same code in doubles. *)

Module Simulator.

Inductive Recommendation : Type :=
| INCREASE | DECREASE | HOLD | RUN | MODIFY | AVOID.

(** [self.price_elasticity] *)
Definition price_elasticity : list (string * Q) :=
  [("Milk", 0.8); ("Bread", 1.2); ("Eggs", 1.5); ("Coffee", 0.6);
   ("Bananas", 1.8); ("Yogurt", 1.3); ("Cereal", 1.1)]%string.

(** [self.cross_elasticity], in insertion order. *)
Definition cross_elasticity : list ((string * string) * Q) :=
  [(("Milk", "Cereal"), 0.7); (("Bread", "Eggs"), 0.6);
   (("Coffee", "Bread"), 0.4); (("Eggs", "Bread"), 0.6)]%string.

(** [dict.get(key, default)] *)
Fixpoint dict_get (d : list (string * Q)) (key : string) (default : Q) : Q :=
  match d with
  | [] => default
  | (k, v) :: t => if String.eqb k key then v else dict_get t key default
  end.

(** Python's [min(a, b)] and [abs] on finite floats. *)
Definition qpymin (a b : Q) : Q := if Qlt_bool b a then b else a.

Record CrossEffect : Type := mkCrossEffect {
  affected_product : string;
  ce_demand_change_pct : Q
}.

(** [_calculate_cross_effects(product, price_change_pct)] *)
Definition _calculate_cross_effects (product : string) (price_change_pct : Q)
    : list CrossEffect :=
  flat_map (fun kv : (string * string) * Q =>
              let '((prod1, prod2), elasticity) := kv in
              if String.eqb prod1 product
              then [mkCrossEffect prod2 (elasticity * price_change_pct * 0.5)]
              else [])
           cross_elasticity.

Record PriceChange : Type := mkPriceChange {
  pc_product : string;
  price_change_pct : Q;
  demand_change_pct : Q;
  new_demand : Q;
  revenue_change_pct : Q;
  profit_change_pct : Q;
  pc_recommendation : Recommendation;
  cross_effects : list CrossEffect
}.

(** [simulate_price_change]; the arguments are Python numbers, whose division
    raises [ZeroDivisionError] on a zero divisor. *)
Definition simulate_price_change (product : string)
    (current_price new_price current_demand forecast_demand : Q)
    : result PriceChange :=
  r <- pydiv (new_price - current_price) current_price ;;
  let price_change_pct := r * 100 in
  let elasticity := dict_get price_elasticity product 1.0 in
  let demand_change_pct := - elasticity * price_change_pct in
  let new_demand := current_demand * (1 + demand_change_pct / 100) in
  let forecast_new := forecast_demand * (1 + demand_change_pct / 100) in
  let current_revenue := current_demand * current_price in
  let new_revenue := new_demand * new_price in
  r <- pydiv (new_revenue - current_revenue) current_revenue ;;
  let revenue_change_pct := r * 100 in
  let margin := 0.3 in
  let current_profit := current_demand * current_price * margin in
  let new_profit := new_demand * new_price * margin in
  r <- pydiv (new_profit - current_profit) current_profit ;;
  let profit_change_pct := r * 100 in
  let cross_effects := _calculate_cross_effects product price_change_pct in
  Ok (mkPriceChange product price_change_pct demand_change_pct new_demand
        revenue_change_pct profit_change_pct
        (if Qlt_bool 0 profit_change_pct then INCREASE
         else if Qlt_bool profit_change_pct (-5) then DECREASE
         else HOLD)
        cross_effects).

Record Promotion : Type := mkPromotion {
  pr_product : string;
  discount_pct : Q;
  duration_days : Q;
  lift_pct : Q;
  post_promo_dip : Q;
  additional_units : Z;
  promotion_cost : Q;
  net_profit : Q;
  roi_pct : Q;
  pr_recommendation : Recommendation
}.

(** The body of [simulate_promotion] over its local constant [avg_price];
    its only division is guarded. *)
Definition simulate_promotion_at (avg_price : Q) (product : string)
    (discount_pct duration_days current_demand forecast_demand : Q)
    : Promotion :=
  let base_lift := 20 in
  let lift_pct := base_lift + discount_pct * 0.8 in
  let promo_demand := current_demand * (1 + lift_pct / 100) in
  let post_promo_dip := -0.3 * lift_pct in
  let additional_units := (promo_demand - current_demand) * duration_days in
  let discount_cost := additional_units * avg_price * (discount_pct / 100) in
  let margin := 0.3 in
  let incremental_profit := additional_units * avg_price * margin in
  let net_profit := incremental_profit - discount_cost in
  let roi :=
    if Qlt_bool 0 discount_cost then net_profit / discount_cost * 100 else 0 in
  mkPromotion product discount_pct duration_days lift_pct post_promo_dip
    (Z.quot (Qnum additional_units) (Zpos (Qden additional_units)))
    discount_cost net_profit roi
    (if Qlt_bool 30 roi then RUN
     else if Qlt_bool 10 roi then MODIFY
     else AVOID).

(** [simulate_promotion], with [avg_price = 2.99]. *)
Definition simulate_promotion : string -> Q -> Q -> Q -> Q -> Promotion :=
  simulate_promotion_at 2.99.

Record InventoryChange : Type := mkInventoryChange {
  ic_product : string;
  stock_change_pct : Q;
  stockout_risk_change : Q;
  holding_cost_change_pct : Q;
  lost_sales_risk_pct : Q;
  net_daily_impact : Q;
  ic_recommendation : Recommendation
}.

(** [simulate_inventory_change] *)
Definition simulate_inventory_change (product : string)
    (current_stock_days new_stock_days current_demand : Q)
    : result InventoryChange :=
  r <- pydiv (new_stock_days - current_stock_days) current_stock_days ;;
  let stock_change_pct := r * 100 in
  let stockout_risk_reduction :=
    if Qlt_bool 0 stock_change_pct
    then qpymin 40 (Qabs stock_change_pct * 0.8) else 0 in
  let holding_cost_pct := Qabs stock_change_pct * 0.5 in
  let lost_sales_risk :=
    if Qlt_bool stock_change_pct 0
    then qpymin 30 (Qabs stock_change_pct * 0.6) else 0 in
  let avg_price := 2.99 in
  let daily_sales_value := current_demand * avg_price in
  let holding_cost_change := daily_sales_value * (holding_cost_pct / 100) in
  let lost_sales_value :=
    if Qlt_bool stock_change_pct 0
    then daily_sales_value * (lost_sales_risk / 100) else 0 in
  let net_impact := - holding_cost_change - lost_sales_value in
  Ok (mkInventoryChange product stock_change_pct
        (if Qlt_bool 0 stock_change_pct then - stockout_risk_reduction else 0)
        holding_cost_pct lost_sales_risk net_impact
        (if Qlt_bool 0 stock_change_pct && Qlt_bool 20 stockout_risk_reduction
         then INCREASE
         else if Qlt_bool stock_change_pct 0 && Qlt_bool 10 holding_cost_pct
         then DECREASE
         else HOLD)).

End Simulator.

(** ** models/synergy_analyzer.py *)

Module Synergy.

Definition correlation_threshold : Q := 0.6.
Definition synergy_threshold : Q := 0.7.

Inductive Relationship : Type := complementary | substitute.

Record SynergyPair : Type := mkSynergy {
  product_pair : string;
  product1 : string;
  product2 : string;
  correlation : fl;
  synergy_score : fl;
  relationship : Relationship;
  expected_lift : fl
}.

(** Sorted, duplicate-free index and column labels of the pivot table. *)
Fixpoint insert_Z (x : Z) (l : list Z) : list Z :=
  match l with
  | [] => [x]
  | y :: t =>
      if (x <? y)%Z then x :: l
      else if (x =? y)%Z then l
      else y :: insert_Z x t
  end.

Fixpoint insert_str (x : string) (l : list string) : list string :=
  match l with
  | [] => [x]
  | y :: t =>
      if String.ltb x y then x :: l
      else if String.eqb x y then l
      else y :: insert_str x t
  end.

(** [sales_data.pivot_table(index='date', columns='product', values='sales',
    aggfunc='sum').fillna(0)], as the list of its columns. *)
Definition pivot_table (sales_data : DataFrame) : list (string * list Q) :=
  let dates := fold_right insert_Z [] (map date sales_data) in
  let products := fold_right insert_str [] (map product sales_data) in
  map (fun p =>
         (p, map (fun d =>
                    qsum (map sales
                            (filter (fun r => (date r =? d)%Z
                                              && String.eqb (product r) p)
                                    sales_data)))
                 dates))
      products.

(** [_calculate_synergy_score(pivot_data, prod1, prod2)], on the two columns. *)
Definition _calculate_synergy_score (sales1 sales2 : list Q) : fl :=
  let both_sold :=
    length (filter (fun p : Q * Q => Qlt_bool 0 (fst p) && Qlt_bool 0 (snd p))
                   (combine sales1 sales2)) in
  let total_days := length sales1 in
  let co_purchase_prob :=
    if (0 <? total_days)%nat
    then inject_Z (Z.of_nat both_sold) / inject_Z (Z.of_nat total_days)
    else 0 in
  let correlation := pearson sales1 sales2 in
  (Fin co_purchase_prob * Fin 0.6 + fabs correlation * Fin 0.4)%fl.

(** The pairs the two nested [enumerate] loops visit, in their order. *)
Fixpoint pairs {A} (l : list A) : list (A * A) :=
  match l with
  | [] => []
  | x :: t => map (pair x) t ++ pairs t
  end.

(** The body of the inner loop: the entry appended for a pair, if any. *)
Definition candidate (c : (string * list Q) * (string * list Q))
    : list SynergyPair :=
  let '((prod1, sales1), (prod2, sales2)) := c in
  let corr := pearson sales1 sales2 in
  if (fabs corr >? Fin correlation_threshold)%fl then
    let synergy_score := _calculate_synergy_score sales1 sales2 in
    if (synergy_score >? Fin synergy_threshold)%fl then
      [mkSynergy (prod1 ++ " + " ++ prod2)%string prod1 prod2 corr synergy_score
         (if (corr >? Fin 0)%fl then complementary else substitute)
         (synergy_score * Fin 100)%fl]
    else []
  else [].

(** [list.sort(key=lambda x: x['synergy_score'], reverse=True)]: a stable
    sort in descending order of the key. *)
Fixpoint insert_desc (x : SynergyPair) (l : list SynergyPair) : list SynergyPair :=
  match l with
  | [] => [x]
  | y :: t =>
      if (synergy_score x <? synergy_score y)%fl
      then y :: insert_desc x t
      else x :: l
  end.

Definition sort_desc (l : list SynergyPair) : list SynergyPair :=
  fold_right insert_desc [] l.

Definition strong_synergies (sales_data : DataFrame) : list SynergyPair :=
  sort_desc (flat_map candidate (pairs (pivot_table sales_data))).

Inductive RecommendationType : Type :=
| NO_SYNERGY | BUNDLE_RECOMMENDATION | SEPARATE_MERCHANDISING.

Record SynergyRecommendation : Type := mkRecommendation {
  rec_type : RecommendationType;
  rec_product_pair : option string;
  rec_action : string
}.

(** [_generate_synergy_recommendations]; the formatted message and detail
    lines are left out. *)
Definition _generate_synergy_recommendations (synergies : list SynergyPair)
    : list SynergyRecommendation :=
  match synergies with
  | [] => [mkRecommendation NO_SYNERGY None "Continue current merchandising"]
  | _ =>
      map (fun s =>
             match relationship s with
             | complementary =>
                 mkRecommendation BUNDLE_RECOMMENDATION (Some (product_pair s))
                   "Implement bundle pricing"
             | substitute =>
                 mkRecommendation SEPARATE_MERCHANDISING (Some (product_pair s))
                   "Separate in store layout"
             end)
          (firstn 3 synergies)
  end.

Record Related : Type := mkRelated {
  rel_product : string;
  predicted_change : fl;
  rel_relationship : Relationship;
  confidence : fl
}.

Record Ripple : Type := mkRipple {
  trigger_product : string;
  trend : fl;
  related_products : list Related;
  action : string
}.

(** [Series.unique()]: the values in order of first appearance. *)
Fixpoint unique_from (seen : list string) (l : list string) : list string :=
  match l with
  | [] => []
  | x :: t =>
      if existsb (String.eqb x) seen then unique_from seen t
      else x :: unique_from (x :: seen) t
  end.

Definition unique (l : list string) : list string := unique_from [] l.

(** The first loop of [_predict_ripple_effects]: the recent trend of every
    product with at least 14 points in its trailing window. *)
Definition recent_trends (sales_data : DataFrame) : list (string * fl) :=
  flat_map (fun p =>
              let product_data :=
                filter (fun r => String.eqb (product r) p) sales_data in
              let recent := map sales (tail 30 product_data) in
              if (14 <=? length recent)%nat then
                let trend :=
                  ((mean (tail 7 recent) - mean (prev 7 recent))
                   / mean (prev 7 recent) * Fin 100)%fl in
                [(p, if negb (isnan trend) then trend else Fin 0)]
              else [])
           (unique (map product sales_data)).

(** The estimate made for one synergy the trigger product takes part in. *)
Definition ripple_of (product : string) (trend : fl) (s : SynergyPair) : list Related :=
  if String.eqb product (product1 s) || String.eqb product (product2 s) then
    let other := if String.eqb (product1 s) product then product2 s else product1 s in
    let ripple_effect :=
      match relationship s with
      | complementary => (trend * correlation s * Fin 0.5)%fl
      | substitute => (trend * correlation s * Fin (-0.3))%fl
      end in
    [mkRelated other ripple_effect (relationship s) (synergy_score s)]
  else [].

(** [_predict_ripple_effects(synergies, sales_data)] *)
Definition _predict_ripple_effects (synergies : list SynergyPair)
    (sales_data : DataFrame) : list Ripple :=
  match synergies with
  | [] => []
  | _ =>
      flat_map (fun pt : string * fl =>
                  let (product, trend) := pt in
                  if (fabs trend >? Fin 10)%fl then
                    let related := flat_map (ripple_of product trend) synergies in
                    match related with
                    | [] => []
                    | _ =>
                        [mkRipple product trend related
                           (if (trend >? Fin 0)%fl
                            then "Stock up on complements"
                            else "Watch substitute demand")]
                    end
                  else [])
               (recent_trends sales_data)
  end.

Record Analysis : Type := mkAnalysis {
  synergies : list SynergyPair;
  recommendations : list SynergyRecommendation;
  ripple_effects : list Ripple;
  total_synergies : nat
}.

(** [analyze_product_synergies(sales_data)] *)
Definition analyze_product_synergies (sales_data : DataFrame) : Analysis :=
  let strong := strong_synergies sales_data in
  mkAnalysis strong
    (_generate_synergy_recommendations strong)
    (_predict_ripple_effects strong sales_data)
    (length strong).

End Synergy.

(** ** models/synergy_analyzer.py: bundle suggestions and the summary *)

Module SynergyTools.

Import Synergy.

Record BundleSuggestion : Type := mkBundle {
  bundle_name : string;
  bundle_products : list string;
  promotion_idea : string
}.

Definition is_complementary (s : SynergyPair) : bool :=
  match relationship s with
  | complementary => true
  | substitute => false
  end.

(** The suggestion built for one synergy; the formatted [expected_lift] and
    the two fixed texts are left out. *)
Definition bundle_of (s : SynergyPair) : BundleSuggestion :=
  mkBundle (product1 s ++ " & " ++ product2 s ++ " Bundle")%string
           [product1 s; product2 s]
           ("Buy " ++ product1 s ++ ", get " ++ product2 s ++ " at 20% off")%string.

(** [get_bundle_suggestions(synergies, top_n)], for [top_n >= 0]. *)
Definition get_bundle_suggestions (synergies : list SynergyPair) (top_n : nat)
    : list BundleSuggestion :=
  let complementary_synergies := sort_desc (filter is_complementary synergies) in
  map bundle_of (firstn top_n complementary_synergies).




End SynergyTools.

(** ** app.py: the calls into the core *)

Module App.

Import Forecasting RiskEngine.

(** The analysis [show_combined_dashboard] runs for the selected product:
    metrics, a 7-day forecast, and the classification on the forecast's
    growth. *)
Definition product_health (prophet : Prophet) (gauss : nat -> Q)
    (data : DataFrame) (selected_product : string)
    : result (Metrics * ForecastResult * Classification) :=
  let product_data :=
    filter (fun r => String.eqb (product r) selected_product) data in
  metrics <- calculate_metrics product_data ;;
  forecast_result <- forecast prophet gauss selected_product product_data 7 ;;
  classification <- classify_product_v2 metrics (growth_pct forecast_result) ;;
  Ok (metrics, forecast_result, classification).

(** [self.products = sorted(self.data['product'].unique())] *)
Definition app_products (data : DataFrame) : list string :=
  fold_right Synergy.insert_str [] (map product data).

Record Action : Type := mkAction {
  a_product : string;
  a_category : Category;
  a_action : string;
  a_priority : Z;
  a_trend : fl
}.

(** The sort key [(priority, -abs(trend))] and the order of Python tuples:
    the first components that differ decide. *)
Definition action_key (a : Action) : Z * fl :=
  (a_priority a, fopp (fabs (a_trend a))).

Definition key_lt (k1 k2 : Z * fl) : bool :=
  if negb (fst k1 =? fst k2)%Z then (fst k1 <? fst k2)%Z
  else if negb (snd k1 ==? snd k2)%fl then (snd k1 <? snd k2)%fl
  else false.

(** The order that key stands for: by priority, then by decreasing strength
    of the trend. *)
Definition action_le (a b : Action) : Prop :=
  (a_priority a < a_priority b)%Z
  \/ (a_priority a = a_priority b
      /\ (fabs (a_trend b) <=? fabs (a_trend a))%fl = true).

(** [all_actions.sort(key=...)]: a stable sort in ascending order. *)
Fixpoint insert_action (x : Action) (l : list Action) : list Action :=
  match l with
  | [] => [x]
  | y :: t =>
      if key_lt (action_key y) (action_key x)
      then y :: insert_action x t
      else x :: l
  end.

Definition sort_actions (l : list Action) : list Action :=
  fold_right insert_action [] l.

(** The computation of [show_executive_summary]: the top three actions. *)
Definition show_executive_summary (prophet : Prophet) (gauss : nat -> Q)
    (data : DataFrame) : result (list Action) :=
  let products := app_products data in
  let products_to_check :=
    if (10 <? length products)%nat then firstn 10 products else products in
  found <-
    mapM (fun product =>
            let product_data :=
              filter (fun r => String.eqb (Data.product r) product) data in
            metrics <- calculate_metrics product_data ;;
            forecast_result <- forecast prophet gauss product product_data 7 ;;
            classification <-
              classify_product_v2 metrics (growth_pct forecast_result) ;;
            Ok (if (priority classification <=? 2)%Z
                then [mkAction product (category classification)
                        (recommended_action classification)
                        (priority classification) (trend_7d metrics)]
                else []))
         products_to_check ;;
  let all_actions := sort_actions (concat found) in
  Ok (firstn 3 all_actions).

End App.

(** ** The statements of the specification *)

Module Spec.

Import RiskEngine.

(** The category decision in the words of the specification: five rules,
    each one applying only when none of the rules before it does. *)
Definition rule1 (risk opportunity : Z) : Prop :=
  (risk >= 60)%Z /\ (opportunity < 30)%Z.

Definition rule2 (risk opportunity : Z) : Prop :=
  (opportunity >= 60)%Z /\ (risk < 30)%Z.

Definition rule3 (risk opportunity : Z) : Prop := (risk > opportunity)%Z.

Definition rule4 (risk opportunity : Z) : Prop := (opportunity > risk)%Z.

Inductive category_rule (r o : Z) : Category -> Z -> Prop :=
| high_risk :
    rule1 r o -> category_rule r o HIGH_RISK 1
| high_opportunity :
    ~ rule1 r o -> rule2 r o -> category_rule r o HIGH_OPPORTUNITY 1
| moderate_risk :
    ~ rule1 r o -> ~ rule2 r o -> rule3 r o ->
    category_rule r o MODERATE_RISK 2
| moderate_opportunity :
    ~ rule1 r o -> ~ rule2 r o -> ~ rule3 r o -> rule4 r o ->
    category_rule r o MODERATE_OPPORTUNITY 2
| neutral :
    ~ rule1 r o -> ~ rule2 r o -> ~ rule3 r o -> ~ rule4 r o ->
    category_rule r o NEUTRAL 3.

(** The excess-units figure of the specification for HIGH RISK. *)
Definition excess_units (m : Metrics) : fl :=
  (current_avg m * pymax (Fin 0) (days_of_stock m - Fin 14))%fl.

Definition high_risk_action (units : Z) : string :=
  ("Discount by 15-20% to clear " ++ str_int units ++ " excess units")%string.

(** Mean and sample standard deviation of a series on which they are
    defined. *)
Definition qmean (l : list Q) : Q := qsum l / qlen l.

Definition qstd (l : list Q) : Q := qsqrt (ssqdm l / (qlen l - 1)).

Definition clamp (x lo hi : Q) : Q := Qmax lo (Qmin hi x).

Definition epsilon : Q := 1 # 1000000.

(** [clamp(0.5 - 0.2 z, 0, 1)] with
    [z = (mean(inventory) - mean(sales)) / (std(sales) + epsilon)]. *)
Definition stockout_formula (W : DataFrame) : Q :=
  let z := (qmean (map inventory W) - qmean (map sales W))
           / (qstd (map sales W) + epsilon) in
  clamp (0.5 - 0.2 * z) 0 1.

(** Percent change of [recent] against [baseline], 0 on a zero baseline. *)
Definition pct_change (recent baseline : Q) : Q :=
  if Qeq_bool baseline 0 then 0 else (recent - baseline) / baseline * 100.

(** The last [n] points of the window against its first [n] points. *)
Definition compare_last_first (n : nat) (W : DataFrame) : Q :=
  pct_change (qmean (tail n (map sales W))) (qmean (head n (map sales W))).

(** The last [n] points of the window against the [n] points before them. *)
Definition compare_last_preceding (n : nat) (W : DataFrame) : Q :=
  pct_change (qmean (tail n (map sales W))) (qmean (prev n (map sales W))).

(** Bounds centred on the trailing mean: the mean minus one standard
    deviation floored at zero, and the mean plus one standard deviation. *)
Definition mean_lower_bound (trailing : list Q) : Q :=
  Qmax 0 (qmean trailing - qstd trailing).

Definition mean_upper_bound (trailing : list Q) : Q :=
  qmean trailing + qstd trailing.

(** A fallback result that took the trailing mean and standard deviation to
    be zero: a zero average and, every day, a zero forecast with zero bounds. *)
Definition zero_fallback (r : Forecasting.ForecastResult) : Prop :=
  Forecasting.recent_avg r =f Fin 0
  /\ Forall (fun row =>
               Forecasting.r_forecast row =f Fin 0
               /\ Forecasting.r_forecast_lower row =f Fin 0
               /\ Forecasting.r_forecast_upper row =f Fin 0)
            (Forecasting.forecast_df r).

(** The fraction of days on which both products had nonzero sales. *)
Definition both_nonzero (p : Q * Q) : bool :=
  negb (Qeq_bool (fst p) 0) && negb (Qeq_bool (snd p) 0).

Definition co_occurrence_rate (s1 s2 : list Q) : Q :=
  match s1 with
  | [] => 0
  | _ => inject_Z (Z.of_nat (length (filter both_nonzero (combine s1 s2))))
         / qlen s1
  end.

(** [0.6 * co_occurrence_rate + 0.4 * |correlation|] *)
Definition synergy_formula (s1 s2 : list Q) (corr : Q) : Q :=
  0.6 * co_occurrence_rate s1 s2 + 0.4 * Qabs corr.

(** The retention rule: the correlation exceeds 0.6 in magnitude and the
    synergy score exceeds 0.7. *)
Definition retained (s1 s2 : list Q) : Prop :=
  exists r, pearson s1 s2 = Fin r
            /\ 0.6 < Qabs r
            /\ 0.7 < synergy_formula s1 s2 r.

(** The entry of the synergies list that stands for a pair of columns. *)
Definition describes (c1 c2 : string * list Q) (e : Synergy.SynergyPair) : Prop :=
  Synergy.product1 e = fst c1
  /\ Synergy.product2 e = fst c2
  /\ exists r,
       pearson (snd c1) (snd c2) = Fin r
       /\ Synergy.correlation e = Fin r
       /\ Synergy.synergy_score e =f Fin (synergy_formula (snd c1) (snd c2) r)
       /\ Synergy.relationship e
          = (if Qlt_bool 0 r then Synergy.complementary else Synergy.substitute)
       /\ Synergy.expected_lift e
          =f Fin (synergy_formula (snd c1) (snd c2) r * 100).

(** Descending order of the synergy score. *)
Definition score_ge (a b : Synergy.SynergyPair) : Prop :=
  (Synergy.synergy_score b <=? Synergy.synergy_score a)%fl = true.

(** The ripple moves against the trend of the trigger. *)
Definition opposite_sign (ripple trend : fl) : Prop :=
  ((trend >? Fin 0)%fl = true /\ (ripple <? Fin 0)%fl = true)
  \/ ((trend <? Fin 0)%fl = true /\ (ripple >? Fin 0)%fl = true).

Definition same_sign (ripple trend : fl) : Prop :=
  ((trend >? Fin 0)%fl = true /\ (ripple >? Fin 0)%fl = true)
  \/ ((trend <? Fin 0)%fl = true /\ (ripple <? Fin 0)%fl = true).

End Spec.

(** ** Sample inputs *)

Module Samples.

Import RiskEngine.

(** Declining, overstocked and volatile: risk 70, opportunity 20 with a
    forecast growth above 10. *)
Definition m_risky : Metrics :=
  mkMetrics "Milk" (Fin 10) (Fin (-20)) (Fin 0) (Fin 0.5) (Fin 30) (Fin 0) (Fin 1).

(** Growing, understocked and steady: risk 20, opportunity 70. *)
Definition m_promising : Metrics :=
  mkMetrics "Eggs" (Fin 10) (Fin 20) (Fin 0) (Fin 0.1) (Fin 5) (Fin 0.5) (Fin 1).

(** A day of one product: date, sales and inventory (price 2, no event). *)
Definition day (d : Z) (p : string) (s i : Q) : Row := mkRow d p s i 2 0 false.

(** Two days without sales and without stock. *)
Definition zero_window : DataFrame :=
  [day 1 "Milk" 0 0; day 2 "Milk" 0 0].

(** Four days of rising sales. *)
Definition rising4 : DataFrame :=
  [day 1 "Milk" 1 9; day 2 "Milk" 2 9; day 3 "Milk" 3 9; day 4 "Milk" 4 9].

(** Three days with mean 2 and standard deviation 2. *)
Definition history3 : DataFrame :=
  [day 1 "Milk" 0 9; day 2 "Milk" 2 9; day 3 "Milk" 4 9].

(** A generator whose every draw is one standard deviation above the mean. *)
Definition gauss_one : nat -> Q := fun _ => 1.

(** A Prophet that fails to fit. *)
Definition prophet_fails : Forecasting.Prophet :=
  fun _ _ _ => Raise (LibraryError "fit failed").

(** The table of two products observed on the same days from day [d] on. *)
Fixpoint two_products (p1 p2 : string) (d : Z) (a b : list Q) : DataFrame :=
  match a, b with
  | x :: a', y :: b' =>
      day d p1 x 9 :: day d p2 y 9 :: two_products p1 p2 (d + 1) a' b'
  | _, _ => []
  end.

(** Two products with the same sales every day. *)
Definition twins : DataFrame :=
  two_products "Bread" "Eggs" 1 [1; 2; 3] [1; 2; 3].

(** Two weeks in which butter doubles while margarine halves. *)
Definition butter_sales : list Q := [1; 1; 1; 1; 1; 1; 1; 2; 2; 2; 2; 2; 2; 2].

Definition margarine_sales : list Q := [2; 2; 2; 2; 2; 2; 2; 1; 1; 1; 1; 1; 1; 1].

Definition spreads : DataFrame :=
  two_products "Butter" "Margarine" 1 butter_sales margarine_sales.

(** The history of one product from day [d] on, with 300 units in stock. *)
Fixpoint series (p : string) (d : Z) (l : list Q) : DataFrame :=
  match l with
  | [] => []
  | x :: t => day d p x 300 :: series p (d + 1) t
  end.

(** Fourteen days of butter, and its first nine days. *)
Definition butter : DataFrame := series "Butter" 1 butter_sales.

Definition butter9 : DataFrame := series "Butter" 1 (firstn 9 butter_sales).

(** Thirty days of a constant 100 units a day with 300 units in stock. *)
Definition steady : DataFrame := series "Milk" 1 (repeat 100 30).

(** Metrics that trigger no factor at all. *)
Definition m_flat : Metrics :=
  mkMetrics "Tea" (Fin 10) (Fin 0) (Fin 0) (Fin 0.3) (Fin 10) (Fin 0) (Fin 1).

(** Three days on which nothing was sold. *)
Definition unsold : DataFrame := series "Kale" 1 [0; 0; 0].

(** A Prophet that predicts three days, the second being the peak. *)
Definition prophet_three : Forecasting.Prophet :=
  fun _ _ _ =>
    Ok [Forecasting.mkPred 4 3 2 4; Forecasting.mkPred 5 5 4 6;
        Forecasting.mkPred 6 4 3 5].

End Samples.

(** ** IEEE doubles *)

(** Where a property of the code hangs on the last digits of a result, the
    code is modelled over binary64 itself: the kernel's floats, whose
    operations round to nearest even as Python's and numpy's do. *)

Module F64.

Import PrimFloat FloatOps SpecFloat.
Local Open Scope float_scope.

(** [float(n)] for a whole number [0 <= n < 2^63]. *)
Definition of_Z (n : Z) : float := of_uint63 (Uint63.of_Z n).

Definition of_nat (n : nat) : float := of_Z (Z.of_nat n).

(** Division of Python numbers: [ZeroDivisionError] on a zero divisor. *)
Definition pydiv (a b : float) : result float :=
  if b =? 0 then Raise ZeroDivisionError else Ok (a / b).

(** Python's [min(a, b)]: [b] when [b < a], else [a]. *)
Definition pymin (a b : float) : float := if b <? a then b else a.

(** Python's [int(x)]: truncation towards zero; [ValueError] on NaN and
    [OverflowError] on an infinity. *)
Definition py_int (x : float) : result Z :=
  match Prim2SF x with
  | S754_nan => Raise ValueError
  | S754_infinity _ => Raise OverflowError
  | S754_zero _ => Ok 0%Z
  | S754_finite s m e =>
      let v := if (0 <=? e)%Z then (Zpos m * 2 ^ e)%Z
               else (Zpos m / 2 ^ (- e))%Z in
      Ok (if s then (- v)%Z else v)
  end.

(** The rational a finite double stands for (0 for the other values). *)
Definition to_Q (x : float) : Q :=
  match Prim2SF x with
  | S754_finite s m e =>
      let v := if (0 <=? e)%Z then inject_Z (Zpos m * 2 ^ e)
               else Qmake (Zpos m) (Z.to_pos (2 ^ (- e))) in
      if s then Qopp v else v
  | _ => 0%Q
  end.

(** Neither NaN nor an infinity. *)
Definition finite (x : float) : bool :=
  match Prim2SF x with
  | S754_zero _ | S754_finite _ _ _ => true
  | _ => false
  end.

(** A zero of either sign, or NaN. *)
Definition zero_or_nan (x : float) : bool :=
  match Prim2SF x with
  | S754_zero _ | S754_nan => true
  | _ => false
  end.

(** The whole numbers from [lo] on, [n] of them. *)
Definition whole_range (lo : Z) (n : nat) : list Z :=
  map (fun k => (lo + Z.of_nat k)%Z) (seq 0 n).

End F64.

(** ** models/simulator.py in double precision *)

Module Simulator64.

Import PrimFloat F64 Simulator.
Local Open Scope float_scope.

Record Promotion : Type := mkPromotion {
  pr_product : string;
  discount_pct : float;
  duration_days : float;
  lift_pct : float;
  post_promo_dip : float;
  additional_units : Z;
  promotion_cost : float;
  net_profit : float;
  roi_pct : float;
  pr_recommendation : Recommendation
}.

(** The intermediate values of [simulate_promotion]. *)
Definition additional_units_of (discount_pct duration_days current_demand : float)
    : float :=
  let base_lift := 20 in
  let lift_pct := base_lift + discount_pct * 0.8 in
  let promo_demand := current_demand * (1 + lift_pct / 100) in
  (promo_demand - current_demand) * duration_days.

Definition discount_cost_of (discount_pct duration_days current_demand : float)
    : float :=
  let additional_units :=
    additional_units_of discount_pct duration_days current_demand in
  let avg_price := 2.99 in
  additional_units * avg_price * (discount_pct / 100).

Definition roi_of (discount_pct duration_days current_demand : float) : float :=
  let additional_units :=
    additional_units_of discount_pct duration_days current_demand in
  let avg_price := 2.99 in
  let discount_cost :=
    discount_cost_of discount_pct duration_days current_demand in
  let margin := 0.3 in
  let incremental_profit := additional_units * avg_price * margin in
  let net_profit := incremental_profit - discount_cost in
  if 0 <? discount_cost then net_profit / discount_cost * 100 else 0.

(** [simulate_promotion]; its only division is guarded, and it raises only
    where [int(additional_units)] does. *)
Definition simulate_promotion (product : string)
    (discount_pct duration_days current_demand forecast_demand : float)
    : result Promotion :=
  let base_lift := 20 in
  let lift_pct := base_lift + discount_pct * 0.8 in
  let post_promo_dip := -0.3 * lift_pct in
  let additional_units :=
    additional_units_of discount_pct duration_days current_demand in
  let avg_price := 2.99 in
  let discount_cost :=
    discount_cost_of discount_pct duration_days current_demand in
  let margin := 0.3 in
  let incremental_profit := additional_units * avg_price * margin in
  let net_profit := incremental_profit - discount_cost in
  let roi := roi_of discount_pct duration_days current_demand in
  units <- py_int additional_units ;;
  Ok (mkPromotion product discount_pct duration_days lift_pct post_promo_dip
        units discount_cost net_profit roi
        (if 30 <? roi then RUN
         else if 10 <? roi then MODIFY
         else AVOID)).

Record InventoryChange : Type := mkInventoryChange {
  ic_product : string;
  stock_change_pct : float;
  stockout_risk_change : float;
  holding_cost_change_pct : float;
  lost_sales_risk_pct : float;
  net_daily_impact : float;
  ic_recommendation : Recommendation
}.

(** The recommendation of [simulate_inventory_change], which the code
    computes from [stock_change_pct] alone. *)
Definition inventory_recommendation (stock_change_pct : float) : Recommendation :=
  let stockout_risk_reduction :=
    if 0 <? stock_change_pct
    then pymin 40 (abs stock_change_pct * 0.8) else 0 in
  let holding_cost_pct := abs stock_change_pct * 0.5 in
  if (0 <? stock_change_pct) && (20 <? stockout_risk_reduction) then INCREASE
  else if (stock_change_pct <? 0) && (10 <? holding_cost_pct) then DECREASE
  else HOLD.

(** [simulate_inventory_change] *)
Definition simulate_inventory_change (product : string)
    (current_stock_days new_stock_days current_demand : float)
    : result InventoryChange :=
  r <- pydiv (new_stock_days - current_stock_days) current_stock_days ;;
  let stock_change_pct := r * 100 in
  let stockout_risk_reduction :=
    if 0 <? stock_change_pct
    then pymin 40 (abs stock_change_pct * 0.8) else 0 in
  let holding_cost_pct := abs stock_change_pct * 0.5 in
  let lost_sales_risk :=
    if stock_change_pct <? 0
    then pymin 30 (abs stock_change_pct * 0.6) else 0 in
  let avg_price := 2.99 in
  let daily_sales_value := current_demand * avg_price in
  let holding_cost_change := daily_sales_value * (holding_cost_pct / 100) in
  let lost_sales_value :=
    if stock_change_pct <? 0
    then daily_sales_value * (lost_sales_risk / 100) else 0 in
  let net_impact := - holding_cost_change - lost_sales_value in
  Ok (mkInventoryChange product stock_change_pct
        (if 0 <? stock_change_pct then - stockout_risk_reduction else 0)
        holding_cost_pct lost_sales_risk net_impact
        (inventory_recommendation stock_change_pct)).

Definition Recommendation_eqb (a b : Recommendation) : bool :=
  match a, b with
  | INCREASE, INCREASE | DECREASE, DECREASE | HOLD, HOLD
  | RUN, RUN | MODIFY, MODIFY | AVOID, AVOID => true
  | _, _ => false
  end.

End Simulator64.

(** ** models/synergy_analyzer.py in double precision *)

Module Synergy64.

Import PrimFloat F64 Synergy.
Local Open Scope float_scope.

(** A correlation routine of the library, on two aligned columns. *)
Definition Corr : Type := list float -> list float -> float.

(** The running values of the loop of pandas' [nancorr] (Welford's method). *)
Record Welford : Type := mkWelford {
  nobs : float;
  meanx : float;
  meany : float;
  ssqdm_x : float;
  ssqdm_y : float;
  covxy : float
}.

Definition welford_step (w : Welford) (v : float * float) : Welford :=
  let (vx, vy) := v in
  let nobs := nobs w + 1 in
  let dx := vx - meanx w in
  let dy := vy - meany w in
  let meanx := meanx w + 1 / nobs * dx in
  let meany := meany w + 1 / nobs * dy in
  mkWelford nobs meanx meany
    (ssqdm_x w + (vx - meanx) * dx)
    (ssqdm_y w + (vy - meany) * dy)
    (covxy w + (vx - meanx) * dy).

(** [DataFrame.corr()] at row [i], column [j] with [i < j], as pandas 2.1
    computes it on columns without missing values: one pass over the rows
    with the later column as [x] and the earlier one as [y]; the quotient is
    not clipped. *)
Definition pandas_frame_corr : Corr := fun col_i col_j =>
  let w := fold_left welford_step (combine col_j col_i)
             (mkWelford 0 0 0 0 0 0) in
  if nobs w <? 1 then nan
  else
    let divisor := sqrt (ssqdm_x w * ssqdm_y w) in
    if divisor =? 0 then nan else covxy w / divisor.

(** Sum in index order. *)
Definition fsum (l : list float) : float := fold_left add l 0.

Definition dot (a b : list float) : float :=
  fsum (map (fun p : float * float => fst p * snd p) (combine a b)).

Definition clip (x lo hi : float) : float :=
  if x <? lo then lo else if hi <? x then hi else x.

(** [Series.corr(other)], which is [numpy.corrcoef(a, b)[0, 1]]: the
    covariance divided by the one standard deviation, then by the other, and
    clipped to [-1, 1].  The sums are taken in index order here; numpy adds
    long rows pairwise and in blocks, which can change the last digits. *)
Definition numpy_series_corr : Corr := fun a b =>
  let n := of_nat (length a) in
  let da := map (fun v => v - fsum a / n) a in
  let db := map (fun v => v - fsum b / n) b in
  let fact := 1 / (n - 1) in
  let c_aa := dot da da * fact in
  let c_ab := dot da db * fact in
  let c_bb := dot db db * fact in
  clip (c_ab / sqrt c_aa / sqrt c_bb) (-1) 1.

Record SynergyPair : Type := mkSynergy {
  product_pair : string;
  product1 : string;
  product2 : string;
  correlation : float;
  synergy_score : float;
  relationship : Relationship;
  expected_lift : float
}.

(** [_calculate_synergy_score(pivot_data, prod1, prod2)], on the two
    columns. *)
Definition _calculate_synergy_score (series_corr : Corr)
    (sales1 sales2 : list float) : float :=
  let both_sold :=
    length (filter (fun p : float * float => (0 <? fst p) && (0 <? snd p))
                   (combine sales1 sales2)) in
  let total_days := length sales1 in
  let co_purchase_prob :=
    if (0 <? total_days)%nat then of_nat both_sold / of_nat total_days else 0 in
  let correlation := series_corr sales1 sales2 in
  co_purchase_prob * 0.6 + abs correlation * 0.4.

(** The body of the inner loop: the entry appended for a pair, if any. *)
Definition candidate (frame_corr series_corr : Corr)
    (c : (string * list float) * (string * list float)) : list SynergyPair :=
  let '((prod1, sales1), (prod2, sales2)) := c in
  let corr := frame_corr sales1 sales2 in
  if 0.6 <? abs corr then
    let synergy_score := _calculate_synergy_score series_corr sales1 sales2 in
    if 0.7 <? synergy_score then
      [mkSynergy (prod1 ++ " + " ++ prod2)%string prod1 prod2 corr synergy_score
         (if 0 <? corr then complementary else substitute)
         (synergy_score * 100)]
    else []
  else [].

(** [list.sort(key=lambda x: x['synergy_score'], reverse=True)]: a stable
    sort in descending order of the key. *)
Fixpoint insert_desc (x : SynergyPair) (l : list SynergyPair) : list SynergyPair :=
  match l with
  | [] => [x]
  | y :: t =>
      if synergy_score x <? synergy_score y
      then y :: insert_desc x t
      else x :: l
  end.

Definition sort_desc (l : list SynergyPair) : list SynergyPair :=
  fold_right insert_desc [] l.

(** The list [strong_synergies] of [analyze_product_synergies], from the
    columns of the pivot table. *)
Definition strong_synergies (frame_corr series_corr : Corr)
    (pivot_data : list (string * list float)) : list SynergyPair :=
  sort_desc (flat_map (candidate frame_corr series_corr) (pairs pivot_data)).

End Synergy64.

(** ** The statements of the specification, in double precision *)

Module Spec64.

Import PrimFloat F64 Synergy64.
Local Open Scope float_scope.

(** The fraction of days on which both products had nonzero sales. *)
Definition both_nonzero (p : float * float) : bool :=
  negb (fst p =? 0) && negb (snd p =? 0).

Definition co_occurrence_rate (s1 s2 : list float) : float :=
  match s1 with
  | [] => 0
  | _ => of_nat (length (filter both_nonzero (combine s1 s2)))
         / of_nat (length s1)
  end.

(** [0.6 * co_occurrence_rate + 0.4 * |correlation|] *)
Definition synergy_formula (s1 s2 : list float) (corr : float) : float :=
  0.6 * co_occurrence_rate s1 s2 + 0.4 * abs corr.

(** The retention rule, on the correlation the frame gives for the pair and
    on the score made from the correlation of the two series. *)
Definition retained (frame_corr series_corr : Corr) (s1 s2 : list float)
    : Prop :=
  (0.6 <? abs (frame_corr s1 s2)) = true
  /\ (0.7 <? synergy_formula s1 s2 (series_corr s1 s2)) = true.

(** The entry of the synergies list that stands for a pair of columns. *)
Definition describes (frame_corr series_corr : Corr)
    (c1 c2 : string * list float) (e : SynergyPair) : Prop :=
  product1 e = fst c1
  /\ product2 e = fst c2
  /\ correlation e = frame_corr (snd c1) (snd c2)
  /\ synergy_score e
     = synergy_formula (snd c1) (snd c2) (series_corr (snd c1) (snd c2))
  /\ relationship e
     = (if 0 <? correlation e then Synergy.complementary else Synergy.substitute)
  /\ expected_lift e = synergy_score e * 100.

(** Descending order of the synergy score. *)
Definition score_ge (a b : SynergyPair) : Prop :=
  (synergy_score b <=? synergy_score a) = true.

(** An entry whose score is a number. *)
Definition scored (e : SynergyPair) : Prop :=
  FloatOps.Prim2SF (synergy_score e) <> SpecFloat.S754_nan.

(** No missing and no negative value. *)
Definition nonneg (s : list float) : Prop :=
  Forall (fun x => (0 <=? x) = true) s.

(** [3000 / discount_pct - 100] *)
Definition roi_formula (discount_pct : Q) : Q := (3000 / discount_pct - 100)%Q.

(** Two calls of [simulate_promotion] with the same figures: the same
    exception, or results that agree on every computed field. *)
Definition same_figures (a b : result Simulator64.Promotion) : Prop :=
  match a, b with
  | Ok r, Ok r' =>
      Simulator64.additional_units r = Simulator64.additional_units r'
      /\ Simulator64.promotion_cost r = Simulator64.promotion_cost r'
      /\ Simulator64.net_profit r = Simulator64.net_profit r'
      /\ Simulator64.roi_pct r = Simulator64.roi_pct r'
      /\ Simulator64.pr_recommendation r = Simulator64.pr_recommendation r'
  | Raise e, Raise e' => e = e'
  | _, _ => False
  end.

(** The check made for one whole-number discount, duration and demand: the
    call returns, its ROI is within [10^-12] of the formula, and it answers
    RUN exactly when [130 * discount < 3000]. *)
Definition promotion_near_formula (d dur cd : Z) : bool :=
  let roi := Simulator64.roi_of (of_Z d) (of_Z dur) (of_Z cd) in
  finite (Simulator64.additional_units_of (of_Z d) (of_Z dur) (of_Z cd))
  && Qle_bool (Qabs (to_Q roi - roi_formula (inject_Z d))) (1 # 1000000000000)
  && Bool.eqb (30 <? roi) (130 * d <? 3000)%Z.

(** The recommendation on whole numbers of stock days: INCREASE above 1.25
    times the current days, DECREASE below 0.8 times, HOLD in between. *)
Definition whole_days_rule (c n : Z) : Simulator.Recommendation :=
  if (5 * c <? 4 * n)%Z then Simulator.INCREASE
  else if (5 * n <? 4 * c)%Z then Simulator.DECREASE
  else Simulator.HOLD.

Definition inventory_follows_rule (c n : Z) : bool :=
  negb (of_Z c =? 0)
  && Simulator64.Recommendation_eqb
       (Simulator64.inventory_recommendation
          ((of_Z n - of_Z c) / of_Z c * 100))
       (whole_days_rule c n).

End Spec64.

(** ** Sample inputs in double precision *)

Module Samples64.

Import PrimFloat F64 Synergy64.
Local Open Scope float_scope.

(** Two products with the same sales every day. *)
Definition same_sales (s : list float) : list (string * list float) :=
  [("Bread", s); ("Eggs", s)]%string.

Definition rising : list float := [1; 2; 3].

Definition uneven : list float := [1; 5; 6].

End Samples64.

(** * Properties *)

(** ** Comparisons and the square root *)

Lemma Qlt_bool_iff (a b : Q) : Qlt_bool a b = true <-> a < b.
Proof.
  unfold Qlt_bool. rewrite negb_true_iff.
  split; intro H.
  - apply Qnot_le_lt. intro Hle. apply Qle_bool_iff in Hle. congruence.
  - destruct (Qle_bool b a) eqn:E; [|reflexivity].
    apply Qle_bool_iff in E. exfalso. apply (Qlt_not_le _ _ H E).
Qed.

Lemma Qlt_bool_false (a b : Q) : Qlt_bool a b = false <-> b <= a.
Proof.
  unfold Qlt_bool. rewrite negb_false_iff. apply Qle_bool_iff.
Qed.

Lemma Qeq_bool_false (a b : Q) : Qeq_bool a b = false <-> ~ a == b.
Proof.
  split; intro H.
  - intro E. apply Qeq_bool_iff in E. congruence.
  - destruct (Qeq_bool a b) eqn:E; [|reflexivity].
    apply Qeq_bool_iff in E. contradiction.
Qed.

Ltac qbool :=
  repeat match goal with
  | H : Qlt_bool _ _ = true |- _ => apply Qlt_bool_iff in H
  | H : Qlt_bool _ _ = false |- _ => apply Qlt_bool_false in H
  | H : Qle_bool _ _ = true |- _ => apply Qle_bool_iff in H
  | H : Qeq_bool _ _ = true |- _ => apply Qeq_bool_iff in H
  | H : Qeq_bool _ _ = false |- _ => apply Qeq_bool_false in H
  end.

Lemma feq_refl (x : fl) : x =f x.
Proof. destruct x; simpl; auto. reflexivity. Qed.

Lemma feq_sym (x y : fl) : x =f y -> y =f x.
Proof. destruct x, y; simpl; auto. intro H. symmetry. exact H. Qed.

Lemma feq_trans (x y z : fl) : x =f y -> y =f z -> x =f z.
Proof.
  destruct x, y, z; simpl; auto; try contradiction.
  intros H1 H2. rewrite H1. exact H2.
Qed.

Lemma qsqrt_nonneg (q : Q) : 0 <= qsqrt q.
Proof.
  unfold qsqrt. destruct (Qnum q <=? 0)%Z.
  - apply Qle_refl.
  - unfold Qle. simpl. rewrite Z.mul_1_r. apply Z.sqrt_nonneg.
Qed.

(** The square root is exact on squares. *)
Lemma qsqrt_square (v : Q) : qsqrt (v * v) == Qabs v.
Proof.
  destruct v as [a b]. unfold qsqrt. cbn [Qmult Qnum Qden].
  destruct (a * a <=? 0)%Z eqn:E.
  - apply Z.leb_le in E. assert (a = 0%Z) by nia. subst a. reflexivity.
  - apply Z.leb_gt in E.
    replace (a * a * Z.pos (b * b) * (Z.pos sqrt_prec * Z.pos sqrt_prec))%Z
      with ((Z.abs a * Z.pos b * Z.pos sqrt_prec)
            * (Z.abs a * Z.pos b * Z.pos sqrt_prec))%Z.
    2:{ rewrite Pos2Z.inj_mul.
        replace (a * a)%Z with (Z.abs a * Z.abs a)%Z by (destruct a; reflexivity).
        ring. }
    rewrite Z.sqrt_square by (pose proof (Z.abs_nonneg a); nia).
    unfold Qeq, Qabs. cbn [Qnum Qden].
    rewrite !Pos2Z.inj_mul. ring.
Qed.

Lemma qsqrt_0 : qsqrt 0 = 0.
Proof. reflexivity. Qed.

(** ** Classification *)

Section Classification.

Import RiskEngine Spec Samples.

Lemma determine_category_rule (r o : Z) :
  category_rule r o (fst (determine_category r o)) (snd (determine_category r o)).
Proof.
  unfold determine_category.
  destruct ((r >=? 60)%Z && (o <? 30)%Z) eqn:E1; cbn [fst snd].
  { apply high_risk. apply andb_true_iff in E1. unfold rule1. lia. }
  assert (N1 : ~ rule1 r o).
  { unfold rule1. apply andb_false_iff in E1. lia. }
  destruct ((o >=? 60)%Z && (r <? 30)%Z) eqn:E2; cbn [fst snd].
  { apply high_opportunity; [exact N1|]. apply andb_true_iff in E2.
    unfold rule2. lia. }
  assert (N2 : ~ rule2 r o).
  { unfold rule2. apply andb_false_iff in E2. lia. }
  destruct (r >? o)%Z eqn:E3; cbn [fst snd].
  { apply moderate_risk; auto. unfold rule3. lia. }
  assert (N3 : ~ rule3 r o) by (unfold rule3; lia).
  destruct (o >? r)%Z eqn:E4; cbn [fst snd].
  { apply moderate_opportunity; auto. unfold rule4. lia. }
  apply neutral; auto. unfold rule4. lia.
Qed.

(** The rules leave no choice: they determine one category and priority. *)
Lemma category_rule_functional (r o : Z) (c c' : Category) (p p' : Z) :
  category_rule r o c p -> category_rule r o c' p' -> c = c' /\ p = p'.
Proof.
  intros H H'. destruct H; destruct H'; auto; contradiction.
Qed.

Lemma classify_inv (m : Metrics) (g : fl) (c : Classification) :
  classify_product_v2 m g = Ok c ->
  category c = fst (determine_category (risk_score_of m) (opportunity_score_of m g))
  /\ priority c = snd (determine_category (risk_score_of m) (opportunity_score_of m g))
  /\ risk_score c = risk_score_of m
  /\ opportunity_score c = opportunity_score_of m g.
Proof.
  unfold classify_product_v2.
  destruct (determine_category _ _) as [cat prio].
  destruct (py_int (days_of_stock m)); cbn [bind]; [|discriminate].
  destruct (_get_recommended_action cat m); cbn [bind]; [|discriminate].
  intro H. injection H as <-. cbn. auto.
Qed.

Lemma py_int_fin (x : fl) : is_fin x -> returns (py_int x).
Proof. destruct x; simpl; auto. Qed.

Lemma pymax0_sub_fin (x : fl) (k : Q) :
  is_fin x -> is_fin (pymax (Fin 0) (x - Fin k)%fl).
Proof.
  destruct x; simpl; try contradiction. intros _.
  unfold pymax, fgt. simpl. destruct (Qlt_bool 0 (q + - k)); exact I.
Qed.

Lemma pymin50_fin (x : fl) :
  x <> NInf -> is_fin (pymin (Fin 50) (x * Fin 2)%fl).
Proof.
  destruct x; simpl; intro H; try exact I; try congruence.
  unfold pymin. simpl. destruct (Qlt_bool (q * 2) 50); exact I.
Qed.

Lemma recommended_action_returns (cat : Category) (m : Metrics) :
  is_fin (days_of_stock m) -> trend_7d m <> NInf ->
  returns (_get_recommended_action cat m).
Proof.
  intros Hd Ht. unfold _get_recommended_action.
  pose proof (pymax0_sub_fin (days_of_stock m) 14 Hd) as H1.
  pose proof (pymin50_fin (trend_7d m) Ht) as H2.
  destruct (pymax _ _); try contradiction.
  destruct (pymin _ _); try contradiction.
  exact I.
Qed.

Lemma classify_returns (m : Metrics) (g : fl) :
  is_fin (days_of_stock m) -> trend_7d m <> NInf ->
  returns (classify_product_v2 m g).
Proof.
  intros Hd Ht. unfold classify_product_v2.
  destruct (determine_category _ _) as [cat prio].
  pose proof (py_int_fin _ Hd) as H1.
  destruct (py_int (days_of_stock m)); [|contradiction]. cbn [bind].
  pose proof (recommended_action_returns cat m Hd Ht) as H2.
  destruct (_get_recommended_action cat m); [|contradiction]. exact I.
Qed.

(** C2. For every metrics record and forecast growth, [classify_product_v2]
    assigns the category and the priority by the five rules of the
    specification, tried in their order over the risk and opportunity scores it
    computes: HIGH RISK (1), HIGH OPPORTUNITY (1), MODERATE RISK (2), MODERATE
    OPPORTUNITY (2), else NEUTRAL (3).  It returns a classification whenever
    the days of stock are a finite number and the trend is not minus
    infinity, which is the case for all computed metrics. *)
Theorem classify_follows_rule_order (m : Metrics) (g : fl) :
  (forall c, classify_product_v2 m g = Ok c ->
     category_rule (risk_score_of m) (opportunity_score_of m g)
       (category c) (priority c)
     /\ risk_score c = risk_score_of m
     /\ opportunity_score c = opportunity_score_of m g)
  /\ (is_fin (days_of_stock m) -> trend_7d m <> NInf ->
      exists c, classify_product_v2 m g = Ok c).
Proof.
  split.
  - intros c H. apply classify_inv in H. destruct H as (Hc & Hp & Hr & Ho).
    rewrite Hc, Hp. split; [apply determine_category_rule | auto].
  - intros Hd Ht. pose proof (classify_returns m g Hd Ht) as H.
    destruct (classify_product_v2 m g) as [c|]; [|contradiction].
    exists c. reflexivity.
Qed.

(** Risk 70 against opportunity 20 is HIGH RISK with priority 1. *)
Lemma classify_follows_rule_order_witness :
  exists c, classify_product_v2 m_risky (Fin 11) = Ok c
    /\ category_rule 70 20 (category c) (priority c)
    /\ category c = HIGH_RISK /\ priority c = 1%Z.
Proof.
  destruct (proj2 (classify_follows_rule_order m_risky (Fin 11)) I)
    as [c Hc]; [discriminate|].
  exists c. split; [exact Hc|].
  pose proof (proj1 (classify_follows_rule_order m_risky (Fin 11)) c Hc)
    as (Hrule & _ & _).
  split; [exact Hrule|].
  vm_compute in Hc. injection Hc as <-. split; reflexivity.
Defined.

(** Risk 20 against opportunity 70 is HIGH OPPORTUNITY with priority 1. *)
Example classify_promising :
  option_map (fun c => (category c, priority c, risk_score c, opportunity_score c))
    (match classify_product_v2 m_promising (Fin 0) with
     | Ok c => Some c | Raise _ => None end)
  = Some (HIGH_OPPORTUNITY, 1%Z, 20%Z, 70%Z).
Proof. reflexivity. Qed.

End Classification.

(** ** Recommended action *)

Section RecommendedAction.

Import RiskEngine Spec Samples.

(** What the HIGH RISK action interpolates: the truncated number of days of
    stock above 14, whatever [current_avg] is. *)
Lemma high_risk_action_days (m : Metrics) (d : Q) :
  days_of_stock m = Fin d -> trend_7d m <> NInf ->
  _get_recommended_action HIGH_RISK m
  = Ok (high_risk_action
          (if Qlt_bool 0 (d - 14)
           then Z.quot (Qnum (d - 14)) (Zpos (Qden (d - 14)))
           else 0%Z)).
Proof.
  intros Hd Ht. unfold _get_recommended_action. rewrite Hd.
  pose proof (pymin50_fin (trend_7d m) Ht) as H2.
  destruct (pymin _ _) as [| | |q]; try contradiction.
  unfold pymax, fgt. cbn [fsub fopp fadd flt]. fold (d - 14).
  destruct (Qlt_bool 0 (d - 14)); reflexivity.
Qed.

(** C5. On metrics classified HIGH RISK with a current average of 10 units a
    day and 30 days of stock, the recommended action interpolates 16 (the days
    of stock above 14), whereas the excess-units figure of the specification,
    [current_avg * max(0, days_of_stock - 14)], is 160. *)
Theorem high_risk_action_interpolates_days :
  (exists c, classify_product_v2 m_risky (Fin 11) = Ok c
     /\ category c = HIGH_RISK
     /\ recommended_action c = "Discount by 15-20% to clear 16 excess units"%string)
  /\ py_int (excess_units m_risky) = Ok 160%Z
  /\ high_risk_action 160 = "Discount by 15-20% to clear 160 excess units"%string.
Proof.
  split; [|split; reflexivity].
  eexists. split; [reflexivity|]. split; reflexivity.
Qed.

End RecommendedAction.

(** ** Simulator *)

Section SimulatorProperties.

Import Simulator.

Lemma pydiv_zero (a b : Q) : b == 0 -> pydiv a b = Raise ZeroDivisionError.
Proof.
  intro H. unfold pydiv. apply Qeq_bool_iff in H. rewrite H. reflexivity.
Qed.

Lemma pydiv_nonzero (a b : Q) : ~ b == 0 -> pydiv a b = Ok (a / b).
Proof.
  intro H. unfold pydiv. apply Qeq_bool_false in H. rewrite H. reflexivity.
Qed.

(** A zero current price always raises. *)
Lemma price_change_zero_price (product : string) (p n d f : Q) :
  p == 0 -> simulate_price_change product p n d f = Raise ZeroDivisionError.
Proof.
  intro H. unfold simulate_price_change. rewrite pydiv_zero by exact H.
  reflexivity.
Qed.

(** A zero current demand always raises as well. *)
Lemma price_change_zero_demand (product : string) (p n d f : Q) :
  d == 0 -> simulate_price_change product p n d f = Raise ZeroDivisionError.
Proof.
  intro H. unfold simulate_price_change.
  destruct (pydiv (n - p) p) as [r|e] eqn:E; cbn [bind].
  - rewrite pydiv_zero; [reflexivity|]. rewrite H. ring.
  - unfold pydiv in E. destruct (Qeq_bool p 0); congruence.
Qed.

Lemma inventory_change_zero_days (product : string) (c n d : Q) :
  c == 0 -> simulate_inventory_change product c n d = Raise ZeroDivisionError.
Proof.
  intro H. unfold simulate_inventory_change. rewrite pydiv_zero by exact H.
  reflexivity.
Qed.

(** With a positive price and a positive demand the price simulation
    returns; with a positive number of stock days so does the inventory
    simulation. *)
Lemma price_change_returns (product : string) (p n d f : Q) :
  0 < p -> 0 < d -> returns (simulate_price_change product p n d f).
Proof.
  intros Hp Hd. unfold simulate_price_change.
  rewrite pydiv_nonzero by lra. cbn [bind].
  assert (0 < d * p) by (apply Qmult_lt_0_compat; assumption).
  rewrite pydiv_nonzero by lra. cbn [bind].
  rewrite pydiv_nonzero by lra. exact I.
Qed.

Lemma inventory_change_returns (product : string) (c n d : Q) :
  0 < c -> returns (simulate_inventory_change product c n d).
Proof.
  intro Hc. unfold simulate_inventory_change.
  rewrite pydiv_nonzero by lra. exact I.
Qed.

(** C3. With a current price of 0, with a current demand of 0, and with 0
    current stock days, the simulations do not produce 0 for the affected
    output: their unguarded divisions raise [ZeroDivisionError]. *)
Theorem simulations_raise_on_zero :
  simulate_price_change "Milk" 0 1 10 11 = Raise ZeroDivisionError
  /\ simulate_price_change "Milk" 2 3 0 0 = Raise ZeroDivisionError
  /\ simulate_inventory_change "Milk" 0 5 10 = Raise ZeroDivisionError.
Proof. repeat split; reflexivity. Qed.

End SimulatorProperties.

(** ** Promotion *)

Section PromotionProperties.

Import Simulator.

Lemma Qlt_div_iff (a b c : Q) : 0 < c -> (a < b / c <-> a * c < b).
Proof.
  intro Hc. rewrite <- (Qmult_lt_r (a) (b / c) c Hc).
  assert (E : b / c * c == b) by (field; lra).
  rewrite E. reflexivity.
Qed.

Lemma Qdiv_lt_iff (a b c : Q) : 0 < c -> (b / c < a <-> b < a * c).
Proof.
  intro Hc. rewrite <- (Qmult_lt_r (b / c) a c Hc).
  assert (E : b / c * c == b) by (field; lra).
  rewrite E. reflexivity.
Qed.

Lemma promotion_cost_eq (price : Q) (product : string) (d dur cd fd : Q) :
  promotion_cost (simulate_promotion_at price product d dur cd fd)
  == cd * dur * d * price * (20 + d * 0.8) * (1 # 10000).
Proof. cbn [simulate_promotion_at promotion_cost]. field. Qed.

Lemma promotion_cost_pos (price : Q) (product : string) (d dur cd fd : Q) :
  0 < price -> 0 < cd -> 0 < dur -> 0 < d ->
  0 < promotion_cost (simulate_promotion_at price product d dur cd fd).
Proof.
  intros Hp Hc Hdur Hd. rewrite promotion_cost_eq.
  repeat apply Qmult_lt_0_compat; try assumption; lra.
Qed.

Lemma promotion_roi_eq (price : Q) (product : string) (d dur cd fd : Q) :
  0 < price -> 0 < cd -> 0 < dur -> 0 < d ->
  roi_pct (simulate_promotion_at price product d dur cd fd) == 3000 / d - 100.
Proof.
  intros Hp Hc Hdur Hd.
  pose proof (promotion_cost_pos price product d dur cd fd Hp Hc Hdur Hd) as Hcost.
  cbn [simulate_promotion_at promotion_cost roi_pct] in *.
  apply Qlt_bool_iff in Hcost. rewrite Hcost.
  field. repeat split; try lra.
  assert (H : 0 < cd * (20 + d * 0.8)) by (apply Qmult_lt_0_compat; lra).
  intro E. apply (Qlt_irrefl 0).
  rewrite <- E at 2.
  setoid_replace (cd * (100 + (20 + d * 0.8)) - cd * 100)
    with (cd * (20 + d * 0.8)) by ring.
  exact H.
Qed.

Lemma promotion_recommendation (price : Q) (product : string) (d dur cd fd : Q) :
  let r := simulate_promotion_at price product d dur cd fd in
  pr_recommendation r
  = if Qlt_bool 30 (roi_pct r) then RUN
    else if Qlt_bool 10 (roi_pct r) then MODIFY else AVOID.
Proof. reflexivity. Qed.

Lemma promotion_zero_cost (price : Q) (product : string) (d dur cd fd : Q) :
  let r := simulate_promotion_at price product d dur cd fd in
  promotion_cost r == 0 ->
  roi_pct r = 0 /\ pr_recommendation r = AVOID.
Proof.
  intros r H. subst r.
  rewrite promotion_recommendation.
  assert (E : roi_pct (simulate_promotion_at price product d dur cd fd) = 0).
  { cbn [simulate_promotion_at promotion_cost roi_pct] in *.
    destruct (Qlt_bool 0 _) eqn:L; [|reflexivity].
    apply Qlt_bool_iff in L. rewrite H in L. exfalso. apply (Qlt_irrefl 0 L). }
  rewrite E. split; reflexivity.
Qed.

(** Read over exact rationals, the formulas of [simulate_promotion] give
    [roi_pct = 3000 / discount_pct - 100] for a positive current demand,
    duration and discount, whatever the product, the demands, the duration
    and the (positive) reference price are, and so RUN exactly when
    [discount_pct < 3000 / 130]; with a zero current demand or a zero
    discount they give a cost and an ROI of 0 and AVOID. *)
Lemma promotion_roi_in_exact_arithmetic
    (price : Q) (product : string) (d dur cd fd : Q) :
  0 < price ->
  let r := simulate_promotion_at price product d dur cd fd in
  (0 < cd -> 0 < dur -> 0 < d ->
   roi_pct r == 3000 / d - 100
   /\ (pr_recommendation r = RUN <-> d < 3000 / 130))
  /\ (cd == 0 \/ d == 0 ->
      promotion_cost r == 0 /\ roi_pct r == 0 /\ pr_recommendation r = AVOID).
Proof.
  intros Hp r. subst r. split.
  - intros Hc Hdur Hd.
    pose proof (promotion_roi_eq price product d dur cd fd Hp Hc Hdur Hd) as E.
    split; [exact E|].
    rewrite promotion_recommendation.
    rewrite (Qlt_div_iff d 3000 130) by lra.
    destruct (Qlt_bool 30 _) eqn:L.
    + split; [intros _|reflexivity].
      apply Qlt_bool_iff in L. rewrite E in L.
      assert (L' : 130 < 3000 / d) by lra.
      apply Qlt_div_iff in L'; lra.
    + split.
      * destruct (Qlt_bool 10 _); discriminate.
      * intro H. exfalso. apply Qlt_bool_false in L. rewrite E in L.
        assert (L' : 130 < 3000 / d) by (apply Qlt_div_iff; lra).
        lra.
  - intro H.
    assert (Z0 : promotion_cost (simulate_promotion_at price product d dur cd fd) == 0).
    { rewrite promotion_cost_eq. destruct H as [H|H]; rewrite H; ring. }
    destruct (promotion_zero_cost price product d dur cd fd Z0) as [R A].
    split; [exact Z0|]. split; [rewrite R; reflexivity | exact A].
Qed.

End PromotionProperties.

(** ** Series statistics *)

Section SeriesFacts.

Import Spec.

Lemma mean_fin (l : list Q) : (0 < length l)%nat -> mean l = Fin (qmean l).
Proof. destruct l; simpl; [lia | reflexivity]. Qed.

Lemma mean_nil : mean [] = NaN.
Proof. reflexivity. Qed.

Lemma std_fin (l : list Q) : (2 <= length l)%nat -> std l = Fin (qstd l).
Proof.
  intro H. unfold std. destruct (Nat.ltb_spec (length l) 2); [lia | reflexivity].
Qed.

Lemma std_short (l : list Q) : (length l < 2)%nat -> std l = NaN.
Proof.
  intro H. unfold std. destruct (Nat.ltb_spec (length l) 2); [reflexivity | lia].
Qed.

Lemma qstd_nonneg (l : list Q) : 0 <= qstd l.
Proof. apply qsqrt_nonneg. Qed.

Lemma tail_length {A} (n : nat) (l : list A) :
  length (tail n l) = Nat.min n (length l).
Proof. unfold tail. rewrite length_skipn. lia. Qed.

Lemma head_length {A} (n : nat) (l : list A) :
  length (head n l) = Nat.min n (length l).
Proof. unfold head. apply length_firstn. Qed.

Lemma prev_length {A} (n : nat) (l : list A) :
  (2 * n <= length l)%nat -> length (prev n l) = n.
Proof. intro H. unfold prev. rewrite length_firstn, length_skipn. lia. Qed.

Lemma tail_all {A} (n : nat) (l : list A) : (length l <= n)%nat -> tail n l = l.
Proof.
  intro H. unfold tail. replace (length l - n)%nat with 0%nat by lia. reflexivity.
Qed.

Lemma tail_nil_iff {A} (l : list A) : tail 30 l = [] <-> l = [].
Proof.
  split; intro H; [|subst; reflexivity].
  apply (f_equal (@length A)) in H. rewrite tail_length in H. simpl in H.
  destruct l; [reflexivity | simpl in H; lia].
Qed.

End SeriesFacts.

(** ** Stock-out risk *)

Section StockoutRisk.

Import RiskEngine Spec Samples.

Lemma clamp_unit_py (x : Q) :
  pymax (Fin 0) (pymin (Fin 1) (Fin x)) =f Fin (clamp x 0 1).
Proof.
  unfold clamp, pymax, pymin, fgt. cbn [flt].
  destruct (Q.min_spec 1 x) as [[H1 E1]|[H1 E1]];
    destruct (Q.max_spec 0 (Qmin 1 x)) as [[H2 E2]|[H2 E2]];
    destruct (Qlt_bool x 1) eqn:L; cbn [flt];
    try destruct (Qlt_bool 0 x) eqn:L2;
    try destruct (Qlt_bool 0 1) eqn:L3;
    qbool; cbn [feq]; lra.
Qed.

(** C4 (amended). For every trailing window of at least two points,
    [stockout_risk] is 0 when the mean of the sales is 0, and otherwise equals
    [clamp(0.5 - 0.2 z, 0, 1)] with
    [z = (mean(inventory) - mean(sales)) / (std(sales) + epsilon)]. *)
Theorem stockout_risk_guarded_formula (W : DataFrame) :
  (2 <= length W)%nat ->
  (qmean (map sales W) == 0 -> _calculate_stockout_risk W = Fin 0)
  /\ (~ qmean (map sales W) == 0 ->
      _calculate_stockout_risk W =f Fin (stockout_formula W)).
Proof.
  intro HW. unfold _calculate_stockout_risk.
  rewrite !mean_fin by (rewrite length_map; lia).
  rewrite std_fin by (rewrite length_map; lia).
  cbn [feqb]. split; intro H.
  - apply Qeq_bool_iff in H. rewrite H. reflexivity.
  - apply Qeq_bool_false in H. rewrite H.
    cbn [fsub fopp fadd fdiv].
    pose proof (qstd_nonneg (map sales W)) as Hs.
    assert (N : Qeq_bool (qstd (map sales W) + (1 # 1000000)) 0 = false).
    { apply Qeq_bool_false. lra. }
    rewrite N. cbn [fmul fadd fopp].
    eapply feq_trans; [apply clamp_unit_py|].
    cbn [feq]. unfold stockout_formula, epsilon. reflexivity.
Qed.

Lemma stockout_risk_guarded_formula_witness :
  _calculate_stockout_risk zero_window = Fin 0
  /\ _calculate_stockout_risk history3 =f Fin (stockout_formula history3).
Proof.
  split.
  - apply (proj1 (stockout_risk_guarded_formula zero_window ltac:(simpl; lia))).
    reflexivity.
  - apply (proj2 (stockout_risk_guarded_formula history3 ltac:(simpl; lia))).
    vm_compute. discriminate.
Defined.

(** C4, as stated, fails on two days without sales and without stock: the
    code returns 0 there, the formula gives 0.5. *)
Lemma stockout_risk_zero_sales_counterexample :
  _calculate_stockout_risk zero_window = Fin 0
  /\ stockout_formula zero_window == 0.5
  /\ ~ _calculate_stockout_risk zero_window =f Fin (stockout_formula zero_window).
Proof.
  split; [reflexivity|]. split; [reflexivity|].
  vm_compute. discriminate.
Qed.

(** On a window of one point, or none, the standard deviation is NaN and the
    two builtin calls turn it into a risk of 1 (unless the single sale is 0). *)
Lemma stockout_risk_single_point (r : Row) :
  ~ sales r == 0 -> _calculate_stockout_risk [r] = Fin 1.
Proof.
  intro H. unfold _calculate_stockout_risk.
  rewrite !mean_fin by (simpl; lia). rewrite std_short by (simpl; lia).
  cbn [feqb].
  assert (N : Qeq_bool (qmean (map sales [r])) 0 = false).
  { apply Qeq_bool_false. intro E. apply H. rewrite <- E.
    unfold qmean, qlen. cbn. field. }
  rewrite N. reflexivity.
Qed.

Lemma stockout_risk_empty : _calculate_stockout_risk [] = Fin 1.
Proof. reflexivity. Qed.

End StockoutRisk.

(** ** Trend *)

Section Trend.

Import RiskEngine Spec Samples.

Lemma pct_change_py (r b : Q) :
  (if Qeq_bool b 0 then Fin 0 else ((Fin r - Fin b) / Fin b * Fin 100)%fl)
  = Fin (pct_change r b).
Proof.
  unfold pct_change. destruct (Qeq_bool b 0) eqn:E; [reflexivity|].
  cbn [fsub fopp fadd fdiv]. rewrite E. reflexivity.
Qed.

Lemma trend_short (W : DataFrame) (days : nat) :
  (length W < days)%nat -> _calculate_trend W days = Fin 0.
Proof.
  intro H. unfold _calculate_trend.
  destruct (Nat.ltb_spec (length W) days); [reflexivity | lia].
Qed.

Lemma trend_overlapping (W : DataFrame) (days : nat) :
  (0 < days)%nat -> (days <= length W < days * 2)%nat ->
  _calculate_trend W days = Fin (compare_last_first days W).
Proof.
  intros Hd H. unfold _calculate_trend, compare_last_first.
  destruct (Nat.ltb_spec (length W) days); [lia|].
  destruct (Nat.leb_spec (days * 2) (length W)); [lia|].
  rewrite head_length, length_map.
  destruct (Nat.eqb_spec (Nat.min days (length W)) 0); [lia|].
  rewrite !mean_fin
    by (rewrite ?head_length, ?tail_length, length_map; lia).
  cbn [orb feqb]. apply pct_change_py.
Qed.

Lemma trend_full (W : DataFrame) (days : nat) :
  (0 < days)%nat -> (days * 2 <= length W)%nat ->
  _calculate_trend W days = Fin (compare_last_preceding days W).
Proof.
  intros Hd H. unfold _calculate_trend, compare_last_preceding.
  destruct (Nat.ltb_spec (length W) days); [lia|].
  destruct (Nat.leb_spec (days * 2) (length W)); [|lia].
  rewrite prev_length by (rewrite length_map; lia).
  destruct (Nat.eqb_spec days 0); [lia|].
  rewrite !mean_fin
    by (rewrite ?prev_length, ?tail_length; rewrite ?length_map; lia).
  cbn [orb feqb]. apply pct_change_py.
Qed.

(** C6 (amended). [trend_7d] is 0 on a window of fewer than 7 points; on a
    window of 7 to 13 points it is the percent change of the mean of the last
    7 points against the mean of the first 7 points of the window; on 14
    points or more it is the percent change of the mean of the last 7 points
    against the mean of the 7 points before them; and it is 0 whenever the
    baseline mean is 0. *)
Theorem trend_7d_by_window_length (W : DataFrame) :
  ((length W < 7)%nat -> _calculate_trend W 7 = Fin 0)
  /\ ((7 <= length W < 14)%nat ->
      _calculate_trend W 7 = Fin (compare_last_first 7 W)
      /\ (qmean (head 7 (map sales W)) == 0 -> _calculate_trend W 7 = Fin 0))
  /\ ((14 <= length W)%nat ->
      _calculate_trend W 7 = Fin (compare_last_preceding 7 W)
      /\ (qmean (prev 7 (map sales W)) == 0 -> _calculate_trend W 7 = Fin 0)).
Proof.
  split; [apply trend_short|]. split; intro H.
  - rewrite trend_overlapping by lia. split; [reflexivity|].
    intro E. unfold compare_last_first, pct_change.
    apply Qeq_bool_iff in E. rewrite E. reflexivity.
  - rewrite trend_full by lia. split; [reflexivity|].
    intro E. unfold compare_last_preceding, pct_change.
    apply Qeq_bool_iff in E. rewrite E. reflexivity.
Qed.

Lemma trend_7d_by_window_length_witness :
  _calculate_trend rising4 7 = Fin 0
  /\ _calculate_trend butter9 7 = Fin (compare_last_first 7 butter9)
  /\ _calculate_trend butter 7 = Fin (compare_last_preceding 7 butter)
  /\ compare_last_first 7 butter9 == 200 / 7
  /\ compare_last_preceding 7 butter == 100.
Proof.
  split; [apply (proj1 (trend_7d_by_window_length rising4)); simpl; lia|].
  split; [apply (proj1 (proj2 (trend_7d_by_window_length butter9)));
          simpl; lia|].
  split; [apply (proj2 (proj2 (trend_7d_by_window_length butter)));
          simpl; lia|].
  split; reflexivity.
Defined.

(** C6, as stated, fails on four days of rising sales 1, 2, 3, 4: the code
    returns 0, although the last [n] points differ from the first [n] points
    for every [n] that leaves something to compare. *)
Lemma trend_short_window_counterexample :
  _calculate_trend rising4 7 = Fin 0
  /\ compare_last_first 1 rising4 == 300
  /\ compare_last_first 2 rising4 == 400 / 3
  /\ compare_last_first 3 rising4 == 50
  /\ (forall n, (1 <= n < 4)%nat -> ~ compare_last_first n rising4 == 0).
Proof.
  split; [reflexivity|]. split; [reflexivity|].
  split; [reflexivity|]. split; [reflexivity|].
  intros n Hn.
  assert (C : n = 1%nat \/ n = 2%nat \/ n = 3%nat) by lia.
  destruct C as [->|[->| ->]]; vm_compute; discriminate.
Qed.

Lemma trend_is_finite (W : DataFrame) (days : nat) :
  (0 < days)%nat -> is_fin (_calculate_trend W days).
Proof.
  intro Hd.
  destruct (Nat.lt_ge_cases (length W) days) as [H|H].
  - rewrite trend_short by exact H. exact I.
  - destruct (Nat.lt_ge_cases (length W) (days * 2)) as [H2|H2].
    + rewrite trend_overlapping by lia. exact I.
    + rewrite trend_full by lia. exact I.
Qed.

(** Computed metrics always classify: their days of stock and their trend
    are finite numbers. *)
Lemma computed_metrics_classify (data : DataFrame) (m : Metrics) (g : fl) :
  calculate_metrics data = Ok m -> returns (classify_product_v2 m g).
Proof.
  unfold calculate_metrics. destruct (iloc0 (map product data)) as [name|e];
    cbn [bind]; [|discriminate].
  intro H. injection H as <-. apply classify_returns.
  - cbn [days_of_stock].
    destruct (tail 30 data) as [|r t] eqn:Et; [exact I|].
    rewrite !mean_fin by (simpl; lia).
    unfold fgt. cbn [flt].
    destruct (Qlt_bool 0 _) eqn:L; [|exact I]. qbool.
    cbn [fdiv].
    destruct (Qeq_bool _ 0) eqn:N; [|exact I]. qbool. lra.
  - cbn [trend_7d].
    pose proof (trend_is_finite (tail 30 data) 7 ltac:(lia)) as F.
    destruct (_calculate_trend (tail 30 data) 7); try contradiction.
    discriminate.
Qed.

(** Thirty days of a constant 100 units a day with 300 units in stock: no
    trend, no volatility, 3 days of stock, no stock-out risk by the formula;
    the only score is the 25 opportunity points for less than 7 days of
    stock. *)
Example steady_product :
  exists m c,
    calculate_metrics steady = Ok m
    /\ trend_7d m =f Fin 0 /\ volatility m =f Fin 0
    /\ days_of_stock m =f Fin 3 /\ stockout_risk m =f Fin 0
    /\ classify_product_v2 m (Fin 0) = Ok c
    /\ risk_score c = 0%Z /\ opportunity_score c = 25%Z
    /\ category c = MODERATE_OPPORTUNITY /\ priority c = 2%Z
    /\ stockout_status c = IMMINENT.
Proof.
  eexists. eexists. split; [reflexivity|].
  repeat (split; [vm_compute; reflexivity|]). reflexivity.
Qed.

End Trend.

(** ** Forecast fallback *)

Section Fallback.

Import Forecasting Spec Samples.

Lemma mapM_ok {A B} (f : A -> result B) (g : A -> B) (l : list A) :
  (forall x, f x = Ok (g x)) -> mapM f l = Ok (map g l).
Proof.
  intro H. induction l as [|x t IH]; [reflexivity|].
  cbn [mapM map]. rewrite H, IH. reflexivity.
Qed.

Lemma combine_map_same {A B C} (f : A -> B) (g : A -> C) (l : list A) :
  combine (map f l) (map g l) = map (fun x => (f x, g x)) l.
Proof.
  induction l as [|x t IH]; [reflexivity|]. cbn [map combine]. now rewrite IH.
Qed.

(** The scale handed to the generator is never negative. *)
Lemma scale_not_negative (l : list Q) : ((std l * Fin 0.2) <? Fin 0)%fl = false.
Proof.
  unfold std. destruct (length l <? 2)%nat; [reflexivity|].
  cbn [fmul flt]. apply Qlt_bool_false.
  pose proof (qsqrt_nonneg (ssqdm l / (qlen l - 1))). lra.
Qed.

(** The row the fallback produces for day [i]. *)
Lemma fallback_closed_form (data : DataFrame) (periods : nat)
    (gauss : nat -> Q) (e : exn) :
  let s := tail 30 (map sales data) in
  let row i :=
    let v := pymax (Fin 0) (mean s + std s * Fin 0.2 * Fin (gauss i))%fl in
    mkForecastRow (add_days (date_max (map date data)) (Z.of_nat i + 1))
      v (pymax (Fin 0) (v - std s)%fl) (v + std s)%fl in
  fallback data periods gauss e
  = match periods with
    | O => Raise IndexError
    | S _ => Ok (mkForecastResult (map row (seq 0 periods)) (mean s) (mean s)
                   (Fin 0) (r_date (row 0%nat)) false (Some e))
    end.
Proof.
  intros s row. unfold fallback. fold s.
  rewrite (mapM_ok _
             (fun i => pymax (Fin 0) (mean s + std s * Fin 0.2 * Fin (gauss i))%fl)).
  2:{ intro i. unfold np_random_normal. rewrite scale_not_negative. reflexivity. }
  cbn [bind]. rewrite combine_map_same, map_map.
  destruct periods as [|p]; reflexivity.
Qed.

Lemma nth_error_map_seq {A} (f : nat -> A) (n i : nat) (x : A) :
  nth_error (map f (seq 0 n)) i = Some x -> (i < n)%nat /\ x = f i.
Proof.
  rewrite nth_error_map, nth_error_seq.
  destruct (Nat.ltb_spec i n) as [L|L]; cbn; [|discriminate].
  intro E. injection E as <-. split; [assumption | reflexivity].
Qed.

(** C7 (amended). For every fallback forecast over a non-empty history and a
    horizon of at least one day, [growth_pct] is 0.0 and, for every forecast
    day, the point estimate is the trailing mean perturbed by 20% of the
    trailing standard deviation times the day's normal draw, floored at
    zero, the lower bound is that point estimate minus one trailing standard
    deviation, floored at zero, and the upper bound is that point estimate
    plus one trailing standard deviation. *)
Theorem fallback_bounds_follow_point_estimate
    (data : DataFrame) (periods : nat) (gauss : nat -> Q) (e : exn) :
  data <> [] -> (1 <= periods)%nat ->
  let s := tail 30 (map sales data) in
  exists r,
    fallback data periods gauss e = Ok r
    /\ growth_pct r = Fin 0
    /\ recent_avg r = Fin (qmean s)
    /\ length (forecast_df r) = periods
    /\ forall i row, nth_error (forecast_df r) i = Some row ->
         r_forecast row
         = pymax (Fin 0) (Fin (qmean s) + std s * Fin 0.2 * Fin (gauss i))%fl
         /\ r_forecast_lower row = pymax (Fin 0) (r_forecast row - std s)%fl
         /\ r_forecast_upper row = (r_forecast row + std s)%fl.
Proof.
  intros Hne Hp s. rewrite fallback_closed_form. fold s.
  destruct periods as [|p]; [lia|].
  assert (Hm : mean s = Fin (qmean s)).
  { apply mean_fin. unfold s. rewrite tail_length, length_map.
    destruct data; [congruence | simpl; lia]. }
  eexists. split; [reflexivity|]. cbn [growth_pct recent_avg forecast_df].
  split; [reflexivity|]. split; [exact Hm|].
  split; [rewrite length_map, length_seq; reflexivity|].
  intros i row H. apply nth_error_map_seq in H. destruct H as [_ ->].
  cbn [r_forecast r_forecast_lower r_forecast_upper]. rewrite Hm. auto.
Qed.

Lemma fallback_bounds_follow_point_estimate_witness :
  exists r,
    fallback history3 1 gauss_one ValueError = Ok r
    /\ growth_pct r = Fin 0
    /\ recent_avg r = Fin (qmean (tail 30 (map sales history3)))
    /\ length (forecast_df r) = 1%nat
    /\ forall i row, nth_error (forecast_df r) i = Some row ->
         r_forecast row
         = pymax (Fin 0)
             (Fin (qmean (tail 30 (map sales history3)))
              + std (tail 30 (map sales history3)) * Fin 0.2 * Fin (gauss_one i))%fl
         /\ r_forecast_lower row
            = pymax (Fin 0)
                (r_forecast row - std (tail 30 (map sales history3)))%fl
         /\ r_forecast_upper row
            = (r_forecast row + std (tail 30 (map sales history3)))%fl.
Proof.
  apply (fallback_bounds_follow_point_estimate history3 1 gauss_one ValueError).
  - discriminate.
  - lia.
Defined.

(** C7, as stated, fails on the history 0, 2, 4 (mean 2, standard deviation
    2) when the day's draw is 1: the point estimate is 2.4 and the bounds are
    0.4 and 4.4, not the mean-centred 0 and 4. *)
Lemma fallback_bounds_counterexample :
  exists row r,
    fallback history3 1 gauss_one ValueError = Ok r
    /\ forecast_df r = [row]
    /\ r_forecast row =f Fin 2.4
    /\ r_forecast_lower row =f Fin 0.4
    /\ r_forecast_upper row =f Fin 4.4
    /\ mean_lower_bound (tail 30 (map sales history3)) == 0
    /\ mean_upper_bound (tail 30 (map sales history3)) == 4
    /\ ~ r_forecast_lower row
         =f Fin (mean_lower_bound (tail 30 (map sales history3)))
    /\ ~ r_forecast_upper row
         =f Fin (mean_upper_bound (tail 30 (map sales history3))).
Proof.
  eexists. eexists. split; [vm_compute; reflexivity|].
  split; [reflexivity|].
  repeat split; try (vm_compute; reflexivity); vm_compute; discriminate.
Qed.

(** With a horizon of zero days the fallback itself raises. *)
Lemma fallback_zero_horizon_raises (data : DataFrame) (gauss : nat -> Q) (e : exn) :
  fallback data 0 gauss e = Raise IndexError.
Proof. rewrite fallback_closed_form. reflexivity. Qed.

Lemma forecast_unfold (prophet : Prophet) (gauss : nat -> Q)
    (name : string) (data : DataFrame) (periods : nat) :
  forecast prophet gauss name data periods
  = match primary prophet name data periods with
    | Ok r => Ok r
    | Raise e => fallback data periods gauss e
    end.
Proof. reflexivity. Qed.

(** C1 (amended). For every history and every horizon of at least one day,
    [forecast] returns a result: every failure of the primary path is answered
    by the fallback, which does not raise.  When the trailing window is empty
    the fallback's trailing mean and standard deviation are NaN, not zero:
    every per-day forecast value and lower bound is 0, while every upper
    bound and the reported averages are NaN. *)
Theorem forecast_returns_and_empty_window
    (prophet : Prophet) (gauss : nat -> Q) (name : string)
    (data : DataFrame) (periods : nat) :
  (1 <= periods)%nat ->
  (exists r, forecast prophet gauss name data periods = Ok r)
  /\ (forall e, primary prophet name data periods = Raise e ->
        forecast prophet gauss name data periods = fallback data periods gauss e
        /\ exists r, fallback data periods gauss e = Ok r
                     /\ error r = Some e /\ length (forecast_df r) = periods)
  /\ (tail 30 (map sales data) = [] ->
      forall e, exists r,
        fallback data periods gauss e = Ok r
        /\ recent_avg r = NaN /\ forecast_avg r = NaN
        /\ Forall (fun row => r_forecast row = Fin 0
                              /\ r_forecast_lower row = Fin 0
                              /\ r_forecast_upper row = NaN)
                  (forecast_df r)).
Proof.
  intro Hp.
  assert (F : forall e, exists r, fallback data periods gauss e = Ok r
                /\ error r = Some e /\ length (forecast_df r) = periods).
  { intro e. rewrite fallback_closed_form. destruct periods as [|p]; [lia|].
    eexists. split; [reflexivity|]. cbn [error forecast_df].
    split; [reflexivity|]. rewrite length_map, length_seq. reflexivity. }
  split; [|split].
  - rewrite forecast_unfold. destruct (primary prophet name data periods) as [r|e].
    + exists r. reflexivity.
    + destruct (F e) as (r & Hr & _). exists r. exact Hr.
  - intros e He. rewrite forecast_unfold, He. split; [reflexivity | apply F].
  - intros Hs e. rewrite fallback_closed_form. rewrite Hs.
    destruct periods as [|p]; [lia|].
    eexists. split; [reflexivity|]. cbn [recent_avg forecast_avg forecast_df].
    split; [reflexivity|]. split; [reflexivity|].
    apply Forall_forall. intros row Hin. apply in_map_iff in Hin.
    destruct Hin as (i & <- & _). cbn. auto.
Qed.

Lemma forecast_returns_and_empty_window_witness :
  (exists r, forecast prophet_fails gauss_one "Milk" [] 2 = Ok r)
  /\ (forecast prophet_fails gauss_one "Milk" [] 2
      = fallback [] 2 gauss_one (LibraryError "fit failed")
      /\ exists r, fallback [] 2 gauss_one (LibraryError "fit failed") = Ok r
                   /\ error r = Some (LibraryError "fit failed")
                   /\ length (forecast_df r) = 2%nat)
  /\ exists r,
       fallback [] 2 gauss_one ValueError = Ok r
       /\ recent_avg r = NaN /\ forecast_avg r = NaN
       /\ Forall (fun row => r_forecast row = Fin 0
                             /\ r_forecast_lower row = Fin 0
                             /\ r_forecast_upper row = NaN)
                 (forecast_df r).
Proof.
  pose proof (forecast_returns_and_empty_window prophet_fails gauss_one
                "Milk" [] 2 ltac:(lia)) as (H1 & H2 & H3).
  split; [exact H1|]. split.
  - apply (H2 (LibraryError "fit failed")). reflexivity.
  - apply (H3 eq_refl ValueError).
Defined.

(** C1, as stated, fails on the empty history: the fallback does not take
    the mean and the standard deviation to be zero, it reports a NaN average
    and NaN upper bounds next to the zero forecast values. *)
Lemma fallback_empty_window_counterexample :
  exists r,
    forecast prophet_fails gauss_one "Milk" [] 1 = Ok r
    /\ recent_avg r = NaN
    /\ forecast_df r = [mkForecastRow None (Fin 0) (Fin 0) NaN]
    /\ ~ zero_fallback r.
Proof.
  eexists. split; [reflexivity|]. split; [reflexivity|].
  split; [reflexivity|].
  intros [H _]. exact H.
Qed.

End Fallback.

(** ** Synergy detection *)

Section SynergyProperties.

Import Synergy Spec Samples.

Lemma pearson_cases (x y : list Q) :
  pearson x y = NaN \/ exists r, pearson x y = Fin r.
Proof.
  unfold pearson. destruct x; [left; reflexivity|].
  destruct (Qeq_bool _ 0); [left; reflexivity | right; eexists; reflexivity].
Qed.

Lemma qsum_nonneg (l : list Q) : Forall (fun x => 0 <= x) l -> 0 <= qsum l.
Proof.
  induction 1 as [|x t Hx _ IH]; simpl; [apply Qle_refl | lra].
Qed.

Lemma ssqdm_nonneg (l : list Q) : 0 <= ssqdm l.
Proof.
  unfold ssqdm. apply qsum_nonneg. apply Forall_forall.
  intros y Hy. apply in_map_iff in Hy. destruct Hy as (x & <- & _).
  set (t := x - qsum l / qlen l). 
  destruct (Qlt_le_dec t 0) as [Hneg|Hpos].
  - setoid_replace (t * t) with ((- t) * (- t)) by ring.
    apply Qmult_le_0_compat; lra.
  - apply Qmult_le_0_compat; assumption.
Qed.

Lemma codev_self (s : list Q) : codev s s = ssqdm s.
Proof.
  unfold codev, ssqdm. f_equal.
  set (m := qsum s / qlen s). clearbody m.
  induction s as [|a t IH]; [reflexivity|].
  cbn [combine map]. rewrite IH. reflexivity.
Qed.

Lemma in_pairs {A} (l : list A) (x y : A) :
  In (x, y) (pairs l) -> In x l /\ In y l.
Proof.
  induction l as [|a t IH]; simpl; [contradiction|].
  intro H. apply in_app_or in H. destruct H as [H|H].
  - apply in_map_iff in H. destruct H as (z & E & Hz).
    injection E as <- <-. auto.
  - destruct (IH H). auto.
Qed.

Lemma pivot_nonneg (data : DataFrame) (c : string * list Q) :
  Forall (fun r => 0 <= sales r) data ->
  In c (pivot_table data) -> Forall (fun x => 0 <= x) (snd c).
Proof.
  intros Hd Hc. unfold pivot_table in Hc. apply in_map_iff in Hc.
  destruct Hc as (p & <- & _). cbn [snd].
  apply Forall_forall. intros x Hx. apply in_map_iff in Hx.
  destruct Hx as (d & <- & _). apply qsum_nonneg.
  apply Forall_forall. intros y Hy. apply in_map_iff in Hy.
  destruct Hy as (r & <- & Hr). apply filter_In in Hr.
  rewrite Forall_forall in Hd. apply Hd. tauto.
Qed.

(** On non-negative sales, selling on a day is having nonzero sales. *)
Lemma both_sold_nonzero (s1 s2 : list Q) :
  Forall (fun x => 0 <= x) s1 -> Forall (fun x => 0 <= x) s2 ->
  filter (fun p : Q * Q => Qlt_bool 0 (fst p) && Qlt_bool 0 (snd p)) (combine s1 s2)
  = filter both_nonzero (combine s1 s2).
Proof.
  intros H1 H2. apply filter_ext_in. intros [a b] Hin.
  rewrite Forall_forall in H1, H2.
  pose proof (H1 a (in_combine_l _ _ _ _ Hin)) as Ha.
  pose proof (H2 b (in_combine_r _ _ _ _ Hin)) as Hb.
  unfold both_nonzero. cbn [fst snd].
  destruct (Qlt_bool 0 a) eqn:La, (Qeq_bool a 0) eqn:Ea,
           (Qlt_bool 0 b) eqn:Lb, (Qeq_bool b 0) eqn:Eb;
    qbool; try reflexivity; exfalso; lra.
Qed.

Lemma synergy_score_formula (s1 s2 : list Q) (r : Q) :
  Forall (fun x => 0 <= x) s1 -> Forall (fun x => 0 <= x) s2 ->
  pearson s1 s2 = Fin r ->
  _calculate_synergy_score s1 s2 =f Fin (synergy_formula s1 s2 r).
Proof.
  intros H1 H2 Hr. unfold _calculate_synergy_score, synergy_formula.
  rewrite Hr, both_sold_nonzero by assumption.
  cbn [fabs fmul fadd feq]. unfold co_occurrence_rate.
  destruct s1 as [|a t]; [cbn; ring|].
  cbn [length Nat.ltb Nat.leb]. unfold qlen. cbn [length]. ring.
Qed.

Lemma candidate_sound (c1 c2 : string * list Q) (e : SynergyPair) :
  Forall (fun x => 0 <= x) (snd c1) -> Forall (fun x => 0 <= x) (snd c2) ->
  In e (candidate (c1, c2)) ->
  retained (snd c1) (snd c2) /\ describes c1 c2 e.
Proof.
  intros H1 H2. destruct c1 as [p1 s1], c2 as [p2 s2]. cbn [snd] in *.
  unfold candidate.
  destruct (pearson_cases s1 s2) as [E|[r E]].
  { rewrite E. cbn. contradiction. }
  pose proof (synergy_score_formula s1 s2 r H1 H2 E) as Hs.
  rewrite E. unfold fgt at 1. cbn [fabs flt].
  destruct (Qlt_bool correlation_threshold (Qabs r)) eqn:L1; [|contradiction].
  destruct (_calculate_synergy_score s1 s2) as [| | |q] eqn:Es;
    try contradiction.
  unfold fgt at 1. cbn [flt].
  destruct (Qlt_bool synergy_threshold q) eqn:L2; [|contradiction].
  cbn [feq] in Hs. unfold correlation_threshold, synergy_threshold in *. qbool.
  intros [<-|[]]. split.
  - exists r. split; [exact E|]. split; [exact L1|]. rewrite <- Hs. exact L2.
  - unfold describes. cbn. split; [reflexivity|]. split; [reflexivity|].
    exists r. split; [exact E|]. split; [reflexivity|].
    split; [exact Hs|]. split; [reflexivity|]. rewrite Hs. reflexivity.
Qed.

(** *** The descending sort *)

Lemma flt_false_fle (x y : fl) :
  isnan x = false -> isnan y = false -> (x <? y)%fl = false -> (y <=? x)%fl = true.
Proof.
  destruct x, y; cbn; try congruence; intros _ _ H.
  apply Qlt_bool_false in H. apply Qle_bool_iff. exact H.
Qed.

Lemma flt_true_fle (x y : fl) : (x <? y)%fl = true -> (x <=? y)%fl = true.
Proof.
  destruct x, y; cbn; try congruence. intro H.
  apply Qlt_bool_iff in H. apply Qle_bool_iff. lra.
Qed.

Lemma fle_trans (x y z : fl) :
  (x <=? y)%fl = true -> (y <=? z)%fl = true -> (x <=? z)%fl = true.
Proof.
  destruct x, y, z; cbn; try congruence. intros H1 H2.
  apply Qle_bool_iff in H1, H2. apply Qle_bool_iff. lra.
Qed.

Lemma insert_desc_In (x e : SynergyPair) (l : list SynergyPair) :
  In e (insert_desc x l) <-> e = x \/ In e l.
Proof.
  induction l as [|y t IH]; cbn [insert_desc].
  - simpl. intuition.
  - destruct (synergy_score x <? synergy_score y)%fl; simpl.
    + rewrite IH. intuition.
    + intuition.
Qed.

Lemma sort_desc_In (e : SynergyPair) (l : list SynergyPair) :
  In e (sort_desc l) <-> In e l.
Proof.
  induction l as [|x t IH]; [reflexivity|].
  unfold sort_desc in *. cbn [fold_right]. rewrite insert_desc_In, IH.
  simpl. intuition.
Qed.

Lemma insert_desc_sorted (x : SynergyPair) (l : list SynergyPair) :
  isnan (synergy_score x) = false ->
  Forall (fun e => isnan (synergy_score e) = false) l ->
  StronglySorted score_ge l ->
  StronglySorted score_ge (insert_desc x l).
Proof.
  intros Hx Hl Hs. induction l as [|y t IH]; cbn [insert_desc].
  - constructor; constructor.
  - apply StronglySorted_inv in Hs. destruct Hs as [Hs Hy].
    inversion Hl as [|? ? Hny Hnt]; subst.
    destruct (synergy_score x <? synergy_score y)%fl eqn:L.
    + constructor; [apply IH; assumption|].
      apply Forall_forall. intros e He. apply insert_desc_In in He.
      destruct He as [->|He].
      * unfold score_ge. apply flt_true_fle. exact L.
      * rewrite Forall_forall in Hy. apply Hy. exact He.
    + assert (Hxy : score_ge x y).
      { unfold score_ge. apply flt_false_fle; assumption. }
      constructor; [constructor; assumption|].
      constructor; [exact Hxy|].
      apply Forall_forall. intros e He. rewrite Forall_forall in Hy.
      unfold score_ge in *. eapply fle_trans; [apply Hy; exact He | exact Hxy].
Qed.

Lemma sort_desc_sorted (l : list SynergyPair) :
  Forall (fun e => isnan (synergy_score e) = false) l ->
  StronglySorted score_ge (sort_desc l).
Proof.
  induction 1 as [|x t Hx Ht IH]; [constructor|].
  unfold sort_desc in *. cbn [fold_right].
  apply insert_desc_sorted; [exact Hx | | exact IH].
  apply Forall_forall. intros e He. apply (proj1 (sort_desc_In e t)) in He.
  rewrite Forall_forall in Ht. apply Ht. exact He.
Qed.

Lemma candidate_score_not_nan (c : (string * list Q) * (string * list Q))
    (e : SynergyPair) :
  In e (candidate c) -> isnan (synergy_score e) = false.
Proof.
  destruct c as [[p1 s1] [p2 s2]]. unfold candidate.
  destruct (fabs (pearson s1 s2) >? Fin correlation_threshold)%fl;
    [|contradiction].
  destruct (_calculate_synergy_score s1 s2 >? Fin synergy_threshold)%fl eqn:L;
    [|contradiction].
  intros [<-|[]]. cbn [synergy_score].
  destruct (_calculate_synergy_score s1 s2); cbn in *; congruence.
Qed.

(** *** The column labels of the pivot table are distinct *)

Lemma ltb_lt (x y : string) : String.ltb x y = true <-> String_as_OT.lt x y.
Proof.
  rewrite <- String_as_OT.cmp_lt. unfold String.ltb, String_as_OT.cmp.
  destruct (String.compare x y); split; congruence.
Qed.

Lemma not_ltb_neq_gt (x y : string) :
  String.ltb x y = false -> String.eqb x y = false -> String_as_OT.lt y x.
Proof.
  intros L E. apply String_as_OT.cmp_lt.
  rewrite String_as_OT.cmp_antisym. unfold String_as_OT.cmp.
  unfold String.ltb in L. apply String.eqb_neq in E.
  destruct (String.compare x y) eqn:C; try congruence; [|reflexivity].
  apply String_as_OT.cmp_eq in C. contradiction.
Qed.

Lemma insert_str_In (x y : string) (l : list string) :
  In y (insert_str x l) -> y = x \/ In y l.
Proof.
  induction l as [|a t IH]; cbn [insert_str].
  - simpl. intuition.
  - destruct (String.ltb x a); [simpl; intuition|].
    destruct (String.eqb x a); [auto|].
    simpl. intros [H|H]; [auto|]. destruct (IH H); auto.
Qed.

Lemma insert_str_sorted (x : string) (l : list string) :
  StronglySorted String_as_OT.lt l ->
  StronglySorted String_as_OT.lt (insert_str x l).
Proof.
  intro Hs. induction l as [|a t IH]; cbn [insert_str].
  - constructor; constructor.
  - apply StronglySorted_inv in Hs. destruct Hs as [Hs Ha].
    destruct (String.ltb x a) eqn:L.
    + apply ltb_lt in L. constructor; [constructor; assumption|].
      constructor; [exact L|].
      apply Forall_forall. intros e He. rewrite Forall_forall in Ha.
      eapply String_as_OT.lt_trans; [exact L | apply Ha; exact He].
    + destruct (String.eqb x a) eqn:E; [constructor; assumption|].
      constructor; [apply IH; exact Hs|].
      apply Forall_forall. intros e He. apply insert_str_In in He.
      destruct He as [->|He].
      * apply not_ltb_neq_gt; assumption.
      * rewrite Forall_forall in Ha. apply Ha. exact He.
Qed.

Lemma sorted_lt_NoDup (l : list string) :
  StronglySorted String_as_OT.lt l -> NoDup l.
Proof.
  induction 1 as [|a t Hs IH Ha]; constructor; [|exact IH].
  intro Hin. rewrite Forall_forall in Ha.
  apply (String_as_OT.lt_not_eq a a (Ha a Hin)). reflexivity.
Qed.

Lemma pivot_labels_NoDup (data : DataFrame) :
  NoDup (map fst (pivot_table data)).
Proof.
  unfold pivot_table. rewrite map_map. cbn [fst]. rewrite map_id.
  apply sorted_lt_NoDup.
  induction (map product data) as [|x t IH]; [constructor|].
  cbn [fold_right]. apply insert_str_sorted. exact IH.
Qed.

(** *** Retention, order and the identical pair *)

Lemma NoDup_map_fst_inj {A B} (l : list (A * B)) (c d : A * B) :
  NoDup (map fst l) -> In c l -> In d l -> fst c = fst d -> c = d.
Proof.
  induction l as [|a t IH]; cbn [map]; [contradiction|].
  intros Hn Hc Hd E. inversion Hn as [|? ? Hnot Ht]; subst.
  destruct Hc as [->|Hc], Hd as [->|Hd].
  - reflexivity.
  - exfalso. apply Hnot. rewrite E. apply in_map. exact Hd.
  - exfalso. apply Hnot. rewrite <- E. apply in_map. exact Hc.
  - apply IH; assumption.
Qed.

Lemma found_from_candidate (data : DataFrame) (e : SynergyPair) :
  In e (synergies (analyze_product_synergies data)) <->
  exists c, In c (pairs (pivot_table data)) /\ In e (candidate c).
Proof.
  cbn [analyze_product_synergies synergies]. unfold strong_synergies.
  rewrite sort_desc_In. apply in_flat_map.
Qed.

Lemma synergies_sound (data : DataFrame) (e : SynergyPair) :
  Forall (fun r => 0 <= sales r) data ->
  In e (synergies (analyze_product_synergies data)) ->
  exists c1 c2, In (c1, c2) (pairs (pivot_table data))
                /\ retained (snd c1) (snd c2) /\ describes c1 c2 e.
Proof.
  intros Hd He. apply found_from_candidate in He.
  destruct He as ([c1 c2] & Hin & Hc). exists c1, c2.
  destruct (in_pairs _ _ _ Hin) as [I1 I2].
  pose proof (pivot_nonneg data c1 Hd I1) as N1.
  pose proof (pivot_nonneg data c2 Hd I2) as N2.
  destruct (candidate_sound c1 c2 e N1 N2 Hc). auto.
Qed.

(** *** Ripple effects *)

(** An entry is classified substitute exactly when its correlation is not
    positive; a retained substitute has a correlation below -0.6. *)
Lemma substitute_correlation (data : DataFrame) (e : SynergyPair) :
  Forall (fun r => 0 <= sales r) data ->
  In e (synergies (analyze_product_synergies data)) ->
  exists c, correlation e = Fin c
            /\ (relationship e = substitute <-> ~ 0 < c)
            /\ (relationship e = substitute -> c < -0.6).
Proof.
  intros Hd He.
  destruct (synergies_sound data e Hd He)
    as (c1 & c2 & _ & (r & Er & Habs & _) & (_ & _ & r' & Er' & Ec & _ & Hrel & _)).
  rewrite Er in Er'. injection Er' as <-.
  exists r. split; [exact Ec|].
  assert (R : relationship e = substitute <-> ~ 0 < r).
  { rewrite Hrel. destruct (Qlt_bool 0 r) eqn:L; qbool; split;
      try discriminate; try reflexivity; intro H; [contradiction | lra]. }
  split; [exact R|]. intro Hs. apply R in Hs.
  assert (Hle : r <= 0) by lra.
  rewrite (Qabs_neg r Hle) in Habs. lra.
Qed.

(** The ripple of a trend on the partner of a substitute pair is
    [trend * correlation * -0.3], and it has the sign of the trend. *)
Lemma substitute_ripple_same_sign (product : string) (t : fl) (e : SynergyPair) (c : Q) :
  relationship e = substitute -> correlation e = Fin c -> c < 0 ->
  (fabs t >? Fin 10)%fl = true ->
  (String.eqb product (product1 e) || String.eqb product (product2 e)) = true ->
  exists rel,
    ripple_of product t e = [rel]
    /\ predicted_change rel = (t * correlation e * Fin (-0.3))%fl
    /\ same_sign (predicted_change rel) t
    /\ ~ opposite_sign (predicted_change rel) t.
Proof.
  intros Hrel Hc Hneg Ht Hp. unfold ripple_of. rewrite Hp, Hrel, Hc.
  eexists. split; [reflexivity|]. cbn [predicted_change].
  split; [reflexivity|].
  assert (C : (0 ?= c) = Gt) by (apply Qgt_alt; exact Hneg).
  unfold same_sign, opposite_sign, fgt in *.
  destruct t as [| | |q]; cbn [fabs flt fmul] in *; try discriminate.
  - unfold inf_signed. rewrite C. cbn.
    split; [left; split; reflexivity|]. intros [[_ H]|[H _]]; discriminate.
  - unfold inf_signed. rewrite C. cbn.
    split; [right; split; reflexivity|]. intros [[H _]|[_ H]]; discriminate.
  - apply Qlt_bool_iff in Ht.
    assert (P : forall x, 0 < x -> 0 < x * c * -0.3).
    { intros x Hx. setoid_replace (x * c * -0.3) with (x * (- c * 0.3)) by ring.
      apply Qmult_lt_0_compat; lra. }
    destruct (Qlt_le_dec 0 q) as [Hq|Hq].
    + pose proof (P q Hq) as Hr.
      split.
      * left. split; apply Qlt_bool_iff; assumption.
      * intros [[_ H]|[H _]]; apply Qlt_bool_iff in H; lra.
    + assert (Hq' : q < 0).
      { destruct (Qlt_le_dec q 0) as [L|L]; [exact L|].
        assert (q == 0) by lra. rewrite (Qabs_pos q L) in Ht. lra. }
      assert (Hr : q * c * -0.3 < 0).
      { pose proof (P (- q) ltac:(lra)) as Hm.
        setoid_replace (- q * c * -0.3) with (- (q * c * -0.3)) in Hm by ring.
        lra. }
      split.
      * right. split; apply Qlt_bool_iff; assumption.
      * intros [[H _]|[_ H]]; apply Qlt_bool_iff in H; lra.
Qed.

(** C9. Butter doubles (+100%) while margarine halves: the pair is retained
    as a substitute with correlation -1, and the ripple projected on
    margarine is [100 * -1 * -0.3 = +30]: it follows the trend of the trigger
    instead of opposing it. *)
Theorem substitute_ripple_follows_trigger :
  exists e r rel,
    synergies (analyze_product_synergies spreads) = [e]
    /\ relationship e = substitute
    /\ correlation e =f Fin (-1)
    /\ nth_error (ripple_effects (analyze_product_synergies spreads)) 0 = Some r
    /\ trigger_product r = "Butter"%string
    /\ trend r =f Fin 100
    /\ related_products r = [rel]
    /\ rel_product rel = "Margarine"%string
    /\ predicted_change rel = (trend r * correlation e * Fin (-0.3))%fl
    /\ predicted_change rel =f Fin 30
    /\ same_sign (predicted_change rel) (trend r)
    /\ ~ opposite_sign (predicted_change rel) (trend r).
Proof.
  eexists. eexists. eexists.
  split; [vm_compute; reflexivity|].
  split; [reflexivity|]. split; [vm_compute; reflexivity|].
  split; [vm_compute; reflexivity|].
  split; [reflexivity|]. split; [vm_compute; reflexivity|].
  split; [reflexivity|]. split; [reflexivity|].
  split; [vm_compute; reflexivity|]. split; [vm_compute; reflexivity|].
  split.
  - left. split; vm_compute; reflexivity.
  - intros [[_ H]|[H _]]; vm_compute in H; discriminate.
Qed.

End SynergyProperties.

(** * Further properties of the code *)

(** ** Metrics *)

Section MetricsProperties.

Import RiskEngine Spec Samples.

Lemma clamp_py_range (x : fl) :
  exists q, pymax (Fin 0) (pymin (Fin 1) x) = Fin q /\ 0 <= q <= 1.
Proof.
  unfold pymax, pymin, fgt.
  destruct x as [| | |a]; cbn [flt].
  - exists 1. split; [reflexivity | lra].
  - exists 1. split; [reflexivity | lra].
  - exists 0. split; [reflexivity | lra].
  - destruct (Qlt_bool a 1) eqn:L; cbn [flt].
    + destruct (Qlt_bool 0 a) eqn:L2; qbool;
        eexists; (split; [reflexivity | lra]).
    + exists 1. split; [reflexivity | lra].
Qed.

(** X1. Whatever the window is (empty, a single point, without sales), the
    stock-out risk is a number between 0 and 1, never NaN. *)
Theorem stockout_risk_in_unit_interval (W : DataFrame) :
  exists q, _calculate_stockout_risk W = Fin q /\ 0 <= q <= 1.
Proof.
  unfold _calculate_stockout_risk.
  destruct (mean (map sales W) ==? Fin 0)%fl.
  - exists 0. split; [reflexivity | lra].
  - apply clamp_py_range.
Qed.

Lemma firstn_all_le {A} (n : nat) (l : list A) :
  (length l <= n)%nat -> firstn n l = l.
Proof. intro H. apply firstn_all2. exact H. Qed.

Lemma pct_change_same (m : Q) : pct_change m m == 0.
Proof.
  unfold pct_change. destruct (Qeq_bool m 0) eqn:E; [reflexivity|].
  qbool. field. exact E.
Qed.

(** X2. [calculate_metrics] hands the 30-point window to the 30-day trend, which
    then compares the window with itself: [trend_30d] is always 0. *)
Theorem trend_30d_always_zero (data : DataFrame) (m : Metrics) :
  calculate_metrics data = Ok m -> trend_30d m =f Fin 0.
Proof.
  unfold calculate_metrics.
  destruct (iloc0 (map product data)); cbn [bind]; [|discriminate].
  intro H. injection H as <-. cbn [trend_30d].
  set (W := tail 30 data).
  assert (HW : (length W <= 30)%nat) by (unfold W; rewrite tail_length; lia).
  destruct (Nat.lt_ge_cases (length W) 30) as [L|L].
  - rewrite trend_short by exact L. reflexivity.
  - rewrite trend_overlapping by lia. cbn [feq].
    unfold compare_last_first.
    rewrite tail_all by (rewrite length_map; lia).
    unfold head. rewrite firstn_all_le by (rewrite length_map; lia).
    apply pct_change_same.
Qed.

Lemma trend_30d_always_zero_witness :
  exists m, calculate_metrics steady = Ok m /\ trend_30d m =f Fin 0.
Proof.
  eexists. split; [reflexivity|].
  apply (trend_30d_always_zero steady). reflexivity.
Defined.

End MetricsProperties.

(** ** Scores and categories *)

Section ScoreProperties.

Import RiskEngine Spec Samples.

Lemma flt_fgt_exclusive (t : fl) (a b : Q) :
  a <= b -> (t <? Fin a)%fl = true -> (t >? Fin b)%fl = true -> False.
Proof.
  unfold fgt. destruct t; cbn [flt]; try discriminate.
  intros Hab H1 H2. qbool. lra.
Qed.

Lemma fgt_weaken (t : fl) (a b : Q) :
  a <= b -> (t >? Fin b)%fl = true -> (t >? Fin a)%fl = true.
Proof.
  unfold fgt. destruct t; cbn [flt]; try discriminate; try reflexivity.
  intros Hab H. qbool. apply Qlt_bool_iff. lra.
Qed.

(** X3. Both scores lie between 0 and 90, and because a trend, a stock level
    and a volatility cannot count for both sides, together they never exceed
    110. *)
Theorem scores_bounded (m : Metrics) (g : fl) :
  (0 <= risk_score_of m <= 90)%Z
  /\ (0 <= opportunity_score_of m g <= 90)%Z
  /\ (risk_score_of m + opportunity_score_of m g <= 110)%Z.
Proof.
  unfold risk_score_of, opportunity_score_of.
  pose proof (flt_fgt_exclusive (trend_7d m) (-10) 15 ltac:(lra)) as E1.
  pose proof (flt_fgt_exclusive (trend_7d m) (-10) 5 ltac:(lra)) as E2.
  pose proof (fun H => flt_fgt_exclusive (days_of_stock m) 7 25 ltac:(lra) H) as E3.
  pose proof (fun H => flt_fgt_exclusive (volatility m) 0.2 0.4 ltac:(lra) H) as E4.
  destruct (trend_7d m <? Fin (-10))%fl;
    destruct (trend_7d m >? Fin 15)%fl; try (exfalso; auto; fail);
    destruct (trend_7d m >? Fin 5)%fl; try (exfalso; auto; fail);
    destruct (days_of_stock m >? Fin 25)%fl;
    destruct (days_of_stock m <? Fin 7)%fl; try (exfalso; auto; fail);
    destruct (volatility m >? Fin 0.4)%fl;
    destruct (volatility m <? Fin 0.2)%fl; try (exfalso; auto; fail);
    destruct (stockout_risk m >? Fin 0.3)%fl;
    destruct (g >? Fin 10)%fl; cbn [andb]; lia.
Qed.

Lemma determine_category_cases (r o : Z) :
  let (c, p) := determine_category r o in
  (c = NEUTRAL <-> r = o)
  /\ (p = 1%Z <-> c = HIGH_RISK \/ c = HIGH_OPPORTUNITY)
  /\ (p = 2%Z <-> c = MODERATE_RISK \/ c = MODERATE_OPPORTUNITY)
  /\ (p = 3%Z <-> c = NEUTRAL)
  /\ (c = HIGH_RISK \/ c = MODERATE_RISK -> (o < r)%Z)
  /\ (c = HIGH_OPPORTUNITY \/ c = MODERATE_OPPORTUNITY -> (r < o)%Z).
Proof.
  unfold determine_category.
  destruct ((r >=? 60)%Z && (o <? 30)%Z) eqn:E1.
  { apply andb_true_iff in E1.
    repeat split; intros; try discriminate; try lia; auto;
      repeat match goal with H : _ \/ _ |- _ => destruct H end;
      try discriminate; lia. }
  destruct ((o >=? 60)%Z && (r <? 30)%Z) eqn:E2.
  { apply andb_true_iff in E2.
    repeat split; intros; try discriminate; try lia; auto;
      repeat match goal with H : _ \/ _ |- _ => destruct H end;
      try discriminate; lia. }
  destruct (r >? o)%Z eqn:E3.
  { repeat split; intros; try discriminate; try lia; auto;
      repeat match goal with H : _ \/ _ |- _ => destruct H end;
      try discriminate; lia. }
  destruct (o >? r)%Z eqn:E4.
  { repeat split; intros; try discriminate; try lia; auto;
      repeat match goal with H : _ \/ _ |- _ => destruct H end;
      try discriminate; lia. }
  repeat split; intros; try discriminate; try lia; auto;
    repeat match goal with H : _ \/ _ |- _ => destruct H end;
    try discriminate; lia.
Qed.

(** X4. A classification is NEUTRAL exactly when the two scores tie; a RISK
    category always has the larger risk score and an OPPORTUNITY category the
    larger opportunity score; the priority is 1 for the HIGH, 2 for the
    MODERATE categories and 3 for NEUTRAL. *)
Theorem category_reflects_score_order (m : Metrics) (g : fl) (c : Classification) :
  classify_product_v2 m g = Ok c ->
  (category c = NEUTRAL <-> risk_score c = opportunity_score c)
  /\ (category c = HIGH_RISK \/ category c = MODERATE_RISK ->
      (opportunity_score c < risk_score c)%Z)
  /\ (category c = HIGH_OPPORTUNITY \/ category c = MODERATE_OPPORTUNITY ->
      (risk_score c < opportunity_score c)%Z)
  /\ (priority c = 1%Z <-> category c = HIGH_RISK \/ category c = HIGH_OPPORTUNITY)
  /\ (priority c = 2%Z <->
      category c = MODERATE_RISK \/ category c = MODERATE_OPPORTUNITY)
  /\ (priority c = 3%Z <-> category c = NEUTRAL).
Proof.
  intro H. apply classify_inv in H. destruct H as (Hc & Hp & Hr & Ho).
  rewrite Hr, Ho, Hc, Hp.
  pose proof (determine_category_cases (risk_score_of m) (opportunity_score_of m g)) as D.
  destruct (determine_category _ _) as [cat prio]. cbn [fst snd].
  tauto.
Qed.

Lemma category_reflects_score_order_witness :
  exists c, classify_product_v2 m_flat (Fin 0) = Ok c
            /\ (category c = NEUTRAL <-> risk_score c = opportunity_score c)
            /\ category c = NEUTRAL.
Proof.
  eexists. split; [reflexivity|]. split; [|reflexivity].
  apply (category_reflects_score_order m_flat (Fin 0)). reflexivity.
Defined.

End ScoreProperties.

(** ** Stock-out status, trend arrow and actions *)

Section StatusProperties.

Import RiskEngine Spec Samples.

Lemma classify_fields (m : Metrics) (g : fl) (c : Classification) :
  classify_product_v2 m g = Ok c ->
  trend_arrow c
  = (if (trend_7d m >? Fin 5)%fl then ArrowUp
     else if (trend_7d m <? Fin (-5))%fl then ArrowDown else ArrowFlat)
  /\ stockout_status c
     = (if (days_of_stock m <=? Fin 3)%fl then IMMINENT
        else if (days_of_stock m <=? Fin 7)%fl then SOON else SAFE)
  /\ py_int (days_of_stock m) = Ok (stockout_days c)
  /\ _get_recommended_action (category c) m = Ok (recommended_action c)
  /\ status c = category c
  /\ reasons c = [recommended_action c].
Proof.
  unfold classify_product_v2.
  destruct (determine_category _ _) as [cat prio].
  destruct (py_int (days_of_stock m)) as [d|]; cbn [bind]; [|discriminate].
  destruct (_get_recommended_action cat m) as [a|] eqn:Ea; cbn [bind];
    [|discriminate].
  intro H. injection H as <-. cbn. rewrite Ea. auto 10.
Qed.

(** Truncation toward zero against integer bounds. *)
Lemma trunc_le (q : Q) (k : Z) :
  (0 <= k)%Z -> q <= inject_Z k -> (Z.quot (Qnum q) (Zpos (Qden q)) <= k)%Z.
Proof.
  intros Hk H. destruct q as [n d]. unfold Qle in H. cbn in *.
  rewrite Z.mul_1_r in H.
  destruct (Z_lt_le_dec n 0) as [Hn|Hn].
  - pose proof (Z.quot_opp_l (- n) (Zpos d) ltac:(lia)) as E.
    rewrite Z.opp_involutive in E. rewrite E.
    pose proof (Z.quot_pos (- n) (Zpos d) ltac:(lia) ltac:(lia)). lia.
  - rewrite Z.quot_div_nonneg by lia.
    apply Z.div_le_upper_bound; lia.
Qed.

Lemma trunc_ge (q : Q) (k : Z) :
  (0 <= k)%Z -> inject_Z k <= q -> (k <= Z.quot (Qnum q) (Zpos (Qden q)))%Z.
Proof.
  intros Hk H. destruct q as [n d]. unfold Qle in H. cbn in *.
  rewrite Z.mul_1_r in H.
  assert (Hn : (0 <= n)%Z) by nia.
  rewrite Z.quot_div_nonneg by lia.
  apply Z.div_le_lower_bound; lia.
Qed.

(** X5. The stock-out status agrees with the whole days of stock reported next
    to it: IMMINENT at most 3 days, SOON from 3 to 7 days, SAFE 7 days or
    more. *)
Theorem stockout_status_matches_days (m : Metrics) (g : fl) (c : Classification) :
  classify_product_v2 m g = Ok c ->
  (stockout_status c = IMMINENT -> (stockout_days c <= 3)%Z)
  /\ (stockout_status c = SOON -> (3 <= stockout_days c <= 7)%Z)
  /\ (stockout_status c = SAFE -> (7 <= stockout_days c)%Z).
Proof.
  intro H. apply classify_fields in H. destruct H as (_ & Hs & Hd & _).
  rewrite Hs. destruct (days_of_stock m) as [| | |q]; try discriminate.
  cbn [py_int] in Hd. injection Hd as <-. cbn [fle].
  destruct (Qle_bool q 3) eqn:L3.
  { qbool. repeat split; intros; try discriminate.
    apply trunc_le; [lia | exact L3]. }
  destruct (Qle_bool q 7) eqn:L7.
  { qbool. assert (3 <= q).
    { destruct (Qlt_le_dec q 3) as [A|A]; [|exact A].
      assert (Qle_bool q 3 = true) by (apply Qle_bool_iff; lra). congruence. }
    repeat split; intros; try discriminate.
    - apply trunc_ge; [lia | assumption].
    - apply trunc_le; [lia | exact L7]. }
  assert (7 <= q).
  { destruct (Qlt_le_dec q 7) as [A|A]; [|exact A].
    assert (Qle_bool q 7 = true) by (apply Qle_bool_iff; lra). congruence. }
  repeat split; intros; try discriminate.
  apply trunc_ge; [lia | assumption].
Qed.

Lemma stockout_status_matches_days_witness :
  exists c, classify_product_v2 m_promising (Fin 0) = Ok c
            /\ stockout_status c = SOON
            /\ (3 <= stockout_days c <= 7)%Z.
Proof.
  eexists. split; [reflexivity|]. split; [reflexivity|].
  apply (proj1 (proj2 (stockout_status_matches_days m_promising (Fin 0) _ eq_refl))).
  reflexivity.
Defined.

Lemma high_opportunity_needs_rising_trend (m : Metrics) (g : fl) :
  (60 <= opportunity_score_of m g)%Z -> (trend_7d m >? Fin 5)%fl = true.
Proof.
  unfold opportunity_score_of. intro H.
  destruct (trend_7d m >? Fin 5)%fl eqn:T5; [reflexivity|].
  destruct (trend_7d m >? Fin 15)%fl eqn:T15.
  { apply (fgt_weaken _ 5 15) in T15; [congruence | lra]. }
  rewrite andb_false_r in H.
  destruct (days_of_stock m <? Fin 7)%fl, (g >? Fin 10)%fl; lia.
Qed.

(** X6. A HIGH OPPORTUNITY product always shows the rising arrow, and the
    inventory increase its action recommends is between 10% and 50%. *)
Theorem high_opportunity_action_range (m : Metrics) (g : fl) (c : Classification) :
  classify_product_v2 m g = Ok c -> category c = HIGH_OPPORTUNITY ->
  trend_arrow c = ArrowUp
  /\ exists n, (10 <= n <= 50)%Z
               /\ recommended_action c
                  = ("Increase inventory by " ++ str_int n ++ "%")%string.
Proof.
  intros H Hcat.
  pose proof (classify_inv m g c H) as (Hc & _ & _ & _).
  pose proof (classify_fields m g c H) as (Ha & _ & _ & Hact & _).
  assert (Ho : (60 <= opportunity_score_of m g)%Z).
  { rewrite Hcat in Hc. unfold determine_category in Hc.
    destruct ((risk_score_of m >=? 60)%Z && (opportunity_score_of m g <? 30)%Z);
      [discriminate|].
    destruct ((opportunity_score_of m g >=? 60)%Z && (risk_score_of m <? 30)%Z) eqn:E.
    - apply andb_true_iff in E. lia.
    - cbn [fst] in Hc.
      destruct (risk_score_of m >? opportunity_score_of m g)%Z; [discriminate|].
      destruct (opportunity_score_of m g >? risk_score_of m)%Z; discriminate. }
  pose proof (high_opportunity_needs_rising_trend m g Ho) as T.
  rewrite T in Ha. split; [exact Ha|].
  rewrite Hcat in Hact. unfold _get_recommended_action in Hact.
  destruct (py_int (pymax (Fin 0) (days_of_stock m - Fin 14)%fl)) as [ex|];
    cbn [bind] in Hact; [|discriminate].
  destruct (py_int (pymin (Fin 50) (trend_7d m * Fin 2)%fl)) as [n|] eqn:En;
    cbn [bind] in Hact; [|discriminate].
  injection Hact as <-. exists n. split; [|reflexivity].
  unfold fgt in T. destruct (trend_7d m) as [| | |t]; cbn [flt] in T;
    try discriminate.
  - cbn in En. injection En as <-. lia.
  - qbool. unfold pymin in En. cbn [fmul flt] in En.
    destruct (Qlt_bool (t * 2) 50) eqn:L; qbool; cbn [py_int] in En;
      injection En as <-.
    + split.
      * apply (trunc_ge (t * 2) 10); [lia|]. change (inject_Z 10) with 10. lra.
      * apply (trunc_le (t * 2) 50); [lia|]. change (inject_Z 50) with 50. lra.
    + cbn. lia.
Qed.

Lemma high_opportunity_action_range_witness :
  exists c, classify_product_v2 m_promising (Fin 0) = Ok c
            /\ trend_arrow c = ArrowUp
            /\ recommended_action c = "Increase inventory by 40%"%string.
Proof.
  eexists. split; [reflexivity|].
  destruct (high_opportunity_action_range m_promising (Fin 0) _ eq_refl eq_refl)
    as [Ha _].
  split; [exact Ha | reflexivity].
Defined.

End StatusProperties.

(** ** A product that does not sell, and the dashboard's analysis *)

Section PipelineProperties.

Import Forecasting RiskEngine App Spec Samples.

Lemma in_skipn_in {A} (n : nat) (l : list A) (x : A) : In x (skipn n l) -> In x l.
Proof.
  intro H. rewrite <- (firstn_skipn n l). apply in_or_app. right. exact H.
Qed.

Lemma in_firstn_in {A} (n : nat) (l : list A) (x : A) : In x (firstn n l) -> In x l.
Proof.
  intro H. rewrite <- (firstn_skipn n l). apply in_or_app. left. exact H.
Qed.

Lemma qsum_zero (l : list Q) : (forall x, In x l -> x == 0) -> qsum l == 0.
Proof.
  induction l as [|a t IH]; intro H; [reflexivity|].
  cbn [qsum]. rewrite (H a (or_introl eq_refl)), IH; [ring|].
  intros x Hx. apply H. right. exact Hx.
Qed.

Lemma qmean_zero (l : list Q) : (forall x, In x l -> x == 0) -> qmean l == 0.
Proof.
  intro H. unfold qmean. rewrite (qsum_zero l H). unfold Qdiv. ring.
Qed.

Lemma classify_without_signal (m : Metrics) (g : fl) :
  trend_7d m = Fin 0 -> volatility m = Fin 0 ->
  days_of_stock m = Fin 0 -> stockout_risk m = Fin 0 ->
  exists c, classify_product_v2 m g = Ok c
            /\ risk_score c = 0%Z
            /\ (25 <= opportunity_score c)%Z
            /\ category c = MODERATE_OPPORTUNITY
            /\ priority c = 2%Z
            /\ stockout_status c = IMMINENT
            /\ stockout_days c = 0%Z
            /\ recommended_action c = "Increase promotion frequency"%string.
Proof.
  intros Ht Hv Hd Hs.
  unfold classify_product_v2, risk_score_of, opportunity_score_of,
    _get_recommended_action.
  rewrite Ht, Hv, Hd, Hs.
  destruct (g >? Fin 10)%fl; eexists; (split; [reflexivity|]);
    cbn; repeat split; lia.
Qed.

(** X7. A product without any sale in its history gets metrics that are all
    zero and, whatever the forecast growth is, the classification MODERATE
    OPPORTUNITY with an IMMINENT stock-out: the zero days of stock count as
    an opportunity and nothing counts as a risk. *)
Theorem unsold_product_is_moderate_opportunity (data : DataFrame) (g : fl) :
  data <> [] -> (forall r, In r data -> sales r == 0) ->
  exists m c,
    calculate_metrics data = Ok m
    /\ trend_7d m = Fin 0 /\ volatility m = Fin 0
    /\ days_of_stock m = Fin 0 /\ stockout_risk m = Fin 0
    /\ classify_product_v2 m g = Ok c
    /\ risk_score c = 0%Z
    /\ category c = MODERATE_OPPORTUNITY
    /\ stockout_status c = IMMINENT.
Proof.
  intros Hne Hz.
  set (W := tail 30 data).
  assert (HW : (0 < length W)%nat).
  { unfold W. rewrite tail_length. destruct data; [congruence | simpl; lia]. }
  assert (Hs : forall x, In x (map sales W) -> x == 0).
  { intros x Hx. apply in_map_iff in Hx. destruct Hx as (r & <- & Hr).
    apply Hz. unfold W, tail in Hr. eapply in_skipn_in. exact Hr. }
  assert (Hm : mean (map sales W) = Fin (qmean (map sales W))).
  { apply mean_fin. rewrite length_map. exact HW. }
  pose proof (qmean_zero _ Hs) as Hq.
  assert (Hq0 : Qeq_bool (qmean (map sales W)) 0 = true)
    by (apply Qeq_bool_iff; exact Hq).
  assert (Hlt : Qlt_bool 0 (qmean (map sales W)) = false)
    by (apply Qlt_bool_false; lra).
  assert (Ht : _calculate_trend W 7 = Fin 0).
  { destruct (Nat.lt_ge_cases (length W) 7) as [L|L];
      [apply trend_short; exact L|].
    destruct (Nat.lt_ge_cases (length W) 14) as [L2|L2].
    - rewrite trend_overlapping by lia. unfold compare_last_first, pct_change.
      assert (E : qmean (head 7 (map sales W)) == 0).
      { apply qmean_zero. intros x Hx. apply Hs. eapply in_firstn_in. exact Hx. }
      apply Qeq_bool_iff in E. rewrite E. reflexivity.
    - rewrite trend_full by lia. unfold compare_last_preceding, pct_change.
      assert (E : qmean (prev 7 (map sales W)) == 0).
      { apply qmean_zero. intros x Hx. apply Hs. unfold prev in Hx.
        eapply in_skipn_in. eapply in_firstn_in. exact Hx. }
      apply Qeq_bool_iff in E. rewrite E. reflexivity. }
  assert (Hi : exists name, iloc0 (map product data) = Ok name).
  { destruct data; [congruence|]. eexists. reflexivity. }
  destruct Hi as [name Hi].
  assert (Hmet : exists m, calculate_metrics data = Ok m
             /\ trend_7d m = Fin 0 /\ volatility m = Fin 0
             /\ days_of_stock m = Fin 0 /\ stockout_risk m = Fin 0).
  { unfold calculate_metrics. fold W. rewrite Hi. cbn [bind].
    eexists. split; [reflexivity|].
    cbn [trend_7d volatility days_of_stock stockout_risk].
    unfold _calculate_stockout_risk. rewrite Hm. unfold fgt. cbn [flt feqb].
    rewrite Hlt, Hq0. auto. }
  destruct Hmet as (m & Hmm & H1 & H2 & H3 & H4).
  destruct (classify_without_signal m g H1 H2 H3 H4)
    as (c & Hc & Hr & _ & Hcat & _ & Hst & _).
  exists m, c. auto 10.
Qed.

Lemma unsold_product_is_moderate_opportunity_witness :
  exists m c,
    calculate_metrics unsold = Ok m
    /\ trend_7d m = Fin 0 /\ volatility m = Fin 0
    /\ days_of_stock m = Fin 0 /\ stockout_risk m = Fin 0
    /\ classify_product_v2 m (Fin 25) = Ok c
    /\ risk_score c = 0%Z
    /\ category c = MODERATE_OPPORTUNITY
    /\ stockout_status c = IMMINENT.
Proof.
  apply (unsold_product_is_moderate_opportunity unsold (Fin 25)).
  - discriminate.
  - intros r Hr. cbn in Hr.
    repeat (destruct Hr as [<-|Hr]; [reflexivity|]). contradiction.
Defined.

Lemma calculate_metrics_returns (data : DataFrame) :
  data <> [] -> exists m, calculate_metrics data = Ok m.
Proof.
  intro H. destruct data as [|r t]; [congruence|].
  unfold calculate_metrics. cbn [map iloc0 bind]. eexists. reflexivity.
Qed.

(** X8. The dashboard's analysis of a product raises [IndexError] when the table
    has no row for it (the metrics fail before the forecast is tried), and
    returns metrics, forecast and classification for every product that has
    at least one row, whether Prophet fits or fails. *)
Theorem product_health_returns_iff_known
    (prophet : Prophet) (gauss : nat -> Q) (data : DataFrame) (p : string) :
  ((forall r, In r data -> product r <> p) ->
   product_health prophet gauss data p = Raise IndexError)
  /\ ((exists r, In r data /\ product r = p) ->
      exists m f c, product_health prophet gauss data p = Ok (m, f, c)
                    /\ (forall e, error f = Some e ->
                          classify_product m = Ok c)).
Proof.
  unfold product_health.
  set (pd := filter (fun r => String.eqb (product r) p) data).
  split.
  - intro H. assert (E : pd = []).
    { unfold pd. induction data as [|r t IH]; [reflexivity|].
      cbn [filter]. assert (N : product r <> p) by (apply H; left; reflexivity).
      apply String.eqb_neq in N. rewrite N. apply IH.
      intros r' Hr'. apply H. right. exact Hr'. }
    rewrite E. reflexivity.
  - intros (r & Hr & Hp).
    assert (Hne : pd <> []).
    { intro E. assert (Hin : In r pd).
      { unfold pd. apply filter_In. split; [exact Hr|].
        apply String.eqb_eq. exact Hp. }
      rewrite E in Hin. contradiction. }
    destruct (calculate_metrics_returns pd Hne) as [m Hm].
    rewrite Hm. cbn [bind].
    assert (Hf : exists f, forecast prophet gauss p pd 7 = Ok f
                  /\ (forall e, error f = Some e -> growth_pct f = Fin 0)).
    { rewrite forecast_unfold.
      destruct (primary prophet p pd 7) as [f|e] eqn:Ep.
      - exists f. split; [reflexivity|]. intros e He.
        unfold primary in Ep.
        destruct (prophet p pd 7%nat) as [pred|]; cbn [bind] in Ep;
          [|discriminate].
        destruct (idxmax pred); cbn [bind] in Ep; [|discriminate].
        injection Ep as <-. discriminate He.
      - rewrite fallback_closed_form. eexists. split; [reflexivity|].
        intros _ _. reflexivity. }
    destruct Hf as (f & Hf & Hg). rewrite Hf. cbn [bind].
    pose proof (computed_metrics_classify pd m (growth_pct f) Hm) as Hc.
    destruct (classify_product_v2 m (growth_pct f)) as [c|] eqn:Ec;
      [|contradiction].
    cbn [bind]. exists m, f, c. split; [reflexivity|].
    intros e He. unfold classify_product. rewrite <- (Hg e He). exact Ec.
Qed.

Lemma product_health_returns_iff_known_witness :
  product_health prophet_fails gauss_one spreads "Tofu" = Raise IndexError
  /\ exists m f c,
       product_health prophet_fails gauss_one spreads "Butter" = Ok (m, f, c)
       /\ (forall e, error f = Some e -> classify_product m = Ok c).
Proof.
  split.
  - apply (proj1 (product_health_returns_iff_known prophet_fails gauss_one
                    spreads "Tofu")).
    intros r Hr. cbn in Hr.
    repeat (destruct Hr as [<-|Hr]; [discriminate|]). contradiction.
  - apply (proj2 (product_health_returns_iff_known prophet_fails gauss_one
                    spreads "Butter")).
    eexists. split; [left; reflexivity | reflexivity].
Defined.

End PipelineProperties.

(** ** Forecast results *)

Section ForecastProperties.

Import Forecasting Spec Samples.

Lemma fold_left_max_spec (t : list Z) (d : Z) :
  (fold_left Z.max t d = d \/ In (fold_left Z.max t d) t)
  /\ (d <= fold_left Z.max t d)%Z
  /\ (forall x, In x t -> (x <= fold_left Z.max t d)%Z).
Proof.
  revert d. induction t as [|a t IH]; intro d; cbn [fold_left].
  - split; [left; reflexivity|]. split; [lia | contradiction].
  - destruct (IH (Z.max d a)) as (H1 & H2 & H3).
    split; [|split].
    + destruct H1 as [H1|H1]; [|right; right; exact H1].
      rewrite H1. destruct (Z.max_spec d a) as [[_ E]|[_ E]]; rewrite E.
      * right. left. reflexivity.
      * left. reflexivity.
    + lia.
    + intros x [<-|Hx]; [lia | apply H3; exact Hx].
Qed.

Lemma date_max_spec (l : list Z) :
  l <> [] ->
  exists last, date_max l = Some last
               /\ In last l /\ (forall d, In d l -> (d <= last)%Z).
Proof.
  intro H. destruct l as [|d t]; [congruence|].
  destruct (fold_left_max_spec t d) as (H1 & H2 & H3).
  exists (fold_left Z.max t d). split; [reflexivity|]. split.
  - destruct H1 as [H1|H1]; [left; symmetry; exact H1 | right; exact H1].
  - intros x [<-|Hx]; [exact H2 | apply H3; exact Hx].
Qed.

Lemma fallback_ok_inv (data : DataFrame) (periods : nat) (gauss : nat -> Q)
    (e : exn) (r : ForecastResult) :
  fallback data periods gauss e = Ok r ->
  let s := tail 30 (map sales data) in
  let row i :=
    let v := pymax (Fin 0) (mean s + std s * Fin 0.2 * Fin (gauss i))%fl in
    mkForecastRow (add_days (date_max (map date data)) (Z.of_nat i + 1))
      v (pymax (Fin 0) (v - std s)%fl) (v + std s)%fl in
  (1 <= periods)%nat
  /\ forecast_df r = map row (seq 0 periods)
  /\ recent_avg r = mean s /\ forecast_avg r = mean s
  /\ growth_pct r = Fin 0
  /\ peak_day r = r_date (row 0%nat)
  /\ model r = false /\ error r = Some e.
Proof.
  intros H s row. rewrite fallback_closed_form in H. fold s in H. fold row in H.
  destruct periods as [|p]; [discriminate|].
  remember (seq 0 (S p)) as days eqn:Ed.
  injection H as <-. rewrite Ed. cbn.
  split; [lia|]. auto 10.
Qed.

(** X9. The fallback forecast has one row per requested day, dated on the
    consecutive days that follow the latest date of the history, and reports
    the first of them as its peak day. *)
Theorem fallback_dates_follow_history
    (data : DataFrame) (periods : nat) (gauss : nat -> Q) (e : exn)
    (r : ForecastResult) :
  data <> [] -> fallback data periods gauss e = Ok r ->
  exists last,
    In last (map date data)
    /\ (forall d, In d (map date data) -> (d <= last)%Z)
    /\ length (forecast_df r) = periods
    /\ (forall i row, nth_error (forecast_df r) i = Some row ->
          r_date row = Some (last + (Z.of_nat i + 1))%Z)
    /\ peak_day r = Some (last + 1)%Z.
Proof.
  intros Hne H. apply fallback_ok_inv in H.
  destruct H as (_ & Hdf & _ & _ & _ & Hpk & _).
  destruct (date_max_spec (map date data)) as (last & Hl & Hin & Hmax).
  { destruct data; [congruence | discriminate]. }
  exists last. split; [exact Hin|]. split; [exact Hmax|].
  rewrite Hdf, Hpk. cbn [r_date]. rewrite Hl.
  split; [rewrite length_map, length_seq; reflexivity|].
  split; [|reflexivity].
  intros i row Hi. apply nth_error_map_seq in Hi. destruct Hi as [_ ->].
  reflexivity.
Qed.

Lemma fallback_dates_follow_history_witness :
  exists r last,
    fallback history3 2 gauss_one ValueError = Ok r
    /\ In last (map date history3)
    /\ (forall i row, nth_error (forecast_df r) i = Some row ->
          r_date row = Some (last + (Z.of_nat i + 1))%Z)
    /\ peak_day r = Some (last + 1)%Z.
Proof.
  destruct (fallback history3 2 gauss_one ValueError) as [r|] eqn:E;
    [|vm_compute in E; discriminate].
  destruct (fallback_dates_follow_history history3 2 gauss_one ValueError r
              ltac:(discriminate) E) as (last & H1 & _ & _ & H4 & H5).
  exists r, last. auto.
Defined.

Lemma pymax_zero_fin (x : Q) :
  pymax (Fin 0) (Fin x) = Fin (if Qlt_bool 0 x then x else 0).
Proof. unfold pymax, fgt. cbn [flt]. destruct (Qlt_bool 0 x); reflexivity. Qed.

(** X10. On a history of at least two points every row of the fallback forecast is
    finite and ordered: [0 <= lower <= forecast <= upper]. *)
Theorem fallback_rows_ordered
    (data : DataFrame) (periods : nat) (gauss : nat -> Q) (e : exn)
    (r : ForecastResult) :
  (2 <= length data)%nat -> fallback data periods gauss e = Ok r ->
  forall row, In row (forecast_df r) ->
    exists lo v hi,
      r_forecast_lower row = Fin lo /\ r_forecast row = Fin v
      /\ r_forecast_upper row = Fin hi
      /\ 0 <= lo /\ lo <= v /\ v <= hi.
Proof.
  intros Hlen H row Hin. apply fallback_ok_inv in H.
  destruct H as (_ & Hdf & _). rewrite Hdf in Hin. apply in_map_iff in Hin.
  destruct Hin as (i & <- & _). cbv zeta.
  cbn [r_forecast r_forecast_lower r_forecast_upper].
  set (s := tail 30 (map sales data)).
  assert (Hs : (2 <= length s)%nat).
  { unfold s. rewrite tail_length, length_map. lia. }
  rewrite (mean_fin s) by lia. rewrite (std_fin s Hs).
  pose proof (qstd_nonneg s) as Hq.
  cbn [fmul fadd]. rewrite !pymax_zero_fin. cbn [fsub fopp fadd].
  rewrite !pymax_zero_fin.
  eexists. eexists. eexists.
  split; [reflexivity|]. split; [reflexivity|]. split; [reflexivity|].
  repeat match goal with
         | |- context [Qlt_bool ?a ?b] => destruct (Qlt_bool a b) eqn:?
         end; qbool; lra.
Qed.

Lemma fallback_rows_ordered_witness :
  exists r,
    fallback history3 2 gauss_one ValueError = Ok r
    /\ forall row, In row (forecast_df r) ->
         exists lo v hi,
           r_forecast_lower row = Fin lo /\ r_forecast row = Fin v
           /\ r_forecast_upper row = Fin hi
           /\ 0 <= lo /\ lo <= v /\ v <= hi.
Proof.
  destruct (fallback history3 2 gauss_one ValueError) as [r|] eqn:E;
    [|vm_compute in E; discriminate].
  exists r. split; [reflexivity|].
  apply (fallback_rows_ordered history3 2 gauss_one ValueError r);
    [simpl; lia | exact E].
Defined.

Lemma idxmax_from_spec (l : list PredRow) (best : PredRow) :
  (idxmax_from best l = best \/ In (idxmax_from best l) l)
  /\ yhat best <= yhat (idxmax_from best l)
  /\ (forall q, In q l -> yhat q <= yhat (idxmax_from best l)).
Proof.
  revert best. induction l as [|a t IH]; intro best; cbn [idxmax_from].
  - split; [left; reflexivity|]. split; [lra | contradiction].
  - destruct (Qlt_bool (yhat best) (yhat a)) eqn:L; qbool;
      destruct (IH (if true then a else best)) as (A1 & A2 & A3);
      destruct (IH (if false then a else best)) as (B1 & B2 & B3);
      cbn [fst] in *.
    + split; [|split].
      * destruct A1 as [A1|A1]; [right; left; symmetry; exact A1 | right; right; exact A1].
      * lra.
      * intros q [<-|Hq]; [exact A2 | apply A3; exact Hq].
    + split; [|split].
      * destruct B1 as [B1|B1]; [left; exact B1 | right; right; exact B1].
      * exact B2.
      * intros q [<-|Hq]; [lra | apply B3; exact Hq].
Qed.

Lemma primary_no_error (prophet : Prophet) (name : string) (data : DataFrame)
    (periods : nat) (r : ForecastResult) :
  primary prophet name data periods = Ok r -> error r = None /\ model r = true.
Proof.
  unfold primary. intro H.
  destruct (prophet name data periods) as [pred|]; cbn [bind] in H;
    [|discriminate].
  destruct (idxmax pred) as [peak|]; cbn [bind] in H; [|discriminate].
  injection H as <-. split; reflexivity.
Qed.

(** X11. When Prophet predicts, the result has one row per predicted day, its
    peak day is the date of a predicted day with the largest point estimate,
    it carries no error, and its growth is 0 whenever the recent average is
    not positive (in particular on an empty history). *)
Theorem primary_peak_is_maximal
    (prophet : Prophet) (name : string) (data : DataFrame) (periods : nat)
    (r : ForecastResult) :
  primary prophet name data periods = Ok r ->
  exists pred,
    prophet name data periods = Ok pred
    /\ length (forecast_df r) = length pred
    /\ (exists p, In p pred /\ peak_day r = Some (ds p)
                  /\ forall q, In q pred -> yhat q <= yhat p)
    /\ error r = None
    /\ ((recent_avg r >? Fin 0)%fl = false -> growth_pct r = Fin 0).
Proof.
  unfold primary. intro H.
  destruct (prophet name data periods) as [pred|]; cbn [bind] in H;
    [|discriminate].
  destruct (idxmax pred) as [peak|] eqn:Ep; cbn [bind] in H; [|discriminate].
  injection H as <-. exists pred. split; [reflexivity|].
  cbv beta iota zeta delta [forecast_df peak_day error recent_avg growth_pct].
  split; [apply length_map|]. split; [|split; [reflexivity|]].
  - exists peak. unfold idxmax in Ep. destruct pred as [|a t]; [discriminate|].
    injection Ep as <-.
    destruct (idxmax_from_spec t a) as (H1 & H2 & H3).
    split; [|split; [reflexivity|]].
    + destruct H1 as [H1|H1]; [left; symmetry; exact H1 | right; exact H1].
    + intros q [<-|Hq]; [exact H2 | apply H3; exact Hq].
  - intro Hr. unfold fgt, flt in Hr. rewrite Hr. reflexivity.
Qed.

Lemma primary_peak_is_maximal_witness :
  exists r pred,
    primary prophet_three "Milk" history3 3 = Ok r
    /\ prophet_three "Milk"%string history3 3%nat = Ok pred
    /\ length (forecast_df r) = length pred
    /\ (exists p, In p pred /\ peak_day r = Some (ds p)
                  /\ forall q, In q pred -> yhat q <= yhat p)
    /\ peak_day r = Some 5%Z.
Proof.
  destruct (primary prophet_three "Milk" history3 3) as [r|] eqn:E;
    [|vm_compute in E; discriminate].
  destruct (primary_peak_is_maximal prophet_three "Milk" history3 3 r E)
    as (pred & H1 & H2 & H3 & _).
  exists r, pred. split; [reflexivity|].
  split; [exact H1|]. split; [exact H2|]. split; [exact H3|].
  vm_compute in E. injection E as <-. reflexivity.
Defined.

(** X12. A forecast carries an error exactly when the fallback produced it: then
    there is no model, the growth is 0 and the forecast average is the recent
    average; without an error it is Prophet's own result. *)
Theorem forecast_error_marks_fallback
    (prophet : Prophet) (gauss : nat -> Q) (name : string)
    (data : DataFrame) (periods : nat) (r : ForecastResult) :
  forecast prophet gauss name data periods = Ok r ->
  (error r = None <-> primary prophet name data periods = Ok r)
  /\ (forall e, error r = Some e ->
        primary prophet name data periods = Raise e
        /\ model r = false /\ growth_pct r = Fin 0
        /\ forecast_avg r = recent_avg r
        /\ length (forecast_df r) = periods).
Proof.
  rewrite forecast_unfold.
  destruct (primary prophet name data periods) as [r'|e'] eqn:Ep.
  - intro H. injection H as <-.
    destruct (primary_no_error prophet name data periods r' Ep) as (He & _).
    split; [tauto|]. intros e H. congruence.
  - intro H. apply fallback_ok_inv in H.
    destruct H as (_ & Hdf & Hra & Hfa & Hg & _ & Hm & He).
    split.
    + split; intro H; [congruence | discriminate].
    + intros e H. rewrite He in H. injection H as <-.
      split; [reflexivity|]. split; [exact Hm|]. split; [exact Hg|].
      split; [congruence|]. rewrite Hdf, length_map, length_seq. reflexivity.
Qed.

Lemma forecast_error_marks_fallback_witness :
  exists r,
    forecast prophet_fails gauss_one "Milk" history3 2 = Ok r
    /\ primary prophet_fails "Milk" history3 2 = Raise (LibraryError "fit failed")
    /\ model r = false /\ growth_pct r = Fin 0
    /\ forecast_avg r = recent_avg r
    /\ length (forecast_df r) = 2%nat.
Proof.
  destruct (forecast prophet_fails gauss_one "Milk" history3 2) as [r|] eqn:E;
    [|vm_compute in E; discriminate].
  exists r. split; [reflexivity|].
  apply (proj2 (forecast_error_marks_fallback prophet_fails gauss_one "Milk"
                  history3 2 r E)).
  vm_compute in E. injection E as <-. reflexivity.
Defined.

End ForecastProperties.

(** ** Price, inventory and promotion scenarios *)

Section ScenarioProperties.

Import Simulator Samples.

Lemma inventory_change_inv (product : string) (c n d : Q) :
  0 < c ->
  exists r,
    simulate_inventory_change product c n d = Ok r
    /\ stock_change_pct r = (n - c) / c * 100
    /\ stockout_risk_change r
       = (if Qlt_bool 0 (stock_change_pct r)
          then - qpymin 40 (Qabs (stock_change_pct r) * 0.8) else 0)
    /\ holding_cost_change_pct r = Qabs (stock_change_pct r) * 0.5
    /\ lost_sales_risk_pct r
       = (if Qlt_bool (stock_change_pct r) 0
          then qpymin 30 (Qabs (stock_change_pct r) * 0.6) else 0)
    /\ net_daily_impact r
       = - (d * 2.99 * (holding_cost_change_pct r / 100))
         - (if Qlt_bool (stock_change_pct r) 0
            then d * 2.99 * (lost_sales_risk_pct r / 100) else 0)
    /\ ic_recommendation r
       = (if Qlt_bool 0 (stock_change_pct r)
             && Qlt_bool 20 (if Qlt_bool 0 (stock_change_pct r)
                             then qpymin 40 (Qabs (stock_change_pct r) * 0.8)
                             else 0)
          then INCREASE
          else if Qlt_bool (stock_change_pct r) 0
                  && Qlt_bool 10 (holding_cost_change_pct r)
          then DECREASE else HOLD).
Proof.
  intro Hc. unfold simulate_inventory_change.
  rewrite pydiv_nonzero by lra. cbn [bind].
  eexists. split; [reflexivity|].
  cbv beta iota zeta delta [stock_change_pct stockout_risk_change
    holding_cost_change_pct lost_sales_risk_pct net_daily_impact
    ic_recommendation].
  repeat split; try reflexivity;
    destruct (Qlt_bool 0 ((n - c) / c * 100));
    destruct (Qlt_bool ((n - c) / c * 100) 0); reflexivity.
Qed.

Lemma qpymin_spec (a x : Q) :
  qpymin a x <= a /\ qpymin a x <= x /\ (qpymin a x == a \/ qpymin a x == x).
Proof.
  unfold qpymin. destruct (Qlt_bool x a) eqn:L; qbool.
  - split; [lra|]. split; [lra|]. right. reflexivity.
  - split; [lra|]. split; [lra|]. left. reflexivity.
Qed.

(** X16. The inventory simulation keeps its figures within their caps: the
    stock-out risk change lies in [-40, 0], the lost-sales risk in [0, 30],
    the holding-cost change is not negative, and for a non-negative demand
    the net daily impact is never positive. *)
Theorem inventory_change_bounds (product : string) (c n d : Q) :
  0 < c -> 0 <= d ->
  exists r,
    simulate_inventory_change product c n d = Ok r
    /\ -40 <= stockout_risk_change r <= 0
    /\ 0 <= lost_sales_risk_pct r <= 30
    /\ 0 <= holding_cost_change_pct r
    /\ net_daily_impact r <= 0.
Proof.
  intros Hc Hd.
  destruct (inventory_change_inv product c n d Hc)
    as (r & Hr & _ & Hso & Hhold & Hlost & Hnet & _).
  exists r. split; [exact Hr|].
  set (x := stock_change_pct r) in *.
  pose proof (Qabs_nonneg x) as Ha.
  assert (B1 : -40 <= stockout_risk_change r <= 0).
  { rewrite Hso. destruct (Qlt_bool 0 x); [|lra].
    destruct (qpymin_spec 40 (Qabs x * 0.8)) as (M1 & M2 & [M3|M3]); lra. }
  assert (B2 : 0 <= lost_sales_risk_pct r <= 30).
  { rewrite Hlost. destruct (Qlt_bool x 0); [|lra].
    destruct (qpymin_spec 30 (Qabs x * 0.6)) as (M1 & M2 & [M3|M3]); lra. }
  assert (B3 : 0 <= holding_cost_change_pct r) by (rewrite Hhold; lra).
  split; [exact B1|]. split; [exact B2|]. split; [exact B3|].
  rewrite Hnet.
  assert (P1 : 0 <= d * 2.99 * (holding_cost_change_pct r / 100)).
  { apply Qmult_le_0_compat; [apply Qmult_le_0_compat; lra|].
    apply Qle_shift_div_l; lra. }
  assert (P2 : 0 <= d * 2.99 * (lost_sales_risk_pct r / 100)).
  { apply Qmult_le_0_compat; [apply Qmult_le_0_compat; lra|].
    apply Qle_shift_div_l; lra. }
  destruct (Qlt_bool x 0); lra.
Qed.

Lemma inventory_change_bounds_witness :
  exists r,
    simulate_inventory_change "Milk" 20 5 50 = Ok r
    /\ -40 <= stockout_risk_change r <= 0
    /\ 0 <= lost_sales_risk_pct r <= 30
    /\ 0 <= holding_cost_change_pct r
    /\ net_daily_impact r <= 0.
Proof.
  apply (inventory_change_bounds "Milk" 20 5 50); [reflexivity | discriminate].
Defined.

End ScenarioProperties.

(** ** Synergies and ripple effects *)

Section SynergyEntryProperties.

Import Synergy Spec Samples.





End SynergyEntryProperties.

Section RippleProperties.

Import Synergy Spec Samples.

Lemma scaled_trend_same_sign (t : fl) (c k : Q) :
  (0 < c /\ 0 < k) \/ (c < 0 /\ k < 0) ->
  (fabs t >? Fin 10)%fl = true ->
  same_sign (t * Fin c * Fin k)%fl t.
Proof.
  intros Hck Ht. unfold same_sign, fgt in *.
  assert (Hprod : 0 < c * k).
  { destruct Hck as [[A B]|[A B]].
    - apply Qmult_lt_0_compat; assumption.
    - setoid_replace (c * k) with ((- c) * (- k)) by ring.
      apply Qmult_lt_0_compat; lra. }
  assert (Hinf : forall pos, (inf_signed pos c * Fin k)%fl
                             = if pos then PInf else NInf).
  { intro pos. destruct Hck as [[A B]|[A B]].
    - assert (C1 : (0 ?= c) = Lt) by (apply Qlt_alt; exact A).
      assert (C2 : (0 ?= k) = Lt) by (apply Qlt_alt; exact B).
      unfold inf_signed. rewrite C1. destruct pos; cbn [fmul];
        unfold inf_signed; rewrite C2; reflexivity.
    - assert (C1 : (0 ?= c) = Gt) by (apply Qgt_alt; exact A).
      assert (C2 : (0 ?= k) = Gt) by (apply Qgt_alt; exact B).
      unfold inf_signed. rewrite C1. destruct pos; cbn [fmul];
        unfold inf_signed; rewrite C2; reflexivity. }
  destruct t as [| | |q]; cbn [fabs flt fmul] in *; try discriminate.
  - left. split; [reflexivity|]. rewrite Hinf. reflexivity.
  - right. split; [reflexivity|]. rewrite Hinf. reflexivity.
  - apply Qlt_bool_iff in Ht.
    destruct (Qlt_le_dec 0 q) as [Hq|Hq].
    + left. split; apply Qlt_bool_iff; [exact Hq|].
      setoid_replace (q * c * k) with (q * (c * k)) by ring.
      apply Qmult_lt_0_compat; assumption.
    + assert (Hq' : q < 0).
      { destruct (Qlt_le_dec q 0) as [L|L]; [exact L|].
        rewrite (Qabs_pos q L) in Ht. lra. }
      right. split; apply Qlt_bool_iff; [exact Hq'|].
      assert (0 < (- q) * (c * k)) by (apply Qmult_lt_0_compat; lra).
      setoid_replace (q * c * k) with (- ((- q) * (c * k))) by ring. lra.
Qed.

Lemma ripple_effects_inv (found : list SynergyPair) (data : DataFrame) (rp : Ripple) :
  In rp (_predict_ripple_effects found data) ->
  In (trigger_product rp, trend rp) (recent_trends data)
  /\ (fabs (trend rp) >? Fin 10)%fl = true
  /\ related_products rp
     = flat_map (ripple_of (trigger_product rp) (trend rp)) found
  /\ related_products rp <> [].
Proof.
  unfold _predict_ripple_effects. destruct found as [|s0 rest]; [contradiction|].
  set (all := s0 :: rest). intro H. apply in_flat_map in H.
  destruct H as ([p t] & Hin & Hp).
  destruct (fabs t >? Fin 10)%fl eqn:Ht; [|contradiction].
  destruct (flat_map (ripple_of p t) all) as [|rel rels] eqn:Er; [contradiction|].
  destruct Hp as [<-|[]]. cbn [trigger_product trend related_products].
  split; [exact Hin|]. split; [exact Ht|]. split; [symmetry; exact Er|].
  discriminate.
Qed.

Lemma ripple_of_inv (p : string) (t : fl) (s : SynergyPair) (rel : Related) :
  In rel (ripple_of p t s) ->
  ((product1 s = p /\ rel_product rel = product2 s)
   \/ (product2 s = p /\ rel_product rel = product1 s))
  /\ confidence rel = synergy_score s
  /\ rel_relationship rel = relationship s
  /\ predicted_change rel
     = match relationship s with
       | complementary => (t * correlation s * Fin 0.5)%fl
       | substitute => (t * correlation s * Fin (-0.3))%fl
       end.
Proof.
  unfold ripple_of.
  destruct (String.eqb p (product1 s)) eqn:E1; cbn [orb].
  - apply String.eqb_eq in E1. subst p. rewrite String.eqb_refl.
    intros [<-|[]]. cbn. auto.
  - destruct (String.eqb p (product2 s)) eqn:E2; [|contradiction].
    apply String.eqb_eq in E2. subst p.
    rewrite String.eqb_sym, E1. intros [<-|[]]. cbn. auto.
Qed.

(** X19. Every ripple effect has a trigger whose trend exceeds 10% in magnitude
    and at least one related product; each related product is the partner of
    the trigger in a retained synergy, carries that synergy's score as its
    confidence, and its predicted change has the sign of the trigger's trend,
    for complementary and substitute pairs alike. *)
Theorem ripples_follow_trigger (data : DataFrame) (rp : Ripple) :
  (forall r, In r data -> 0 <= sales r) ->
  In rp (ripple_effects (analyze_product_synergies data)) ->
  (fabs (trend rp) >? Fin 10)%fl = true
  /\ related_products rp <> []
  /\ forall rel, In rel (related_products rp) ->
       same_sign (predicted_change rel) (trend rp)
       /\ exists s,
            In s (synergies (analyze_product_synergies data))
            /\ ((product1 s = trigger_product rp /\ product2 s = rel_product rel)
                \/ (product2 s = trigger_product rp
                    /\ product1 s = rel_product rel))
            /\ confidence rel = synergy_score s.
Proof.
  intros Hd Hin. cbn [analyze_product_synergies ripple_effects] in Hin.
  apply ripple_effects_inv in Hin. destruct Hin as (_ & Ht & Hrel & Hne).
  split; [exact Ht|]. split; [exact Hne|].
  intros rel Hr. rewrite Hrel in Hr. apply in_flat_map in Hr.
  destruct Hr as (s & Hs & Hr).
  apply ripple_of_inv in Hr. destruct Hr as (Hp & Hc & _ & Hv).
  assert (Hd' : Forall (fun r => 0 <= sales r) data)
    by (apply Forall_forall; exact Hd).
  destruct (substitute_correlation data s Hd' Hs) as (c & Ec & Hiff & Hneg).
  split.
  - rewrite Hv, Ec. destruct (relationship s) eqn:R.
    + apply scaled_trend_same_sign; [|exact Ht]. left. split; [|reflexivity].
      destruct (Qlt_le_dec 0 c) as [L|L]; [exact L|]. exfalso.
      assert (N : ~ 0 < c) by lra. apply Hiff in N. discriminate N.
    + apply scaled_trend_same_sign; [|exact Ht]. right.
      split; [|reflexivity]. pose proof (Hneg eq_refl). lra.
  - exists s. split; [exact Hs|]. split; [|exact Hc].
    destruct Hp as [[A B]|[A B]]; [left | right]; split; congruence.
Qed.

Lemma ripples_follow_trigger_witness :
  exists rp,
    In rp (ripple_effects (analyze_product_synergies spreads))
    /\ (fabs (trend rp) >? Fin 10)%fl = true
    /\ related_products rp <> []
    /\ forall rel, In rel (related_products rp) ->
         same_sign (predicted_change rel) (trend rp).
Proof.
  destruct (ripple_effects (analyze_product_synergies spreads)) as [|rp t] eqn:E;
    [vm_compute in E; discriminate|].
  assert (Hin : In rp (ripple_effects (analyze_product_synergies spreads)))
    by (rewrite E; left; reflexivity).
  assert (Hd : forall r, In r spreads -> 0 <= sales r).
  { intros r Hr. cbn in Hr.
    repeat (destruct Hr as [<-|Hr]; [discriminate|]). contradiction. }
  destruct (ripples_follow_trigger spreads rp Hd Hin) as (H1 & H2 & H3).
  exists rp. split; [left; reflexivity|]. split; [exact H1|].
  split; [exact H2|]. intros rel Hr. apply H3. exact Hr.
Defined.

End RippleProperties.

Section PivotProperties.

Import Synergy Spec Samples.

Lemma qsum_map_ext {A} (f g : A -> Q) (l : list A) :
  (forall x, In x l -> f x == g x) -> qsum (map f l) == qsum (map g l).
Proof.
  induction l as [|a t IH]; intro H; [reflexivity|].
  cbn [map qsum]. rewrite (H a (or_introl eq_refl)), IH; [reflexivity|].
  intros x Hx. apply H. right. exact Hx.
Qed.

Lemma qsum_map_add {A} (f g : A -> Q) (l : list A) :
  qsum (map (fun x => f x + g x) l) == qsum (map f l) + qsum (map g l).
Proof.
  induction l as [|a t IH]; [reflexivity|].
  cbn [map qsum]. rewrite IH. ring.
Qed.

Lemma qsum_map_zero {A} (l : list A) : qsum (map (fun _ => 0) l) == 0.
Proof.
  induction l as [|a t IH]; [reflexivity|]. cbn [map qsum]. rewrite IH. ring.
Qed.

Lemma qsum_indicator (x : Z) (v : Q) (ds : list Z) :
  NoDup ds ->
  qsum (map (fun d => if (x =? d)%Z then v else 0) ds)
  == if existsb (Z.eqb x) ds then v else 0.
Proof.
  induction 1 as [|a t Ha Ht IH]; [reflexivity|].
  cbn [map qsum existsb]. rewrite IH.
  destruct (Z.eqb_spec x a) as [->|N]; cbn [orb].
  - assert (E : existsb (Z.eqb a) t = false).
    { destruct (existsb (Z.eqb a) t) eqn:E; [|reflexivity].
      apply existsb_exists in E. destruct E as (y & Hy & Ey).
      apply Z.eqb_eq in Ey. subst y. contradiction. }
    rewrite E. ring.
  - ring.
Qed.

Lemma insert_Z_In (x y : Z) (l : list Z) :
  In y (insert_Z x l) <-> y = x \/ In y l.
Proof.
  induction l as [|a t IH]; cbn [insert_Z]; [simpl; intuition|].
  destruct (x <? a)%Z; [simpl; intuition|].
  destruct (Z.eqb_spec x a) as [->|N]; simpl; [intuition|].
  rewrite IH. intuition.
Qed.

Lemma insert_Z_sorted (x : Z) (l : list Z) :
  StronglySorted Z.lt l -> StronglySorted Z.lt (insert_Z x l).
Proof.
  intro Hs. induction l as [|a t IH]; cbn [insert_Z].
  - constructor; constructor.
  - apply StronglySorted_inv in Hs. destruct Hs as [Hs Ha].
    destruct (Z.ltb_spec x a) as [L|L].
    + constructor; [constructor; assumption|].
      constructor; [exact L|]. rewrite Forall_forall in *.
      intros y Hy. specialize (Ha y Hy). lia.
    + destruct (Z.eqb_spec x a) as [->|N]; [constructor; assumption|].
      constructor; [apply IH; exact Hs|].
      apply Forall_forall. intros y Hy. apply insert_Z_In in Hy.
      destruct Hy as [->|Hy]; [lia|]. rewrite Forall_forall in Ha. auto.
Qed.

Lemma dates_index (l : list Z) :
  StronglySorted Z.lt (fold_right insert_Z [] l)
  /\ (forall d, In d (fold_right insert_Z [] l) <-> In d l).
Proof.
  induction l as [|a t [IH1 IH2]]; cbn [fold_right].
  - split; [constructor | reflexivity].
  - split; [apply insert_Z_sorted; exact IH1|].
    intro d. rewrite insert_Z_In, IH2. simpl. intuition.
Qed.

Lemma sorted_Zlt_NoDup (l : list Z) : StronglySorted Z.lt l -> NoDup l.
Proof.
  induction 1 as [|a t Hs IH Ha]; constructor; [|exact IH].
  intro Hin. rewrite Forall_forall in Ha. specialize (Ha a Hin). lia.
Qed.

Lemma insert_str_In_iff (x y : string) (l : list string) :
  In y (insert_str x l) <-> y = x \/ In y l.
Proof.
  split; [apply insert_str_In|].
  induction l as [|a t IH]; cbn [insert_str]; [simpl; intuition|].
  destruct (String.ltb x a); [simpl; intuition|].
  destruct (String.eqb_spec x a) as [->|N]; simpl; intuition.
Qed.

Lemma labels_index (l : list string) (p : string) :
  In p (fold_right insert_str [] l) <-> In p l.
Proof.
  induction l as [|a t IH]; cbn [fold_right]; [reflexivity|].
  rewrite insert_str_In_iff, IH. simpl. intuition.
Qed.

(** Summing the cells of the rows that satisfy [keep], date by date over an
    index that lists every date once, gives the sum over all those rows. *)
Lemma cells_sum (keep : Row -> bool) (ds : list Z) (l : DataFrame) :
  NoDup ds -> (forall r, In r l -> In (date r) ds) ->
  qsum (map (fun d =>
               qsum (map sales
                       (filter (fun r => (date r =? d)%Z && keep r) l)))
            ds)
  == qsum (map sales (filter keep l)).
Proof.
  intros Hnd. induction l as [|r t IH]; intro Hin.
  - cbn [filter map qsum]. apply qsum_map_zero.
  - assert (Hin' : forall r', In r' t -> In (date r') ds)
      by (intros r' Hr'; apply Hin; right; exact Hr').
    specialize (IH Hin').
    rewrite (qsum_map_ext _
               (fun d => (if (date r =? d)%Z then (if keep r then sales r else 0) else 0)
                         + qsum (map sales
                                   (filter (fun r' => (date r' =? d)%Z && keep r') t)))).
    2:{ intros d _. cbn [filter].
        destruct (date r =? d)%Z, (keep r); cbn [andb map qsum]; ring. }
    rewrite qsum_map_add, IH, qsum_indicator by exact Hnd.
    assert (E : existsb (Z.eqb (date r)) ds = true).
    { apply existsb_exists. exists (date r). split.
      - apply Hin. left. reflexivity.
      - apply Z.eqb_refl. }
    rewrite E. cbn [filter]. destruct (keep r); cbn [map qsum]; ring.
Qed.

(** X20. The pivot table has one column for every product of the dataset and no
    other, all columns have one cell per distinct date, and the cells of a
    column add up to the total sales of its product: pivoting loses and
    invents no sale. *)
Theorem pivot_conserves_sales (data : DataFrame) :
  (forall p, In p (map fst (pivot_table data)) <-> In p (map product data))
  /\ (forall c1 c2, In c1 (pivot_table data) -> In c2 (pivot_table data) ->
        length (snd c1) = length (snd c2))
  /\ (forall c, In c (pivot_table data) ->
        qsum (snd c)
        == qsum (map sales
                   (filter (fun r => String.eqb (product r) (fst c)) data))).
Proof.
  split; [|split].
  - intro p. unfold pivot_table. rewrite map_map. cbn [fst]. rewrite map_id.
    apply labels_index.
  - intros c1 c2 H1 H2. unfold pivot_table in *.
    apply in_map_iff in H1, H2.
    destruct H1 as (p1 & <- & _). destruct H2 as (p2 & <- & _).
    cbn [snd]. rewrite !length_map. reflexivity.
  - intros c Hc. unfold pivot_table in Hc. apply in_map_iff in Hc.
    destruct Hc as (p & <- & _). cbn [fst snd].
    destruct (dates_index (map date data)) as [Hs Hi].
    apply cells_sum.
    + apply sorted_Zlt_NoDup. exact Hs.
    + intros r Hr. apply Hi. apply in_map. exact Hr.
Qed.

Lemma pivot_conserves_sales_witness :
  qsum [1; 2; 3]
  == qsum (map sales (filter (fun r => String.eqb (product r) "Bread") twins)).
Proof.
  apply (proj2 (proj2 (pivot_conserves_sales twins))
           ("Bread"%string, [1; 2; 3])).
  left. reflexivity.
Defined.

End PivotProperties.

Section RecommendationProperties.

Import Synergy SynergyTools Spec Samples.

(** X21. Without a synergy there is the single NO_SYNERGY advice; otherwise there
    is one recommendation for each of the first three synergies, in their
    order: a bundle for a complementary pair, separate merchandising for a
    substitute pair. *)
Theorem recommendations_follow_top_three (found : list SynergyPair) :
  (found = [] ->
   _generate_synergy_recommendations found
   = [mkRecommendation NO_SYNERGY None "Continue current merchandising"])
  /\ (found <> [] ->
      length (_generate_synergy_recommendations found)
      = Nat.min 3 (length found)
      /\ forall i rec,
           nth_error (_generate_synergy_recommendations found) i = Some rec ->
           (i < 3)%nat
           /\ exists s, nth_error found i = Some s
                        /\ rec_product_pair rec = Some (product_pair s)
                        /\ (rec_type rec = BUNDLE_RECOMMENDATION
                            <-> relationship s = complementary)
                        /\ (rec_type rec = SEPARATE_MERCHANDISING
                            <-> relationship s = substitute)).
Proof.
  split; [intros ->; reflexivity|].
  intro Hne. destruct found as [|s0 rest]; [congruence|].
  unfold _generate_synergy_recommendations. set (all := s0 :: rest).
  split; [rewrite length_map, length_firstn; reflexivity|].
  intros i rec H. rewrite nth_error_map in H.
  destruct (nth_error (firstn 3 all) i) as [s|] eqn:E; [|discriminate].
  cbn [option_map] in H. injection H as <-.
  assert (Hi : (i < 3)%nat).
  { assert (L : (i < length (firstn 3 all))%nat)
      by (apply nth_error_Some; congruence).
    rewrite length_firstn in L. lia. }
  split; [exact Hi|]. exists s.
  rewrite nth_error_firstn in E.
  destruct (Nat.ltb_spec i 3); [|lia].
  split; [exact E|].
  destruct (relationship s); cbn; repeat split; intros; congruence.
Qed.

Lemma recommendations_follow_top_three_witness :
  length (_generate_synergy_recommendations
            (synergies (analyze_product_synergies spreads)))
  = Nat.min 3 (length (synergies (analyze_product_synergies spreads))).
Proof.
  apply (proj2 (recommendations_follow_top_three
                  (synergies (analyze_product_synergies spreads)))).
  vm_compute. discriminate.
Defined.

End RecommendationProperties.

Section BundleProperties.

Import Synergy SynergyTools Spec Samples.


Lemma fle_true_flt_false (x y : fl) :
  (y <=? x)%fl = true -> (x <? y)%fl = false.
Proof.
  destruct x, y; cbn; try congruence. intro H.
  unfold Qlt_bool. rewrite H. reflexivity.
Qed.

(** Sorting a list that is already in descending order changes nothing. *)
Lemma sort_desc_sorted_id (l : list SynergyPair) :
  StronglySorted score_ge l -> sort_desc l = l.
Proof.
  induction 1 as [|x t Hs IH Hx]; [reflexivity|].
  unfold sort_desc in *. cbn [fold_right]. rewrite IH.
  destruct t as [|y t']; [reflexivity|]. cbn [insert_desc].
  inversion Hx as [|? ? Hxy _]; subst. unfold score_ge in Hxy.
  rewrite (fle_true_flt_false _ _ Hxy). reflexivity.
Qed.

Lemma StronglySorted_filter {A} (R : A -> A -> Prop) (f : A -> bool) (l : list A) :
  StronglySorted R l -> StronglySorted R (filter f l).
Proof.
  induction 1 as [|x t Hs IH Hx]; [constructor|].
  cbn [filter]. destruct (f x); [|exact IH].
  constructor; [exact IH|].
  apply Forall_forall. intros y Hy. apply filter_In in Hy.
  rewrite Forall_forall in Hx. apply Hx. tauto.
Qed.

Lemma found_sorted (data : DataFrame) :
  StronglySorted score_ge (synergies (analyze_product_synergies data)).
Proof.
  cbn [analyze_product_synergies synergies]. unfold strong_synergies.
  apply sort_desc_sorted. apply Forall_forall. intros e He.
  apply in_flat_map in He. destruct He as (c & _ & Hc).
  eapply candidate_score_not_nan. exact Hc.
Qed.

(** X22. On the synergies of an analysis, the bundle suggestions are the
    complementary pairs in the order of the analysis (the second sort changes
    nothing), cut after [top_n]: never more than [top_n], never a substitute
    pair. *)
Theorem bundle_suggestions_of_analysis (data : DataFrame) (top_n : nat) :
  let found := synergies (analyze_product_synergies data) in
  get_bundle_suggestions found top_n
  = map bundle_of (firstn top_n (filter is_complementary found))
  /\ (length (get_bundle_suggestions found top_n) <= top_n)%nat
  /\ forall b, In b (get_bundle_suggestions found top_n) ->
       exists s, In s found /\ relationship s = complementary
                 /\ bundle_products b = [product1 s; product2 s].
Proof.
  intro found. unfold get_bundle_suggestions.
  rewrite sort_desc_sorted_id
    by (apply StronglySorted_filter; apply found_sorted).
  split; [reflexivity|]. split.
  - rewrite length_map, length_firstn. apply Nat.le_min_l.
  - intros b Hb. apply in_map_iff in Hb. destruct Hb as (s & <- & Hs).
    apply in_firstn_in in Hs. apply filter_In in Hs. destruct Hs as [Hs Hc].
    exists s. split; [exact Hs|]. split; [|reflexivity].
    unfold is_complementary in Hc. destruct (relationship s);
      [reflexivity | discriminate].
Qed.

Lemma bundle_suggestions_of_analysis_witness :
  In (mkBundle "Bread & Eggs Bundle" ["Bread"; "Eggs"]
        "Buy Bread, get Eggs at 20% off")%string
     (get_bundle_suggestions (synergies (analyze_product_synergies twins)) 5)
  /\ exists s, In s (synergies (analyze_product_synergies twins))
               /\ relationship s = complementary
               /\ ["Bread"; "Eggs"]%string = [product1 s; product2 s].
Proof.
  assert (H : In (mkBundle "Bread & Eggs Bundle" ["Bread"; "Eggs"]
                    "Buy Bread, get Eggs at 20% off")%string
                 (get_bundle_suggestions
                    (synergies (analyze_product_synergies twins)) 5))
    by (vm_compute; left; reflexivity).
  split; [exact H|].
  exact (proj2 (proj2 (bundle_suggestions_of_analysis twins 5)) _ H).
Defined.




End BundleProperties.

(** ** The executive summary *)

Section ExecutiveSummary.

Import Forecasting RiskEngine App Spec Samples.

Lemma key_lt_true (x y : Action) :
  is_fin (a_trend x) -> is_fin (a_trend y) ->
  key_lt (action_key y) (action_key x) = true -> action_le y x.
Proof.
  unfold key_lt, action_key, action_le. cbn [fst snd].
  destruct (a_trend x) as [| | |tx], (a_trend y) as [| | |ty];
    try contradiction. intros _ _.
  destruct (Z.eqb_spec (a_priority y) (a_priority x)) as [E|N]; cbn [negb].
  - cbn [fabs fopp feqb flt fle].
    destruct (Qeq_bool (- Qabs ty) (- Qabs tx)); cbn [negb]; [discriminate|].
    intro H. qbool. right. split; [exact E|]. apply Qle_bool_iff. lra.
  - intro H. apply Z.ltb_lt in H. left. exact H.
Qed.

Lemma key_lt_false (x y : Action) :
  is_fin (a_trend x) -> is_fin (a_trend y) ->
  key_lt (action_key y) (action_key x) = false -> action_le x y.
Proof.
  unfold key_lt, action_key, action_le. cbn [fst snd].
  destruct (a_trend x) as [| | |tx], (a_trend y) as [| | |ty];
    try contradiction. intros _ _.
  destruct (Z.eqb_spec (a_priority y) (a_priority x)) as [E|N]; cbn [negb].
  - cbn [fabs fopp feqb flt fle].
    destruct (Qeq_bool (- Qabs ty) (- Qabs tx)) eqn:Q; cbn [negb]; intro H; qbool;
      right; (split; [symmetry; exact E|]); apply Qle_bool_iff; lra.
  - intro H. apply Z.ltb_ge in H. left. lia.
Qed.

Lemma action_le_trans (a b c : Action) :
  action_le a b -> action_le b c -> action_le a c.
Proof.
  unfold action_le. intros [H1|[E1 L1]] [H2|[E2 L2]].
  - left. lia.
  - left. lia.
  - left. lia.
  - right. split; [congruence|]. eapply fle_trans; eassumption.
Qed.

Lemma insert_action_In (x a : Action) (l : list Action) :
  In a (insert_action x l) <-> a = x \/ In a l.
Proof.
  induction l as [|y t IH]; cbn [insert_action]; [simpl; intuition|].
  destruct (key_lt _ _); simpl; [rewrite IH|]; intuition.
Qed.

Lemma sort_actions_In (a : Action) (l : list Action) :
  In a (sort_actions l) <-> In a l.
Proof.
  induction l as [|x t IH]; [reflexivity|].
  unfold sort_actions in *. cbn [fold_right].
  rewrite insert_action_In, IH. simpl. intuition.
Qed.

Lemma insert_action_sorted (x : Action) (l : list Action) :
  is_fin (a_trend x) -> Forall (fun a => is_fin (a_trend a)) l ->
  StronglySorted action_le l -> StronglySorted action_le (insert_action x l).
Proof.
  intros Hx Hl Hs. induction l as [|y t IH]; cbn [insert_action].
  - constructor; constructor.
  - apply StronglySorted_inv in Hs. destruct Hs as [Hs Hy].
    inversion Hl as [|? ? Fy Ft]; subst.
    destruct (key_lt (action_key y) (action_key x)) eqn:K.
    + constructor; [apply IH; assumption|].
      apply Forall_forall. intros a Ha. apply insert_action_In in Ha.
      destruct Ha as [->|Ha].
      * apply key_lt_true; assumption.
      * rewrite Forall_forall in Hy. apply Hy. exact Ha.
    + pose proof (key_lt_false x y Hx Fy K) as Hxy.
      constructor; [constructor; assumption|].
      constructor; [exact Hxy|].
      apply Forall_forall. intros a Ha. rewrite Forall_forall in Hy.
      eapply action_le_trans; [exact Hxy | apply Hy; exact Ha].
Qed.

Lemma sort_actions_sorted (l : list Action) :
  Forall (fun a => is_fin (a_trend a)) l ->
  StronglySorted action_le (sort_actions l).
Proof.
  induction 1 as [|x t Hx Ht IH]; [constructor|].
  unfold sort_actions in *. cbn [fold_right].
  apply insert_action_sorted; [exact Hx | | exact IH].
  apply Forall_forall. intros a Ha. apply (proj1 (sort_actions_In a t)) in Ha.
  rewrite Forall_forall in Ht. apply Ht. exact Ha.
Qed.

Lemma StronglySorted_firstn {A} (R : A -> A -> Prop) (n : nat) (l : list A) :
  StronglySorted R l -> StronglySorted R (firstn n l).
Proof.
  intro Hs. revert n. induction Hs as [|x t Hs IH Hx]; intro n.
  - destruct n; constructor.
  - destruct n; [constructor|]. cbn [firstn]. constructor; [apply IH|].
    apply Forall_forall. intros y Hy. apply in_firstn_in in Hy.
    rewrite Forall_forall in Hx. apply Hx. exact Hy.
Qed.

Lemma mapM_all {A B} (f : A -> result B) (P : A -> B -> Prop) (l : list A) :
  (forall x, In x l -> exists y, f x = Ok y /\ P x y) ->
  exists ys, mapM f l = Ok ys
             /\ forall y, In y ys -> exists x, In x l /\ P x y.
Proof.
  induction l as [|a t IH]; intro H.
  - exists []. split; [reflexivity | contradiction].
  - destruct (H a (or_introl eq_refl)) as (y & Ey & Py).
    destruct IH as (ys & Eys & Pys).
    { intros x Hx. apply H. right. exact Hx. }
    exists (y :: ys). cbn [mapM]. rewrite Ey. cbn [bind]. rewrite Eys.
    split; [reflexivity|].
    intros z [<-|Hz].
    + exists a. split; [left; reflexivity | exact Py].
    + destruct (Pys z Hz) as (x & Hx & Px). exists x. split; [right|]; assumption.
Qed.

Lemma determine_category_priority (r o : Z) :
  let (c, p) := determine_category r o in
  (p = 1 \/ p = 2 \/ p = 3)%Z /\ (p <= 2 -> c <> NEUTRAL)%Z.
Proof.
  unfold determine_category.
  destruct (_ && _); [split; [lia | discriminate]|].
  destruct (_ && _); [split; [lia | discriminate]|].
  destruct (_ >? _)%Z; [split; [lia | discriminate]|].
  destruct (_ >? _)%Z; [split; [lia | discriminate]|].
  split; [lia | lia].
Qed.

(** X24. The executive summary never fails, whatever Prophet does: it returns at
    most three actions, each for a product of the dataset with priority 1 or
    2 (never a NEUTRAL one), ordered by priority and, within a priority, by
    decreasing strength of the weekly trend. *)
Theorem executive_summary_top_actions
    (prophet : Prophet) (gauss : nat -> Q) (data : DataFrame) :
  exists actions,
    show_executive_summary prophet gauss data = Ok actions
    /\ (length actions <= 3)%nat
    /\ (forall a, In a actions ->
          (a_priority a = 1 \/ a_priority a = 2)%Z
          /\ a_category a <> NEUTRAL
          /\ In (a_product a) (map product data))
    /\ StronglySorted action_le actions.
Proof.
  unfold show_executive_summary.
  set (products := app_products data).
  set (to_check := if (10 <? length products)%nat
                   then firstn 10 products else products).
  assert (Hcheck : forall p, In p to_check -> In p (map product data)).
  { intros p Hp. apply (labels_index (map product data)).
    unfold to_check in Hp. destruct (10 <? length products)%nat;
      [eapply in_firstn_in|]; exact Hp. }
  set (good := fun (a : Action) =>
                 ((a_priority a = 1 \/ a_priority a = 2)%Z
                  /\ a_category a <> NEUTRAL
                  /\ In (a_product a) (map product data))
                 /\ is_fin (a_trend a)).
  match goal with
  | |- context [mapM ?f to_check] =>
      destruct (mapM_all f (fun _ l => forall a, In a l -> good a) to_check)
        as (found & Ef & Hf)
  end.
  { intros p Hp. specialize (Hcheck p Hp).
    set (pd := filter (fun r => String.eqb (product r) p) data).
    assert (Hne : pd <> []).
    { apply in_map_iff in Hcheck. destruct Hcheck as (r & Er & Hr).
      intro E. assert (Hin : In r pd).
      { unfold pd. apply filter_In. split; [exact Hr|].
        apply String.eqb_eq. exact Er. }
      rewrite E in Hin. contradiction. }
    destruct (calculate_metrics_returns pd Hne) as [m Hm].
    rewrite Hm. cbn [bind].
    assert (Hfc : exists f, forecast prophet gauss p pd 7 = Ok f).
    { rewrite forecast_unfold. destruct (primary prophet p pd 7) as [f|e].
      - exists f. reflexivity.
      - rewrite fallback_closed_form. eexists. reflexivity. }
    destruct Hfc as [f Hfc]. rewrite Hfc. cbn [bind].
    pose proof (computed_metrics_classify pd m (growth_pct f) Hm) as Hc.
    destruct (classify_product_v2 m (growth_pct f)) as [c|] eqn:Ec;
      [|contradiction].
    cbn [bind]. eexists. split; [reflexivity|].
    destruct (priority c <=? 2)%Z eqn:P; [|contradiction].
    intros a [<-|[]]. unfold good. cbn.
    apply Z.leb_le in P.
    destruct (classify_inv m (growth_pct f) c Ec) as (Hcat & Hprio & _).
    pose proof (determine_category_priority (risk_score_of m)
                  (opportunity_score_of m (growth_pct f))) as D.
    destruct (determine_category _ _) as [cat prio]. cbn [fst snd] in *.
    subst. destruct D as [D1 D2].
    split; [split; [lia | split; [auto | exact Hcheck]]|].
    unfold calculate_metrics in Hm.
    destruct (iloc0 (map product pd)); cbn [bind] in Hm; [|discriminate].
    injection Hm as <-. cbn [trend_7d]. apply trend_is_finite. lia. }
  rewrite Ef. cbn [bind]. eexists. split; [reflexivity|].
  assert (Hall : forall a, In a (concat found) -> good a).
  { intros a Ha. apply in_concat in Ha. destruct Ha as (l & Hl & Hal).
    destruct (Hf l Hl) as (_ & _ & Hgood). apply Hgood. exact Hal. }
  split; [rewrite length_firstn; apply Nat.le_min_l|]. split.
  - intros a Ha. apply in_firstn_in in Ha.
    apply (proj1 (sort_actions_In _ _)) in Ha. apply Hall. exact Ha.
  - apply StronglySorted_firstn. apply sort_actions_sorted.
    apply Forall_forall. intros a Ha. apply Hall. exact Ha.
Qed.

End ExecutiveSummary.

(** * Double precision *)

(** ** Comparison and multiplication of doubles *)

Section FloatFacts.

Import PrimFloat FloatOps SpecFloat FloatAxioms F64.
Local Open Scope float_scope.

Lemma SFcompare_antisym (x y : spec_float) :
  SFcompare y x = option_map CompOpp (SFcompare x y).
Proof.
  destruct x as [sx|sx| |sx mx ex], y as [sy|sy| |sy my ey];
    cbn [SFcompare option_map];
    try (destruct sx); try (destruct sy); try reflexivity;
    change (Pos.compare_cont Eq) with Pos.compare;
    destruct (Z.compare_spec ex ey), (Z.compare_spec ey ex); try lia;
    try reflexivity;
    destruct (Pos.compare_spec mx my), (Pos.compare_spec my mx); try lia;
    reflexivity.
Qed.

Lemma SFcompare_refl (x : spec_float) :
  x <> S754_nan -> SFcompare x x = Some Eq.
Proof.
  destruct x as [s|s| |s m e]; cbn [SFcompare]; intro H;
    try (destruct s); try reflexivity; try congruence;
    change (Pos.compare_cont Eq) with Pos.compare;
    rewrite Z.compare_refl, Pos.compare_refl; reflexivity.
Qed.

Lemma SFleb_trans (x y z : spec_float) :
  SFleb x y = true -> SFleb y z = true -> SFleb x z = true.
Proof.
  unfold SFleb.
  destruct x as [sx|sx| |sx mx ex], y as [sy|sy| |sy my ey],
           z as [sz|sz| |sz mz ez];
    cbn [SFcompare];
    try (destruct sx); try (destruct sy); try (destruct sz);
    try (intros; reflexivity); try (intros; discriminate);
    change (Pos.compare_cont Eq) with Pos.compare;
    destruct (Z.compare_spec ex ey), (Z.compare_spec ey ez),
             (Z.compare_spec ex ez);
    try lia; try (intros; reflexivity); try (intros; discriminate);
    destruct (Pos.compare_spec mx my), (Pos.compare_spec my mz),
             (Pos.compare_spec mx mz);
    cbn [CompOpp];
    try lia; try (intros; reflexivity); try (intros; discriminate).
Qed.

(** A double that compares with something is not NaN. *)
Lemma ltb_not_nan (a x : float) : (a <? x) = true -> Prim2SF x <> S754_nan.
Proof.
  rewrite ltb_spec. unfold SFltb. intros H E. rewrite E in H.
  destruct (Prim2SF a); discriminate.
Qed.

Lemma ltb_leb (x y : float) : (x <? y) = true -> (x <=? y) = true.
Proof.
  rewrite ltb_spec, leb_spec. unfold SFltb, SFleb.
  destruct (SFcompare _ _) as [[]|]; congruence.
Qed.

Lemma ltb_false_leb (x y : float) :
  Prim2SF x <> S754_nan -> Prim2SF y <> S754_nan ->
  (x <? y) = false -> (y <=? x) = true.
Proof.
  intros Hx Hy. rewrite ltb_spec, leb_spec. unfold SFltb, SFleb.
  rewrite (SFcompare_antisym (Prim2SF x) (Prim2SF y)).
  destruct (SFcompare (Prim2SF x) (Prim2SF y)) as [[]|] eqn:E;
    cbn [option_map CompOpp]; try congruence.
  exfalso. destruct (Prim2SF x), (Prim2SF y); cbn [SFcompare] in E;
    congruence.
Qed.

Lemma leb_trans (x y z : float) :
  (x <=? y) = true -> (y <=? z) = true -> (x <=? z) = true.
Proof. rewrite !leb_spec. apply SFleb_trans. Qed.

Lemma SFmul_comm (x y : spec_float) : SF64mul x y = SF64mul y x.
Proof.
  unfold SF64mul.
  destruct x as [sx|sx| |sx mx ex], y as [sy|sy| |sy my ey];
    cbn [SFmul]; rewrite ?(xorb_comm sx sy); try reflexivity.
  rewrite (Pos.mul_comm mx my), (Z.add_comm ex ey). reflexivity.
Qed.

Lemma mul_comm (x y : float) : x * y = y * x.
Proof. apply Prim2SF_inj. rewrite !mul_spec. apply SFmul_comm. Qed.

(** On a value that is not negative, "positive" and "not zero" agree. *)
Lemma positive_iff_nonzero (x : float) :
  (0 <=? x) = true -> (0 <? x) = negb (x =? 0).
Proof.
  rewrite leb_spec, ltb_spec, eqb_spec. unfold SFleb, SFltb, SFeqb.
  rewrite (SFcompare_antisym (Prim2SF 0) (Prim2SF x)).
  destruct (SFcompare (Prim2SF 0) (Prim2SF x)) as [[]|];
    cbn [option_map CompOpp negb]; congruence.
Qed.

End FloatFacts.

(** ** Synergy detection in double precision *)

Section SynergyDoubleProperties.

Import PrimFloat FloatOps SpecFloat FloatAxioms.
Import F64 Synergy Synergy64 Spec64 Samples64.
Local Open Scope float_scope.

Variables frame_corr series_corr : Corr.

Lemma sold_both_nonzero (s1 s2 : list float) :
  nonneg s1 -> nonneg s2 ->
  filter (fun p : float * float => (0 <? fst p) && (0 <? snd p)) (combine s1 s2)
  = filter both_nonzero (combine s1 s2).
Proof.
  intros H1 H2. apply filter_ext_in. intros [a b] Hin. cbn [fst snd].
  unfold both_nonzero. cbn [fst snd].
  unfold nonneg in *. rewrite Forall_forall in H1, H2.
  rewrite (positive_iff_nonzero a) by (apply H1; eapply in_combine_l; eassumption).
  rewrite (positive_iff_nonzero b) by (apply H2; eapply in_combine_r; eassumption).
  reflexivity.
Qed.

(** On columns without missing or negative values the score of the code is
    the score of the specification. *)
Lemma score_is_formula (s1 s2 : list float) :
  nonneg s1 -> nonneg s2 ->
  _calculate_synergy_score series_corr s1 s2
  = synergy_formula s1 s2 (series_corr s1 s2).
Proof.
  intros H1 H2. unfold _calculate_synergy_score, synergy_formula,
    co_occurrence_rate.
  rewrite (sold_both_nonzero s1 s2 H1 H2).
  rewrite (mul_comm 0.6), (mul_comm 0.4).
  destruct s1 as [|a t]; reflexivity.
Qed.

Lemma candidate64_sound (c1 c2 : string * list float) (e : SynergyPair) :
  nonneg (snd c1) -> nonneg (snd c2) ->
  In e (candidate frame_corr series_corr (c1, c2)) ->
  retained frame_corr series_corr (snd c1) (snd c2)
  /\ describes frame_corr series_corr c1 c2 e.
Proof.
  destruct c1 as [p1 s1], c2 as [p2 s2]. cbn [fst snd]. intros H1 H2.
  unfold candidate, retained, describes.
  rewrite (score_is_formula s1 s2 H1 H2).
  destruct (0.6 <? abs (frame_corr s1 s2)); [|contradiction].
  destruct (0.7 <? synergy_formula s1 s2 (series_corr s1 s2));
    [|contradiction].
  intros [<-|[]]. cbn. repeat split; reflexivity.
Qed.

Lemma candidate64_complete (c1 c2 : string * list float) :
  nonneg (snd c1) -> nonneg (snd c2) ->
  retained frame_corr series_corr (snd c1) (snd c2) ->
  exists e, candidate frame_corr series_corr (c1, c2) = [e]
            /\ describes frame_corr series_corr c1 c2 e.
Proof.
  destruct c1 as [p1 s1], c2 as [p2 s2]. cbn [fst snd]. intros H1 H2 [R1 R2].
  unfold candidate, describes.
  rewrite (score_is_formula s1 s2 H1 H2), R1, R2.
  eexists. split; [reflexivity|]. cbn. repeat split; reflexivity.
Qed.

Lemma candidate64_score (c : (string * list float) * (string * list float))
    (e : SynergyPair) :
  In e (candidate frame_corr series_corr c) ->
  (0.7 <? synergy_score e) = true.
Proof.
  destruct c as [[p1 s1] [p2 s2]]. unfold candidate.
  destruct (0.6 <? abs (frame_corr s1 s2)); [|contradiction].
  destruct (0.7 <? _calculate_synergy_score series_corr s1 s2) eqn:E;
    [|contradiction].
  intros [<-|[]]. exact E.
Qed.

Lemma insert_desc64_In (x e : SynergyPair) (l : list SynergyPair) :
  In e (insert_desc x l) <-> e = x \/ In e l.
Proof.
  induction l as [|y t IH]; cbn [insert_desc].
  - simpl. intuition.
  - destruct (synergy_score x <? synergy_score y); simpl.
    + rewrite IH. intuition.
    + intuition.
Qed.

Lemma sort_desc64_In (e : SynergyPair) (l : list SynergyPair) :
  In e (sort_desc l) <-> In e l.
Proof.
  induction l as [|x t IH]; [reflexivity|].
  unfold sort_desc in *. cbn [fold_right]. rewrite insert_desc64_In, IH.
  simpl. intuition.
Qed.

Lemma insert_desc64_sorted (x : SynergyPair) (l : list SynergyPair) :
  scored x -> Forall scored l ->
  StronglySorted score_ge l -> StronglySorted score_ge (insert_desc x l).
Proof.
  intros Hx Hl Hs. induction l as [|y t IH]; cbn [insert_desc].
  - constructor; constructor.
  - apply StronglySorted_inv in Hs. destruct Hs as [Hs Hy].
    inversion Hl as [|? ? Hny Hnt]; subst.
    destruct (synergy_score x <? synergy_score y) eqn:L.
    + constructor; [apply IH; assumption|].
      apply Forall_forall. intros e He. apply insert_desc64_In in He.
      destruct He as [->|He].
      * unfold score_ge. apply ltb_leb. exact L.
      * rewrite Forall_forall in Hy. apply Hy. exact He.
    + assert (Hyx : score_ge x y).
      { unfold score_ge. apply ltb_false_leb; assumption. }
      constructor; [constructor; assumption|].
      constructor; [exact Hyx|].
      apply Forall_forall. intros e He. rewrite Forall_forall in Hy.
      unfold score_ge in *. eapply leb_trans; [apply Hy; exact He | exact Hyx].
Qed.

Lemma sort_desc64_sorted (l : list SynergyPair) :
  Forall scored l -> StronglySorted score_ge (sort_desc l).
Proof.
  induction 1 as [|x t Hx Ht IH]; [constructor|].
  unfold sort_desc in *. cbn [fold_right].
  apply insert_desc64_sorted; [exact Hx | | exact IH].
  apply Forall_forall. intros e He. apply (proj1 (sort_desc64_In e t)) in He.
  rewrite Forall_forall in Ht. apply Ht. exact He.
Qed.

Lemma found64_from_candidate (cols : list (string * list float))
    (e : SynergyPair) :
  In e (strong_synergies frame_corr series_corr cols) <->
  exists c, In c (pairs cols) /\ In e (candidate frame_corr series_corr c).
Proof. unfold strong_synergies. rewrite sort_desc64_In. apply in_flat_map. Qed.

(** C8. Whatever values the two correlation routines of the library return:
    on a pivot table without missing or negative values, a pair of products
    is retained in [synergies] exactly when the correlation the frame gives
    for it exceeds 0.6 in magnitude and the score
    [0.6 * co_occurrence_rate + 0.4 * |correlation|], computed in doubles
    from the correlation of the two series, exceeds 0.7; every entry stands
    for such a pair, stores the frame's correlation and carries that score;
    the entries are in descending order of the score; and two identical
    columns with co-occurrence 1.0 for which both routines return exactly
    1.0 give one entry of score 1.0, classified complementary, with an
    expected lift of 100. *)
Theorem synergies_retained_on_computed_values
    (cols : list (string * list float)) :
  NoDup (map fst cols) ->
  Forall (fun c => nonneg (snd c)) cols ->
  let found := strong_synergies frame_corr series_corr cols in
  (forall c1 c2, In (c1, c2) (pairs cols) ->
     ((exists e, In e found /\ product1 e = fst c1 /\ product2 e = fst c2)
      <-> retained frame_corr series_corr (snd c1) (snd c2)))
  /\ (forall e, In e found ->
        exists c1 c2, In (c1, c2) (pairs cols)
                      /\ retained frame_corr series_corr (snd c1) (snd c2)
                      /\ describes frame_corr series_corr c1 c2 e)
  /\ StronglySorted score_ge found
  /\ (forall p1 p2 s,
        cols = [(p1, s); (p2, s)] ->
        co_occurrence_rate s s = 1 ->
        frame_corr s s = 1 -> series_corr s s = 1 ->
        exists e, found = [e]
                  /\ product1 e = p1 /\ product2 e = p2
                  /\ synergy_score e = 1
                  /\ relationship e = complementary
                  /\ expected_lift e = 100).
Proof.
  intros ND Hd found.
  assert (Hcol : forall c1 c2, In (c1, c2) (pairs cols) ->
                   nonneg (snd c1) /\ nonneg (snd c2)).
  { intros c1 c2 Hin. apply in_pairs in Hin. destruct Hin as [I1 I2].
    rewrite Forall_forall in Hd. split; apply Hd; assumption. }
  assert (Sound : forall e, In e found ->
            exists c1 c2, In (c1, c2) (pairs cols)
                          /\ retained frame_corr series_corr (snd c1) (snd c2)
                          /\ describes frame_corr series_corr c1 c2 e).
  { intros e He. apply found64_from_candidate in He.
    destruct He as ([c1 c2] & Hin & Hc). exists c1, c2.
    destruct (Hcol c1 c2 Hin) as [N1 N2].
    destruct (candidate64_sound c1 c2 e N1 N2 Hc). auto. }
  split; [|split; [exact Sound|split]].
  - intros c1 c2 Hin. destruct (Hcol c1 c2 Hin) as [N1 N2]. split.
    + intros (e & He & E1 & E2).
      destruct (Sound e He) as (d1 & d2 & Hdin & Hret & (D1 & D2 & _)).
      destruct (in_pairs _ _ _ Hin) as [I1 I2].
      destruct (in_pairs _ _ _ Hdin) as [J1 J2].
      assert (d1 = c1) by (apply (NoDup_map_fst_inj cols); congruence).
      assert (d2 = c2) by (apply (NoDup_map_fst_inj cols); congruence).
      subst. exact Hret.
    + intro Hret.
      destruct (candidate64_complete c1 c2 N1 N2 Hret) as (e & Hc & (D1 & D2 & _)).
      exists e. split; [|auto].
      apply found64_from_candidate. exists (c1, c2). split; [exact Hin|].
      rewrite Hc. left. reflexivity.
  - subst found. unfold strong_synergies. apply sort_desc64_sorted.
    apply Forall_forall. intros e He. apply in_flat_map in He.
    destruct He as (c & _ & Hc). unfold scored.
    eapply ltb_not_nan. eapply candidate64_score. exact Hc.
  - intros p1 p2 s Hcols Hco Hf Hs.
    assert (Hin : In ((p1, s), (p2, s)) (pairs cols)).
    { rewrite Hcols. left. reflexivity. }
    destruct (Hcol _ _ Hin) as [N1 _]. cbn [snd] in N1.
    assert (Hret : retained frame_corr series_corr s s).
    { unfold retained, synergy_formula. rewrite Hco, Hf, Hs.
      split; reflexivity. }
    destruct (candidate64_complete (p1, s) (p2, s) N1 N1 Hret)
      as (e & Hc & (D1 & D2 & D3 & D4 & D5 & D6)).
    cbn [fst snd] in *.
    assert (Hscore : synergy_score e = 1).
    { rewrite D4. unfold synergy_formula. rewrite Hco, Hs. reflexivity. }
    exists e. split.
    { subst found. unfold strong_synergies. rewrite Hcols.
      cbn [pairs map app flat_map]. rewrite Hc. reflexivity. }
    split; [exact D1|]. split; [exact D2|]. split; [exact Hscore|].
    split.
    { rewrite D5, D3, Hf. reflexivity. }
    rewrite D6, Hscore. reflexivity.
Qed.

End SynergyDoubleProperties.

Section SynergySamples.

Import PrimFloat FloatOps SpecFloat FloatAxioms.
Import F64 Synergy Synergy64 Spec64 Samples64.
Local Open Scope float_scope.

Lemma same_sales_labels (s : list float) : NoDup (map fst (same_sales s)).
Proof.
  cbn. constructor.
  - intros [E|[]]. discriminate.
  - constructor; [intros []|constructor].
Qed.

(** Two products selling 1, 2, 3: both routines return exactly 1. *)
Lemma synergies_retained_on_computed_values_witness :
  ((exists e, In e (strong_synergies pandas_frame_corr numpy_series_corr
                      (same_sales rising))
              /\ product1 e = "Bread"%string /\ product2 e = "Eggs"%string)
   <-> retained pandas_frame_corr numpy_series_corr rising rising)
  /\ StronglySorted score_ge
       (strong_synergies pandas_frame_corr numpy_series_corr (same_sales rising))
  /\ exists e, strong_synergies pandas_frame_corr numpy_series_corr
                 (same_sales rising) = [e]
               /\ product1 e = "Bread"%string /\ product2 e = "Eggs"%string
               /\ synergy_score e = 1
               /\ relationship e = complementary
               /\ expected_lift e = 100.
Proof.
  assert (Hd : Forall (fun c => nonneg (snd c)) (same_sales rising)).
  { repeat constructor. }
  destruct (synergies_retained_on_computed_values
              pandas_frame_corr numpy_series_corr (same_sales rising)
              (same_sales_labels rising) Hd) as (H1 & _ & H3 & H4).
  split; [|split; [exact H3|]].
  - apply (H1 ("Bread"%string, rising) ("Eggs"%string, rising)).
    left. reflexivity.
  - apply (H4 "Bread"%string "Eggs"%string rising); reflexivity.
Defined.

(** Two products selling 1, 5, 6, nonzero every day: the correlation of the
    two identical series comes out as 0.9999999999999998, so the score is
    not 1.0 and the expected lift is not 100. *)
Lemma identical_series_score_counterexample :
  nonneg uneven
  /\ co_occurrence_rate uneven uneven = 1
  /\ numpy_series_corr uneven uneven = 0.99999999999999978
  /\ exists e, strong_synergies pandas_frame_corr numpy_series_corr
                 (same_sales uneven) = [e]
               /\ synergy_score e = 0.99999999999999989
               /\ (synergy_score e =? 1) = false
               /\ expected_lift e = 99.999999999999986
               /\ (expected_lift e =? 100) = false.
Proof.
  split; [repeat constructor|]. split; [reflexivity|].
  split; [reflexivity|].
  eexists. split; [vm_compute; reflexivity|].
  repeat split; reflexivity.
Qed.

(** The correlation stored in an entry is the frame's, which is not clipped
    and need not be the one the score was made from. *)
Lemma stored_correlation_can_exceed_one :
  let ant := repeat 2 14 ++ repeat 0 7 ++ repeat 3 7 in
  let bee := map (fun v => v + 1) ant in
  pandas_frame_corr ant bee = 1.0000000000000004
  /\ numpy_series_corr ant bee = 1.
Proof. split; vm_compute; reflexivity. Qed.

End SynergySamples.

(** ** The simulator in double precision *)

Section SimulatorDoubleProperties.

Import PrimFloat FloatOps SpecFloat FloatAxioms.
Import F64 Simulator Simulator64 Spec64.
Local Open Scope float_scope.

Lemma zero_is_zero_or_nan (x : float) :
  (x =? 0) = true -> zero_or_nan x = true.
Proof.
  rewrite eqb_spec. unfold zero_or_nan, SFeqb.
  change (Prim2SF 0) with (S754_zero false).
  destruct (Prim2SF x) as [s|s| |s m e]; cbn [SFcompare];
    try reflexivity; try discriminate; destruct s; discriminate.
Qed.

Lemma zero_or_nan_mul_l (x y : float) :
  zero_or_nan x = true -> zero_or_nan (x * y) = true.
Proof.
  unfold zero_or_nan. rewrite mul_spec. unfold SF64mul.
  destruct (Prim2SF x), (Prim2SF y); cbn [SFmul];
    try reflexivity; discriminate.
Qed.

Lemma zero_or_nan_mul_r (x y : float) :
  zero_or_nan y = true -> zero_or_nan (x * y) = true.
Proof. rewrite mul_comm. apply zero_or_nan_mul_l. Qed.

Lemma zero_or_nan_div_l (x y : float) :
  zero_or_nan x = true -> zero_or_nan (x / y) = true.
Proof.
  unfold zero_or_nan. rewrite div_spec. unfold SF64div.
  destruct (Prim2SF x), (Prim2SF y); cbn [SFdiv];
    try reflexivity; discriminate.
Qed.

Lemma zero_or_nan_sub (x y : float) :
  zero_or_nan x = true -> zero_or_nan y = true -> zero_or_nan (x - y) = true.
Proof.
  unfold zero_or_nan. rewrite sub_spec. unfold SF64sub.
  destruct (Prim2SF x) as [sx|sx| |sx mx ex], (Prim2SF y) as [sy|sy| |sy my ey];
    cbn [SFsub]; try reflexivity; try discriminate.
  destruct sx, sy; reflexivity.
Qed.

Lemma zero_or_nan_not_positive (x : float) :
  zero_or_nan x = true -> (0 <? x) = false.
Proof.
  unfold zero_or_nan. rewrite ltb_spec. unfold SFltb.
  change (Prim2SF 0) with (S754_zero false).
  destruct (Prim2SF x); cbn [SFcompare]; try reflexivity; discriminate.
Qed.

Lemma py_int_finite (x : float) :
  finite x = true -> exists z, py_int x = Ok z.
Proof.
  unfold finite, py_int. destruct (Prim2SF x); try discriminate; eauto.
Qed.

(** Without a demand or without a discount the cost is a zero or NaN. *)
Lemma discount_cost_without_base (d dur cd : float) :
  (cd =? 0) = true \/ (d =? 0) = true ->
  zero_or_nan (discount_cost_of d dur cd) = true.
Proof.
  intros [H|H]; unfold discount_cost_of.
  - apply zero_or_nan_mul_l, zero_or_nan_mul_l.
    unfold additional_units_of. apply zero_or_nan_mul_l.
    apply zero_is_zero_or_nan in H.
    apply zero_or_nan_sub; [apply zero_or_nan_mul_l|]; exact H.
  - apply zero_or_nan_mul_r, zero_or_nan_div_l, zero_is_zero_or_nan. exact H.
Qed.

Lemma roi_without_cost (d dur cd : float) :
  zero_or_nan (discount_cost_of d dur cd) = true -> roi_of d dur cd = 0.
Proof.
  intro H. unfold roi_of. rewrite (zero_or_nan_not_positive _ H). reflexivity.
Qed.

(** [product] and [forecast_demand] play no part in the figures. *)
Lemma promotion_ignores_product_and_forecast
    (product product' : string) (d dur cd fd fd' : float) :
  same_figures (simulate_promotion product d dur cd fd)
               (simulate_promotion product' d dur cd fd').
Proof.
  unfold simulate_promotion.
  destruct (py_int (additional_units_of d dur cd)) as [z|e]; cbn;
    repeat split; reflexivity.
Qed.

Lemma In_whole_range (lo z : Z) (n : nat) :
  (lo <= z < lo + Z.of_nat n)%Z -> In z (whole_range lo n).
Proof.
  intro H. unfold whole_range. apply in_map_iff.
  exists (Z.to_nat (z - lo)). split; [lia|]. apply in_seq. lia.
Qed.

(** Every whole-number discount from 1 to 100, duration from 1 to 14 and
    demand from 1 to 100 passes the check. *)
Lemma promotion_grid :
  forallb (fun d =>
    forallb (fun dur =>
      forallb (fun cd => promotion_near_formula d dur cd)
              (whole_range 1 100))
            (whole_range 1 14))
          (whole_range 1 100) = true.
Proof. vm_compute. reflexivity. Qed.

Lemma promotion_on_whole_numbers (product : string) (fd : float) (d dur cd : Z) :
  (1 <= d <= 100)%Z -> (1 <= dur <= 14)%Z -> (1 <= cd <= 100)%Z ->
  exists r, simulate_promotion product (of_Z d) (of_Z dur) (of_Z cd) fd = Ok r
            /\ (Qabs (to_Q (roi_pct r) - roi_formula (inject_Z d))
                <= 1 # 1000000000000)%Q
            /\ (pr_recommendation r = RUN <-> (130 * d < 3000)%Z).
Proof.
  intros Hd Hdur Hcd.
  pose proof promotion_grid as G.
  rewrite forallb_forall in G.
  specialize (G d (In_whole_range 1 d 100 ltac:(cbn; lia))).
  rewrite forallb_forall in G.
  specialize (G dur (In_whole_range 1 dur 14 ltac:(cbn; lia))).
  rewrite forallb_forall in G.
  specialize (G cd (In_whole_range 1 cd 100 ltac:(cbn; lia))).
  unfold promotion_near_formula in G.
  apply andb_true_iff in G. destruct G as [G G3].
  apply andb_true_iff in G. destruct G as [G1 G2].
  destruct (py_int_finite _ G1) as [z Hz].
  unfold simulate_promotion. rewrite Hz. cbn [bind].
  eexists. split; [reflexivity|]. cbn [roi_pct pr_recommendation].
  split; [apply Qle_bool_iff; exact G2|].
  apply Bool.eqb_prop in G3. rewrite G3.
  destruct (130 * d <? 3000)%Z eqn:L.
  - apply Z.ltb_lt in L. split; [intros _; exact L | reflexivity].
  - apply Z.ltb_ge in L. split; [|lia].
    destruct (10 <? _); discriminate.
Qed.

Lemma promotion_without_base (product : string) (d dur cd fd : float) :
  (cd =? 0) = true \/ (d =? 0) = true ->
  finite (additional_units_of d dur cd) = true ->
  exists r, simulate_promotion product d dur cd fd = Ok r
            /\ zero_or_nan (promotion_cost r) = true
            /\ roi_pct r = 0
            /\ pr_recommendation r = AVOID.
Proof.
  intros H Hf. destruct (py_int_finite _ Hf) as [z Hz].
  pose proof (discount_cost_without_base d dur cd H) as Hc.
  unfold simulate_promotion. rewrite Hz. cbn [bind].
  eexists. split; [reflexivity|].
  cbn [promotion_cost roi_pct pr_recommendation].
  rewrite (roi_without_cost d dur cd Hc).
  split; [exact Hc|]. split; reflexivity.
Qed.

End SimulatorDoubleProperties.

Section PromotionRounding.

Import PrimFloat FloatOps SpecFloat FloatAxioms.
Import F64 Simulator Simulator64 Spec64.
Local Open Scope float_scope.

(** C10. In exact arithmetic the ROI of [simulate_promotion] is
    [3000 / discount_pct - 100] for every positive demand, duration, discount
    and reference price, and the answer is RUN exactly when
    [discount_pct < 3000 / 130].  The code computes in doubles: there the
    figures still do not depend on the product or the forecast demand; for
    every whole-number discount from 1 to 100, duration from 1 to 14 and
    demand from 1 to 100 the call returns an ROI within [10^-12] of the
    formula and answers RUN exactly when [130 * discount_pct < 3000]; and
    with a zero demand or a zero discount a call that returns (it does when
    [additional_units] is finite) has a cost that is zero or NaN, an ROI of 0
    and the answer AVOID. *)
Theorem promotion_roi_exact_and_computed :
  (forall (price : Q) (product : string) (d dur cd fd : Q),
     (0 < price)%Q -> (0 < cd)%Q -> (0 < dur)%Q -> (0 < d)%Q ->
     let r := Simulator.simulate_promotion_at price product d dur cd fd in
     (Simulator.roi_pct r == roi_formula d)%Q
     /\ (Simulator.pr_recommendation r = RUN <-> (d < 3000 / 130)%Q))
  /\ (forall (product product' : string) (d dur cd fd fd' : float),
        same_figures (simulate_promotion product d dur cd fd)
                     (simulate_promotion product' d dur cd fd'))
  /\ (forall (product : string) (fd : float) (d dur cd : Z),
        (1 <= d <= 100)%Z -> (1 <= dur <= 14)%Z -> (1 <= cd <= 100)%Z ->
        exists r,
          simulate_promotion product (of_Z d) (of_Z dur) (of_Z cd) fd = Ok r
          /\ (Qabs (to_Q (roi_pct r) - roi_formula (inject_Z d))
              <= 1 # 1000000000000)%Q
          /\ (pr_recommendation r = RUN <-> (130 * d < 3000)%Z))
  /\ (forall (product : string) (d dur cd fd : float),
        (cd =? 0) = true \/ (d =? 0) = true ->
        finite (additional_units_of d dur cd) = true ->
        exists r,
          simulate_promotion product d dur cd fd = Ok r
          /\ zero_or_nan (promotion_cost r) = true
          /\ roi_pct r = 0
          /\ pr_recommendation r = AVOID).
Proof.
  split; [|split; [|split]].
  - intros price product d dur cd fd Hp Hcd Hdur Hd.
    exact (proj1 (promotion_roi_in_exact_arithmetic price product d dur cd fd Hp)
             Hcd Hdur Hd).
  - exact promotion_ignores_product_and_forecast.
  - exact promotion_on_whole_numbers.
  - exact promotion_without_base.
Qed.

(** A 15% discount over 3 days on a demand of 50: in exact arithmetic an
    ROI of exactly 100, in doubles one within [10^-12] of it, RUN both
    times; without a discount no ROI and AVOID. *)
Lemma promotion_roi_exact_and_computed_witness :
  ((Simulator.roi_pct (Simulator.simulate_promotion "Milk" 15 3 50 55)
    == roi_formula 15)%Q
   /\ (Simulator.pr_recommendation (Simulator.simulate_promotion "Milk" 15 3 50 55)
       = RUN <-> (15 < 3000 / 130)%Q))
  /\ (exists r,
        simulate_promotion "Milk" (of_Z 15) (of_Z 3) (of_Z 50) 55 = Ok r
        /\ (Qabs (to_Q (roi_pct r) - roi_formula (inject_Z 15))
            <= 1 # 1000000000000)%Q
        /\ (pr_recommendation r = RUN <-> (130 * 15 < 3000)%Z))
  /\ (exists r,
        simulate_promotion "Milk" 0 3 50 55 = Ok r
        /\ zero_or_nan (promotion_cost r) = true
        /\ roi_pct r = 0
        /\ pr_recommendation r = AVOID).
Proof.
  destruct promotion_roi_exact_and_computed as (H1 & _ & H3 & H4).
  split; [|split].
  - apply (H1 2.99%Q "Milk"%string 15%Q 3%Q 50%Q 55%Q); reflexivity.
  - apply (H3 "Milk"%string 55 15%Z 3%Z 50%Z); lia.
  - apply (H4 "Milk"%string 0 3 50 55); [right|]; reflexivity.
Defined.

(** A discount of 20 gives an ROI of 49.99999999999998 for one day on a
    demand of 75 and of 50 for three days on a demand of 50; and at the
    double nearest to [3000 / 130], which lies below it, on a demand of 50,
    the answer is MODIFY for one day and RUN for five. *)
Lemma promotion_roi_rounding_counterexample :
  exists r1 r2 r3 r4,
    simulate_promotion "Milk" 20 1 75 82.5 = Ok r1
    /\ simulate_promotion "Milk" 20 3 50 55 = Ok r2
    /\ roi_pct r1 = 49.999999999999979
    /\ roi_pct r2 = 50
    /\ Qeq_bool (to_Q (roi_pct r1)) (roi_formula 20) = false
    /\ simulate_promotion "Milk" 23.076923076923077 1 50 55 = Ok r3
    /\ simulate_promotion "Milk" 23.076923076923077 5 50 55 = Ok r4
    /\ pr_recommendation r3 = MODIFY
    /\ pr_recommendation r4 = RUN
    /\ Qlt_bool (to_Q 23.076923076923077) (3000 / 130) = true.
Proof.
  do 4 eexists.
  split; [vm_compute; reflexivity|]. split; [vm_compute; reflexivity|].
  split; [reflexivity|]. split; [reflexivity|]. split; [reflexivity|].
  split; [vm_compute; reflexivity|]. split; [vm_compute; reflexivity|].
  split; [reflexivity|]. split; reflexivity.
Qed.

End PromotionRounding.

Section InventoryWholeDays.

Import PrimFloat FloatOps SpecFloat FloatAxioms.
Import F64 Simulator Simulator64 Spec64.
Local Open Scope float_scope.

Lemma Recommendation_eqb_eq (a b : Recommendation) :
  Recommendation_eqb a b = true -> a = b.
Proof. destruct a, b; cbn; congruence. Qed.

(** Every pair of whole numbers of stock days, the current ones from 1 to
    365 and the new ones from 0 to 365, follows the rule. *)
Lemma inventory_grid :
  forallb (fun c => forallb (fun n => inventory_follows_rule c n)
                            (whole_range 0 366))
          (whole_range 1 365) = true.
Proof. vm_compute. reflexivity. Qed.

(** X15. For whole numbers of stock days, the current ones from 1 to 365
    and the new ones from 0 to 365 (the sliders of the dashboard give 5 to
    60), and for any demand, [simulate_inventory_change] returns and
    recommends INCREASE exactly when the new days exceed 1.25 times the
    current ones, DECREASE exactly when they are below 0.8 times the current
    ones, and HOLD exactly in between. *)
Theorem inventory_recommendation_on_whole_days
    (product : string) (c n : Z) (demand : float) :
  (1 <= c <= 365)%Z -> (0 <= n <= 365)%Z ->
  exists r,
    simulate_inventory_change product (of_Z c) (of_Z n) demand = Ok r
    /\ (ic_recommendation r = INCREASE <-> (5 * c < 4 * n)%Z)
    /\ (ic_recommendation r = DECREASE <-> (5 * n < 4 * c)%Z)
    /\ (ic_recommendation r = HOLD
        <-> (4 * n <= 5 * c /\ 4 * c <= 5 * n)%Z).
Proof.
  intros Hc Hn.
  pose proof inventory_grid as G.
  rewrite forallb_forall in G.
  specialize (G c (In_whole_range 1 c 365 ltac:(cbn; lia))).
  rewrite forallb_forall in G.
  specialize (G n (In_whole_range 0 n 366 ltac:(cbn; lia))).
  unfold inventory_follows_rule in G.
  apply andb_true_iff in G. destruct G as [G1 G2].
  apply negb_true_iff in G1. apply Recommendation_eqb_eq in G2.
  unfold simulate_inventory_change, pydiv. rewrite G1. cbn [bind].
  eexists. split; [reflexivity|]. cbn [ic_recommendation]. rewrite G2.
  unfold whole_days_rule.
  destruct (5 * c <? 4 * n)%Z eqn:L1; [apply Z.ltb_lt in L1|apply Z.ltb_ge in L1];
    [|destruct (5 * n <? 4 * c)%Z eqn:L2;
      [apply Z.ltb_lt in L2|apply Z.ltb_ge in L2]];
    repeat split; intros; try discriminate; try reflexivity; try lia.
Qed.

(** 20 days of stock raised to 26: INCREASE, as [5 * 20 < 4 * 26]. *)
Lemma inventory_recommendation_on_whole_days_witness :
  exists r,
    simulate_inventory_change "Milk" (of_Z 20) (of_Z 26) 50 = Ok r
    /\ (ic_recommendation r = INCREASE <-> (5 * 20 < 4 * 26)%Z)
    /\ (ic_recommendation r = DECREASE <-> (5 * 26 < 4 * 20)%Z)
    /\ (ic_recommendation r = HOLD
        <-> (4 * 26 <= 5 * 20 /\ 4 * 20 <= 5 * 26)%Z).
Proof.
  apply (inventory_recommendation_on_whole_days "Milk" 20 26 50); lia.
Defined.

End InventoryWholeDays.
